(** * Manpower Management System: document tracking and expiry status

    A shallow embedding of the parts of the backend (Go handlers over
    PostgreSQL) and of the frontend helpers (TypeScript) that decide the
    status of an employee's documents:

    - the [documents] table with its primary key, its foreign key and the
      partial unique index of migration 004 ([Schema]);
    - the handlers of [handlers/document.go] ([DocumentHandler]);
    - the status columns of [handlers/employee.go] ([EmployeeHandler]);
    - the dashboard counters ([DashboardHandler]);
    - [getDaysUntil] and [getExpiryStatus] of the frontend ([Utils]);
    - the [compliance_rules] table of migration 007 ([ComplianceRules]);
    - the lifecycle evaluator, fine calculator and aggregator as the
      specification words them ([Engine]).

    A value of SQL type DATE is a day number (days since 1970-01-01) in [Z]
    or one of the special values 'infinity' and '-infinity'; the current
    date is a day number. JavaScript instants are milliseconds since the
    epoch in [Z]; amounts of SQL type DECIMAL(10,2) are hundredths in [Z].

    A handler is a function from the database and its request to the
    response and the database it leaves. Requests are taken as decoded;
    failures of the connection and timeouts, after which the deferred
    rollback leaves the tables as they were, and the rows written to
    activity_log are outside the model. The values a handler draws from its
    environment (gen_random_uuid(), NOW(), CURRENT_DATE, new Date()) are
    explicit arguments, and so are the conversions of a text parameter to
    a DATE and to a UUID.

    The ids are of SQL type UUID and are held in their canonical text. The
    handlers that answer a text that is no UUID as they answer the id of no
    row (the failed query and the empty result lead to the same response)
    take the id in that form; the two Delete handlers tell the two apart
    and take the text of the request together with the conversion. *)

From Stdlib Require Import ZArith List String Ascii Bool Lia.
From Stdlib Require Import Permutation Sorted.
Import ListNotations.
Local Open Scope string_scope.
Local Open Scope Z_scope.

(** ** Calendar dates as day numbers *)

Module Dates.

(** Day number of the proleptic Gregorian date [y]-[m]-[d]. *)
Definition days_from_civil (y m d : Z) : Z :=
  let y' := if m <=? 2 then y - 1 else y in
  let era := y' / 400 in
  let yoe := y' - era * 400 in
  let mp := if 2 <? m then m - 3 else m + 9 in
  let doy := (153 * mp + 2) / 5 + d - 1 in
  let doe := yoe * 365 + yoe / 4 - yoe / 100 + doy in
  era * 146097 + doe - 719468.

Definition is_leap (y : Z) : bool :=
  ((y mod 4 =? 0) && negb (y mod 100 =? 0)) || (y mod 400 =? 0).

Definition days_in_month (y m : Z) : Z :=
  if m =? 2 then (if is_leap y then 29 else 28)
  else if (m =? 4) || (m =? 6) || (m =? 9) || (m =? 11) then 30
  else 31.

Definition digit (c : ascii) : option Z :=
  let n := Z.of_N (N_of_ascii c) - 48 in
  if (0 <=? n) && (n <=? 9) then Some n else None.

Definition digits4 (a b c d : ascii) : option Z :=
  match digit a, digit b, digit c, digit d with
  | Some a, Some b, Some c, Some d => Some (a * 1000 + b * 100 + c * 10 + d)
  | _, _, _, _ => None
  end.

Definition digits2 (a b : ascii) : option Z :=
  match digit a, digit b with
  | Some a, Some b => Some (a * 10 + b)
  | _, _ => None
  end.

(** A value of SQL type DATE: a day, or one of the two special values. *)
Inductive date : Type :=
| neg_infinity
| day (n : Z)
| infinity.

(** The order of DATE values: '-infinity' is before every day and
    'infinity' after. *)
Definition leb (a b : date) : bool :=
  match a, b with
  | neg_infinity, _ => true
  | day _, neg_infinity => false
  | day x, day y => x <=? y
  | day _, infinity => true
  | infinity, infinity => true
  | infinity, _ => false
  end.

Definition ltb (a b : date) : bool := negb (leb b a).

(** [a - b] on DATE values, the number of days between them; [None] is
    the error "cannot subtract infinite dates". *)
Definition minus (a b : date) : option Z :=
  match a, b with
  | day x, day y => Some (x - y)
  | _, _ => None
  end.

(** The date input conversion on the ISO form [YYYY-MM-DD], which is the
    form the frontend sends and the form [expiry_date::text] prints, and on
    the two special values. *)
Definition iso_date_in (s : string) : option date :=
  if String.eqb s "infinity" then Some infinity
  else if String.eqb s "-infinity" then Some neg_infinity
  else
    match list_ascii_of_string s with
    | [y1; y2; y3; y4; "-"%char; m1; m2; "-"%char; d1; d2] =>
        match digits4 y1 y2 y3 y4, digits2 m1 m2, digits2 d1 d2 with
        | Some y, Some m, Some d =>
            if (1 <=? m) && (m <=? 12) && (1 <=? d) && (d <=? days_in_month y m)
            then Some (day (days_from_civil y m d)) else None
        | _, _, _ => None
        end
    | _ => None
    end.

Definition msPerDay : Z := 86400000.

End Dates.

(** ** The documents table *)

Module Schema.

(** [models.Document]: [ExpiryDate] is nullable, every other column is
    NOT NULL. *)
Record Document : Type := mkDocument {
  ID : string;
  EmployeeID : string;
  DocumentType : string;
  ExpiryDate : option Dates.date;
  IsPrimary : bool;
  FileURL : string;
  FileName : string;
  FileSize : Z;
  FileType : string;
  LastUpdated : Z;
  CreatedAt : Z
}.

(** The database as the document handlers see it: the ids of the rows of
    [employees] and the rows of [documents]. *)
Record DB : Type := mkDB {
  employees : list string;
  documents : list Document
}.

Definition set_is_primary (b : bool) (d : Document) : Document :=
  mkDocument (ID d) (EmployeeID d) (DocumentType d) (ExpiryDate d) b
             (FileURL d) (FileName d) (FileSize d) (FileType d)
             (LastUpdated d) (CreatedAt d).

Fixpoint uniqueb (l : list string) : bool :=
  match l with
  | [] => true
  | x :: t => negb (existsb (String.eqb x) t) && uniqueb t
  end.

(** PRIMARY KEY (id). *)
Definition documents_pkey (docs : list Document) : bool :=
  uniqueb (map ID docs).

(** employee_id REFERENCES employees(id). *)
Definition documents_employee_id_fkey (emps : list string) (docs : list Document) : bool :=
  forallb (fun d => existsb (String.eqb (EmployeeID d)) emps) docs.

(** CREATE UNIQUE INDEX idx_documents_primary_per_employee
    ON documents (employee_id) WHERE is_primary = TRUE. *)
Definition idx_documents_primary_per_employee (docs : list Document) : bool :=
  uniqueb (map EmployeeID (filter IsPrimary docs)).

Definition constraints_ok (db : DB) : bool :=
  uniqueb (employees db)
  && documents_pkey (documents db)
  && documents_employee_id_fkey (employees db) (documents db)
  && idx_documents_primary_per_employee (documents db).

(** The statements a writer can send. An UPDATE of [documents] is given by
    its WHERE clause and its SET clause as functions on rows. *)
Inductive Stmt : Type :=
| InsertDocument (row : Document)
| UpdateDocuments (where_ : Document -> bool) (set : Document -> Document)
| DeleteDocuments (where_ : Document -> bool)
| InsertEmployee (id : string)
| DeleteEmployee (id : string).

(** The table contents a statement asks for, before the constraints are
    checked. Deleting an employee cascades to the documents. *)
Definition apply_stmt (db : DB) (s : Stmt) : DB :=
  match s with
  | InsertDocument row => mkDB (employees db) (documents db ++ [row])
  | UpdateDocuments w f =>
      mkDB (employees db) (map (fun d => if w d then f d else d) (documents db))
  | DeleteDocuments w =>
      mkDB (employees db) (filter (fun d => negb (w d)) (documents db))
  | InsertEmployee id => mkDB (employees db ++ [id]) (documents db)
  | DeleteEmployee id =>
      mkDB (filter (fun e => negb (String.eqb e id)) (employees db))
           (filter (fun d => negb (String.eqb (EmployeeID d) id)) (documents db))
  end.

(** A statement that would leave a constraint violated is rejected and
    changes nothing. *)
Definition exec (db : DB) (s : Stmt) : option DB :=
  let db' := apply_stmt db s in
  if constraints_ok db' then Some db' else None.

(** The keys of the partial unique index: the employee of each primary
    document. *)
Definition keys (docs : list Document) : list string :=
  map EmployeeID (filter IsPrimary docs).

(** What the three flag updates of the handlers do to a row:
    SET is_primary = FALSE WHERE employee_id = e AND is_primary = TRUE,
    SET is_primary = FALSE WHERE id = id, SET is_primary = TRUE WHERE id = id. *)
Definition unset_employee (e : string) (x : Document) : Document :=
  if String.eqb (EmployeeID x) e && IsPrimary x then set_is_primary false x else x.
Definition unset_id (id : string) (x : Document) : Document :=
  if String.eqb (ID x) id then set_is_primary false x else x.
Definition set_id (id : string) (x : Document) : Document :=
  if String.eqb (ID x) id then set_is_primary true x else x.

(** An update that changes no column but is_primary. *)
Definition flag_only (g : Document -> Document) : Prop :=
  forall x, exists b, g x = set_is_primary b x.

Definition find_document (id : string) (docs : list Document) : option Document :=
  find (fun d => String.eqb (ID d) id) docs.

Definition count (p : Document -> bool) (docs : list Document) : Z :=
  Z.of_nat (List.length (filter p docs)).

End Schema.

(** ** Query results: ordering and the select list *)

Module Sql.

(** ORDER BY, as the insertion of each row before the first row that does
    not come before it; rows that compare equal keep their order. *)
Fixpoint insert_by {A : Type} (leb : A -> A -> bool) (x : A) (l : list A) : list A :=
  match l with
  | [] => [x]
  | y :: t => if leb x y then x :: l else y :: insert_by leb x t
  end.

Definition order_by {A : Type} (leb : A -> A -> bool) (l : list A) : list A :=
  fold_right (insert_by leb) [] l.

(** ASC NULLS LAST on a nullable date. *)
Definition asc_nulls_last (a b : option Dates.date) : bool :=
  match a, b with
  | Some x, Some y => Dates.leb x y
  | Some _, None => true
  | None, Some _ => false
  | None, None => true
  end.

(** The select list computed on the rows of a query: the error of one row
    ([None]) is the error of the query. *)
Fixpoint select {A B : Type} (f : A -> option B) (l : list A) : option (list B) :=
  match l with
  | [] => Some []
  | a :: t =>
      match f a, select f t with
      | Some b, Some bs => Some (b :: bs)
      | _, _ => None
      end
  end.

End Sql.

(** ** handlers/employee.go: query parameters, CSV cells, error texts *)

Module EmployeeQuery.

Definition MaxInt64 : Z := 9223372036854775807.
Definition MinInt64 : Z := -9223372036854775808.

(** Arithmetic of Go's 64-bit [int]: the result wraps around. *)
Definition wrap (z : Z) : Z := (z - MinInt64) mod 2 ^ 64 + MinInt64.

(** [page] and [limit] are what strconv.Atoi returned for the two query
    parameters (0 for text that is no number, the nearest bound for a
    number out of range). *)
Definition page_of (page : Z) : Z := if page <? 1 then 1 else page.

Definition limit_of (limit : Z) : Z :=
  if (limit <? 1) || (100 <? limit) then 20 else limit.

(** offset := (page - 1) * limit *)
Definition offset_of (page limit : Z) : Z :=
  wrap (wrap (page_of page - 1) * limit_of limit).

(** The whitelist of sort columns. *)
Definition allowedSorts (sortBy : string) : option string :=
  if String.eqb sortBy "name" then Some "e.name"
  else if String.eqb sortBy "joining_date" then Some "e.joining_date"
  else if String.eqb sortBy "created_at" then Some "e.created_at"
  else if String.eqb sortBy "salary" then Some "e.salary"
  else None.

Definition sortCol (sortBy : string) : string :=
  match allowedSorts sortBy with
  | Some c => c
  | None => "e.name"
  end.

Definition sortOrder_of (sortOrder : string) : string :=
  if String.eqb sortOrder "desc" then "desc" else "asc".

(** The ORDER BY clause List formats into its query. *)
Definition order_clause (sortBy sortOrder : string) : string :=
  "ORDER BY " ++ sortCol sortBy ++ " " ++ sortOrder_of sortOrder.

Definition quote : ascii := "034"%char.
Definition comma : ascii := ","%char.

(** strings.Contains(s, c) for a pattern of the one byte [c]. *)
Fixpoint Contains (s : string) (c : ascii) : bool :=
  match s with
  | EmptyString => false
  | String x t => Ascii.eqb x c || Contains t c
  end.

(** strings.ReplaceAll(s, q, qq) for the quote character: every quote is
    doubled. *)
Fixpoint ReplaceAll_quote (s : string) : string :=
  match s with
  | EmptyString => EmptyString
  | String x t =>
      if Ascii.eqb x quote then String quote (String quote (ReplaceAll_quote t))
      else String x (ReplaceAll_quote t)
  end.

(** [csvEscape]. *)
Definition csvEscape (s : string) : string :=
  if Contains s comma || Contains s quote
  then String quote (ReplaceAll_quote s ++ String quote EmptyString)
  else s.

(** [nilIfEmpty]. *)
Definition nilIfEmpty (s : string) : option string :=
  if String.eqb s "" then None else Some s.

(** [searchString]: the loop over i = 0 .. len(s) - len(substr), which runs
    no round when [substr] is the longer; [rounds] counts the rounds left. *)
Fixpoint searchString_loop (s substr : string) (i rounds : nat) : bool :=
  match rounds with
  | O => false
  | S rounds' =>
      if String.eqb (substring i (String.length substr) s) substr then true
      else searchString_loop s substr (S i) rounds'
  end.

Definition searchString (s substr : string) : bool :=
  searchString_loop s substr 0
    (Z.to_nat (Z.of_nat (String.length s) - Z.of_nat (String.length substr) + 1)).

(** [contains]. *)
Definition contains (s substr : string) : bool :=
  Nat.leb (String.length substr) (String.length s) && searchString s substr.

(** [isDuplicateKeyError], on the text of an error that is not nil. *)
Definition isDuplicateKeyError (err : option string) : bool :=
  match err with
  | None => false
  | Some msg => contains msg "duplicate key" || contains msg "23505"
  end.

End EmployeeQuery.

(** ** handlers/document.go *)

Module DocumentHandler.
Import Schema.

(** What a handler writes back: the HTTP status, the message and, where
    the handler returns one, the document. *)
Record Response : Type := mkResponse {
  status : Z;
  message : string;
  data : option Document
}.

Definition JSONError (st : Z) (msg : string) : Response := mkResponse st msg None.
Definition JSON (st : Z) (msg : string) (doc : option Document) : Response :=
  mkResponse st msg doc.

Module CreateDocumentRequest.
Record t : Type := mk {
  DocumentType : string;
  ExpiryDate : option string;
  FileURL : string;
  FileName : string;
  FileSize : Z;
  FileType : string
}.

(** [Validate]: true when the error map is empty. *)
Definition Validate (r : t) : bool :=
  negb (Nat.ltb (String.length (DocumentType r)) 2)
  && negb (String.eqb (FileURL r) "")
  && negb (String.eqb (FileName r) "").
End CreateDocumentRequest.

Module UpdateDocumentRequest.
Record t : Type := mk {
  DocumentType : option string;
  ExpiryDate : option string;
  FileURL : option string;
  FileName : option string;
  FileSize : option Z;
  FileType : option string;
  IsPrimary : option bool
}.
End UpdateDocumentRequest.

Module RenewRequest.
Record t : Type := mk {
  ExpiryDate : string;
  FileURL : string;
  FileName : string;
  FileSize : Z;
  FileType : string
}.
End RenewRequest.

Definition is_some {A : Type} (o : option A) : bool :=
  match o with Some _ => true | None => false end.

Definition or_else {A : Type} (o : option A) (a : A) : A :=
  match o with Some x => x | None => a end.

(** [docCols], the column list of every RETURNING clause of the handlers,
    qualifies each of its columns by [d]. *)
Definition docCols_qualifier : string := "d".

(** The name by which a statement on [documents] can qualify a column: the
    alias where the statement gives the table one, else the name of the
    table. *)
Definition range_name (alias : option string) : string := or_else alias "documents".

(** A statement that ends with RETURNING docCols. Where [d] is not the name
    the statement gives the table, the database rejects the statement
    ("missing FROM-clause entry for table d") and nothing is written. *)
Definition exec_returning_docCols (alias : option string) (db : DB) (s : Stmt) : option DB :=
  if String.eqb docCols_qualifier (range_name alias) then exec db s else None.

Section WithDateInput.

(** The conversion of a text parameter to a DATE by the database;
    [None] is its "invalid input syntax" error. *)
Variable date_in : string -> option Dates.date.

(** The conversion of a text parameter to a UUID, given in its canonical
    text; [None] is the "invalid input syntax for type uuid" error. *)
Variable uuid_in : string -> option string.

(** A nullable text parameter bound to a DATE column. *)
Definition bind_date (p : option string) : option (option Dates.date) :=
  match p with
  | None => Some None
  | Some s => match date_in s with
              | Some d => Some (Some d)
              | None => None
              end
  end.

(** POST /api/employees/{employeeId}/documents. [new_id] is the value
    gen_random_uuid() draws and [now] the value of NOW(). The column
    is_primary takes its default FALSE. The statement is
    INSERT INTO documents (...) VALUES (...) RETURNING docCols, which gives
    the table no alias. *)
Definition Create (db : DB) (employeeID : string) (req : CreateDocumentRequest.t)
           (new_id : string) (now : Z) : Response * DB :=
  if String.eqb employeeID "" then (JSONError 400 "Employee ID is required", db)
  else if negb (CreateDocumentRequest.Validate req)
  then (JSON 422 "Validation failed" None, db)
  else if negb (existsb (String.eqb employeeID) (employees db))
  then (JSONError 404 "Employee not found", db)
  else
    match bind_date (CreateDocumentRequest.ExpiryDate req) with
    | None => (JSONError 500 "Failed to create document", db)
    | Some expiry =>
        let doc := mkDocument new_id employeeID
                     (CreateDocumentRequest.DocumentType req) expiry false
                     (CreateDocumentRequest.FileURL req)
                     (CreateDocumentRequest.FileName req)
                     (CreateDocumentRequest.FileSize req)
                     (CreateDocumentRequest.FileType req) now now in
        match exec_returning_docCols None db (InsertDocument doc) with
        | None => (JSONError 500 "Failed to create document", db)
        | Some db' => (JSON 201 "Document created successfully" (Some doc), db')
        end
    end.

(** The SET clause [Update] builds: one assignment per field present in
    the request, then last_updated = NOW(). The request's [IsPrimary]
    is never read. *)
Definition update_set (req : UpdateDocumentRequest.t) (expiry : option Dates.date) (now : Z)
           (d : Document) : Document :=
  mkDocument (ID d) (EmployeeID d)
    (or_else (UpdateDocumentRequest.DocumentType req) (DocumentType d))
    (match UpdateDocumentRequest.ExpiryDate req with
     | Some _ => expiry
     | None => ExpiryDate d
     end)
    (IsPrimary d)
    (or_else (UpdateDocumentRequest.FileURL req) (FileURL d))
    (or_else (UpdateDocumentRequest.FileName req) (FileName d))
    (or_else (UpdateDocumentRequest.FileSize req) (FileSize d))
    (or_else (UpdateDocumentRequest.FileType req) (FileType d))
    now (CreatedAt d).

Definition no_set_clauses (req : UpdateDocumentRequest.t) : bool :=
  negb (is_some (UpdateDocumentRequest.DocumentType req)
        || is_some (UpdateDocumentRequest.ExpiryDate req)
        || is_some (UpdateDocumentRequest.FileURL req)
        || is_some (UpdateDocumentRequest.FileName req)
        || is_some (UpdateDocumentRequest.FileSize req)
        || is_some (UpdateDocumentRequest.FileType req)).

(** PUT /api/documents/{id}. The statement is
    UPDATE documents d SET ... WHERE d.id = ... RETURNING docCols. Every
    failure of it, a missing row as well as a rejected date, is answered
    404. *)
Definition Update (db : DB) (id : string) (req : UpdateDocumentRequest.t) (now : Z)
  : Response * DB :=
  if String.eqb id "" then (JSONError 400 "Document ID is required", db)
  else if no_set_clauses req then (JSONError 400 "No fields to update", db)
  else
    match bind_date (UpdateDocumentRequest.ExpiryDate req) with
    | None => (JSONError 404 "Document not found", db)
    | Some expiry =>
        match exec_returning_docCols (Some "d") db
                (UpdateDocuments (fun d => String.eqb (ID d) id)
                                 (update_set req expiry now)) with
        | None => (JSONError 404 "Document not found", db)
        | Some db' =>
            match find_document id (documents db') with
            | None => (JSONError 404 "Document not found", db)
            | Some doc => (JSON 200 "Document updated successfully" (Some doc), db')
            end
        end
    end.

(** PATCH /api/documents/{id}/primary. The three UPDATEs run in one
    transaction: when one of them fails, or the handler returns early,
    the deferred rollback leaves the tables as they were. *)
Definition TogglePrimary (db : DB) (id : string) : Response * DB :=
  if String.eqb id "" then (JSONError 400 "Document ID is required", db)
  else
    match find_document id (documents db) with
    | None => (JSONError 404 "Document not found", db)
    | Some d =>
        let employeeID := EmployeeID d in
        let expiryExists := is_some (ExpiryDate d) in
        let currentlyPrimary := IsPrimary d in
        if negb expiryExists
        then (JSONError 400 "Cannot set as primary: document has no expiry date", db)
        else
          let tx :=
            if currentlyPrimary
            then exec db (UpdateDocuments (fun x => String.eqb (ID x) id)
                                          (set_is_primary false))
            else
              match exec db (UpdateDocuments
                               (fun x => String.eqb (EmployeeID x) employeeID
                                         && IsPrimary x)
                               (set_is_primary false)) with
              | Some db1 => exec db1 (UpdateDocuments (fun x => String.eqb (ID x) id)
                                                      (set_is_primary true))
              | None => None
              end in
          match tx with
          | None => (JSONError 500 "Failed to toggle primary", db)
          | Some db' => (JSON 200 "Primary document updated successfully" None, db')
          end
    end.

(** DELETE /api/documents/{id}. [id] is the text of the request: where it
    is no UUID the DELETE fails, which is answered 500, while a UUID that no
    row has affects no row, which is answered 404. *)
Definition Delete (db : DB) (id : string) : Response * DB :=
  if String.eqb id "" then (JSONError 400 "Document ID is required", db)
  else
    match uuid_in id with
    | None => (JSONError 500 "Failed to delete document", db)
    | Some u =>
        match exec db (DeleteDocuments (fun d => String.eqb (ID d) u)) with
        | None => (JSONError 500 "Failed to delete document", db)
        | Some db' =>
            if existsb (fun d => String.eqb (ID d) u) (documents db)
            then (JSON 200 "Document deleted successfully" None, db')
            else (JSONError 404 "Document not found", db')
        end
    end.

(** The row the INSERT of [Renew] gives: employee and type of the old
    document, the new expiry date, is_primary TRUE, and the old file
    columns wherever the request leaves the new ones empty. *)
Definition renewed_document (old : Document) (req : RenewRequest.t) (expiry : Dates.date)
           (new_id : string) (now : Z) : Document :=
  mkDocument new_id (EmployeeID old) (DocumentType old) (Some expiry) true
    (if String.eqb (RenewRequest.FileURL req) "" then FileURL old
     else RenewRequest.FileURL req)
    (if String.eqb (RenewRequest.FileName req) "" then FileName old
     else RenewRequest.FileName req)
    (if 0 <? RenewRequest.FileSize req then RenewRequest.FileSize req
     else FileSize old)
    (if String.eqb (RenewRequest.FileType req) "" then FileType old
     else RenewRequest.FileType req)
    now now.

(** POST /api/documents/{id}/renew. The UPDATE and the INSERT run in one
    transaction; the INSERT is
    INSERT INTO documents (...) VALUES (...) RETURNING docCols, which gives
    the table no alias. When a statement fails the deferred rollback leaves
    the tables as they were. *)
Definition Renew (db : DB) (oldID : string) (req : RenewRequest.t)
           (new_id : string) (now : Z) : Response * DB :=
  if String.eqb oldID "" then (JSONError 400 "Document ID is required", db)
  else if String.eqb (RenewRequest.ExpiryDate req) ""
  then (JSONError 422 "New expiry date is required", db)
  else
    match find_document oldID (documents db) with
    | None => (JSONError 404 "Original document not found", db)
    | Some old =>
        match exec db (UpdateDocuments
                         (fun x => String.eqb (EmployeeID x) (EmployeeID old)
                                   && IsPrimary x)
                         (set_is_primary false)) with
        | None => (JSONError 500 "Failed to archive old document", db)
        | Some db1 =>
            match date_in (RenewRequest.ExpiryDate req) with
            | None => (JSONError 500 "Failed to create renewed document", db)
            | Some expiry =>
                let newDoc := renewed_document old req expiry new_id now in
                match exec_returning_docCols None db1 (InsertDocument newDoc) with
                | None => (JSONError 500 "Failed to create renewed document", db)
                | Some db2 => (JSON 201 "Document renewed successfully" (Some newDoc), db2)
                end
            end
        end
    end.

(** One step of the database: a document handler runs, or some writer
    sends a statement of its own, which the constraints check. *)
Inductive step : DB -> DB -> Prop :=
| step_Create db employeeID req new_id now :
    step db (snd (Create db employeeID req new_id now))
| step_Update db id req now :
    step db (snd (Update db id req now))
| step_TogglePrimary db id :
    step db (snd (TogglePrimary db id))
| step_Delete db id :
    step db (snd (Delete db id))
| step_Renew db oldID req new_id now :
    step db (snd (Renew db oldID req new_id now))
| step_exec db s db' :
    exec db s = Some db' -> step db db'.

(** The state migration 004 leaves: the constraints hold and, the new
    column having its default, no document is primary. *)
Definition after_migration_004 (db : DB) : Prop :=
  constraints_ok db = true /\ forallb (fun d => negb (IsPrimary d)) (documents db) = true.

Inductive reachable : DB -> Prop :=
| reachable_init db : after_migration_004 db -> reachable db
| reachable_step db db' : reachable db -> step db db' -> reachable db'.

End WithDateInput.

End DocumentHandler.

(** ** handlers/employee.go: the status columns of List and GetByID *)

Module EmployeeHandler.
Import Schema.

Inductive DocStatus : Type := none | expired | expiring | valid.

(** CASE WHEN pd.expiry_date IS NULL THEN 'none'
         WHEN pd.expiry_date < CURRENT_DATE THEN 'expired'
         WHEN pd.expiry_date <= CURRENT_DATE + INTERVAL '30 days' THEN 'expiring'
         ELSE 'valid' END AS doc_status *)
Definition doc_status (CURRENT_DATE : Z) (expiry_date : option Dates.date) : DocStatus :=
  match expiry_date with
  | None => none
  | Some x =>
      if Dates.ltb x (Dates.day CURRENT_DATE) then expired
      else if Dates.leb x (Dates.day (CURRENT_DATE + 30)) then expiring
      else valid
  end.

(** (pd.expiry_date - CURRENT_DATE) AS expiry_days_left: NULL for a NULL
    date and an error ([None]) for an infinite one. *)
Definition expiry_days_left (CURRENT_DATE : Z) (expiry_date : option Dates.date)
  : option (option Z) :=
  match expiry_date with
  | None => Some None
  | Some x => option_map Some (Dates.minus x (Dates.day CURRENT_DATE))
  end.

(** The computed fields of [models.EmployeeWithCompany]. *)
Record StatusColumns : Type := mkStatusColumns {
  DocStatusOf : DocStatus;
  ExpiryDaysLeft : option Z;
  PrimaryDocType : option string
}.

(** LEFT JOIN documents pd ON pd.employee_id = e.id AND pd.is_primary = TRUE,
    for the employee row with id [e]: one row for each matching document,
    and one row of NULLs when there is none. *)
Definition left_join_primary (docs : list Document) (e : string) : list (option Document) :=
  match filter (fun pd => String.eqb (EmployeeID pd) e && IsPrimary pd) docs with
  | [] => [None]
  | l => map Some l
  end.

Definition pd_expiry_date (pd : option Document) : option Dates.date :=
  match pd with
  | None => None
  | Some d => ExpiryDate d
  end.

(** The three computed columns of a row of the join; [None] where the
    subtraction raises. *)
Definition status_columns (CURRENT_DATE : Z) (pd : option Document) : option StatusColumns :=
  match expiry_days_left CURRENT_DATE (pd_expiry_date pd) with
  | Some days => Some (mkStatusColumns (doc_status CURRENT_DATE (pd_expiry_date pd))
                                       days (option_map DocumentType pd))
  | None => None
  end.

(** What the status columns read of a joined document. *)
Definition read_columns (d : Document) : option Dates.date * string :=
  (ExpiryDate d, DocumentType d).

(** GET /api/employees/{id}: QueryRow scans the first row of the join.
    [None] is the 404 'Employee not found', which answers an unknown
    employee and a query that raises alike. *)
Definition GetByID (CURRENT_DATE : Z) (db : DB) (id : string) : option StatusColumns :=
  if existsb (String.eqb id) (employees db)
  then match Sql.select (status_columns CURRENT_DATE)
                        (left_join_primary (documents db) id) with
       | Some rows => hd_error rows
       | None => None
       end
  else None.

(** The doc-status filter of List. A comparison with a NULL expiry date is
    not true, so the row is dropped whenever a filter is set. *)
Definition statusFilter (docStatus : string) (CURRENT_DATE : Z) (pd : option Document) : bool :=
  if String.eqb docStatus "expiring" then
    match pd_expiry_date pd with
    | Some x => Dates.leb (Dates.day CURRENT_DATE) x
                && Dates.leb x (Dates.day (CURRENT_DATE + 30))
    | None => false
    end
  else if String.eqb docStatus "expired" then
    match pd_expiry_date pd with
    | Some x => Dates.ltb x (Dates.day CURRENT_DATE)
    | None => false
    end
  else if String.eqb docStatus "valid" || String.eqb docStatus "active" then
    match pd_expiry_date pd with
    | Some x => Dates.ltb (Dates.day (CURRENT_DATE + 30)) x
    | None => false
    end
  else true.

(** FROM employees e LEFT JOIN documents pd ON ... WHERE ..., without the
    filters on the employee's own columns: the rows both queries of List
    range over, each an employee with the joined primary document. *)
Definition from_where (CURRENT_DATE : Z) (db : DB) (docStatus : string)
  : list (string * option Document) :=
  flat_map
    (fun e => map (pair e)
                  (filter (statusFilter docStatus CURRENT_DATE)
                          (left_join_primary (documents db) e)))
    (employees db).

(** The select list of List on a row. *)
Definition list_columns (CURRENT_DATE : Z) (row : string * option Document)
  : option (string * StatusColumns) :=
  option_map (pair (fst row)) (status_columns CURRENT_DATE (snd row)).

(** GET /api/employees for a request without filters on the employee's own
    columns: the rows of the page and the total of the count query, or
    [None] where the query of the rows raises. [order] is the comparison
    ORDER BY makes on the sort column of two employees, a column of the
    employee that is not modelled; [page] and [limit] are what
    strconv.Atoi returned. The select list is computed on every row the
    WHERE clause keeps, then the rows are ordered and the page is cut, as
    the SQL standard orders the three; a negative OFFSET is an error of the
    query. The properties of List below are about the answers without
    error and hold as well where only the rows of the page are computed. *)
Definition List (CURRENT_DATE : Z) (db : DB) (docStatus : string)
           (order : string -> string -> bool) (page limit : Z)
  : option (list (string * StatusColumns) * Z) :=
  let total := Z.of_nat (List.length (from_where CURRENT_DATE db docStatus)) in
  let offset := EmployeeQuery.offset_of page limit in
  if offset <? 0 then None
  else
    match Sql.select (list_columns CURRENT_DATE)
                     (Sql.order_by (fun r1 r2 => order (fst r1) (fst r2))
                                   (from_where CURRENT_DATE db docStatus)) with
    | Some rows =>
        Some (firstn (Z.to_nat (EmployeeQuery.limit_of limit))
                     (skipn (Z.to_nat offset) rows),
              total)
    | None => None
    end.

End EmployeeHandler.

(** ** The dashboard counters *)

Module DashboardHandler.
Import Schema.

(** [models.DashboardMetrics]. *)
Record DashboardMetrics : Type := mkDashboardMetrics {
  TotalEmployees : Z;
  ActiveDocuments : Z;
  ExpiringSoon : Z;
  Expired : Z
}.

(** WHERE is_primary = TRUE AND expiry_date IS NOT NULL, and then the
    date condition [cond]. *)
Definition tracked (cond : Dates.date -> bool) (d : Document) : bool :=
  IsPrimary d && match ExpiryDate d with
                 | Some x => cond x
                 | None => false
                 end.

(** expiry_date > CURRENT_DATE + INTERVAL '30 days' *)
Definition is_active (CURRENT_DATE : Z) (x : Dates.date) : bool :=
  Dates.ltb (Dates.day (CURRENT_DATE + 30)) x.
(** expiry_date BETWEEN CURRENT_DATE AND CURRENT_DATE + INTERVAL '30 days' *)
Definition is_expiring_soon (CURRENT_DATE : Z) (x : Dates.date) : bool :=
  Dates.leb (Dates.day CURRENT_DATE) x && Dates.leb x (Dates.day (CURRENT_DATE + 30)).
(** expiry_date < CURRENT_DATE *)
Definition is_expired (CURRENT_DATE : Z) (x : Dates.date) : bool :=
  Dates.ltb x (Dates.day CURRENT_DATE).

(** GET /api/dashboard/metrics, the four counts taken on one state of the
    tables and one value of CURRENT_DATE. *)
Definition GetMetrics (CURRENT_DATE : Z) (db : DB) : DashboardMetrics :=
  mkDashboardMetrics
    (Z.of_nat (List.length (employees db)))
    (count (tracked (is_active CURRENT_DATE)) (documents db))
    (count (tracked (is_expiring_soon CURRENT_DATE)) (documents db))
    (count (tracked (is_expired CURRENT_DATE)) (documents db)).

End DashboardHandler.

(** ** Frontend helpers (lib/utils.ts) *)

Module Utils.

(** date-fns [differenceInDays]: the number of full days between two
    instants, truncated towards zero (in a zone whose offset does not
    change between them). *)
Definition differenceInDays (laterDate earlierDate : Z) : Z :=
  Z.quot (laterDate - earlierDate) Dates.msPerDay.

(** [new Date(s)] for a date-only string [s]: midnight UTC of that day. *)
Definition new_Date (day : Z) : Z := day * Dates.msPerDay.

(** [getDaysUntil(date)]: [now] is the instant [new Date()] reads from
    the clock of the browser; it is no argument of the source function. *)
Definition getDaysUntil (now : Z) (date : Z) : Z :=
  differenceInDays (new_Date date) now.

Inductive ExpiryStatus : Type := expired | urgent | warning | valid.

Definition getExpiryStatus (now : Z) (expiryDate : Z) : ExpiryStatus :=
  let daysLeft := getDaysUntil now expiryDate in
  if daysLeft <? 0 then expired
  else if daysLeft <=? 7 then urgent
  else if daysLeft <=? 30 then warning
  else valid.

End Utils.

(** ** migrations/007_admin_settings.sql: the compliance_rules table *)

Module ComplianceRules.

(** A row of compliance_rules; [company_id] is NULL for a global rule.
    The reference of [company_id] to companies, with its cascade, only
    deletes rows, as a [Delete] statement does. *)
Record ComplianceRule : Type := mkComplianceRule {
  id : string;
  company_id : option string;
  doc_type : string;
  grace_period_days : Z;
  fine_per_day : Z;
  fine_type : string;
  fine_cap : Z;
  is_mandatory : option bool;
  created_at : Z;
  updated_at : Z
}.

Fixpoint pairwise {A : Type} (ok : A -> A -> bool) (l : list A) : bool :=
  match l with
  | [] => true
  | x :: t => forallb (ok x) t && pairwise ok t
  end.

(** PRIMARY KEY (id). *)
Definition pkey_distinct (r1 r2 : ComplianceRule) : bool :=
  negb (String.eqb (id r1) (id r2)).

(** UNIQUE(company_id, doc_type): two rows clash when both columns are
    equal, and a NULL company_id is equal to nothing. *)
Definition company_doc_type_distinct (r1 r2 : ComplianceRule) : bool :=
  match company_id r1, company_id r2 with
  | Some c1, Some c2 => negb (String.eqb c1 c2 && String.eqb (doc_type r1) (doc_type r2))
  | _, _ => true
  end.

(** CREATE UNIQUE INDEX idx_compliance_rules_global_unique
    ON compliance_rules(doc_type) WHERE company_id IS NULL. *)
Definition global_distinct (r1 r2 : ComplianceRule) : bool :=
  match company_id r1, company_id r2 with
  | None, None => negb (String.eqb (doc_type r1) (doc_type r2))
  | _, _ => true
  end.

Definition constraints_ok (rules : list ComplianceRule) : bool :=
  pairwise pkey_distinct rules
  && pairwise company_doc_type_distinct rules
  && pairwise global_distinct rules.

Inductive Stmt : Type :=
| Insert (row : ComplianceRule)
| Update (where_ : ComplianceRule -> bool) (set : ComplianceRule -> ComplianceRule)
| Delete (where_ : ComplianceRule -> bool).

Definition apply_stmt (rules : list ComplianceRule) (s : Stmt) : list ComplianceRule :=
  match s with
  | Insert row => rules ++ [row]
  | Update w f => map (fun r => if w r then f r else r) rules
  | Delete w => filter (fun r => negb (w r)) rules
  end.

Definition exec (rules : list ComplianceRule) (s : Stmt) : option (list ComplianceRule) :=
  let rules' := apply_stmt rules s in
  if constraints_ok rules' then Some rules' else None.

(** The VALUES of the seed: doc_type, grace_period_days, fine_per_day,
    fine_type, fine_cap, the amounts in hundredths. *)
Definition seed_values : list (string * Z * Z * string * Z) :=
  [ ("passport",         0,     0, "daily",           0);
    ("visa",             0,  5000, "daily",           0);
    ("emirates_id",     30,  2000, "daily",      100000);
    ("work_permit",     50, 50000, "one_time",    50000);
    ("health_insurance", 0, 50000, "monthly",  15000000);
    ("iloe_insurance",   0, 40000, "one_time",    40000);
    ("medical_fitness",  0,     0, "daily",           0) ].

Definition seed_row (new_id : string) (now : Z) (v : string * Z * Z * string * Z)
  : ComplianceRule :=
  match v with
  | (a, b, c, d, e) => mkComplianceRule new_id None a b c d e None now now
  end.

Fixpoint seed_rows (new_ids : nat -> string) (now : Z) (i : nat)
         (vs : list (string * Z * Z * string * Z)) : list ComplianceRule :=
  match vs with
  | [] => []
  | v :: vs' => seed_row (new_ids i) now v :: seed_rows new_ids now (S i) vs'
  end.

(** The seeding INSERT ... WHERE NOT EXISTS (SELECT 1 FROM compliance_rules):
    it inserts the seven global rows into an empty table and nothing into
    a table that has a row. [new_ids i] is the [i]-th id drawn. *)
Definition seed (new_ids : nat -> string) (now : Z) (rules : list ComplianceRule)
  : option (list ComplianceRule) :=
  match rules with
  | [] => let rules' := seed_rows new_ids now 0 seed_values in
          if constraints_ok rules' then Some rules' else None
  | _ :: _ => Some rules
  end.

Inductive step : list ComplianceRule -> list ComplianceRule -> Prop :=
| step_seed rules new_ids now rules' :
    seed new_ids now rules = Some rules' -> step rules rules'
| step_exec rules s rules' :
    exec rules s = Some rules' -> step rules rules'.

(** The rules store starts as the empty table CREATE TABLE makes. *)
Inductive reachable : list ComplianceRule -> Prop :=
| reachable_empty : reachable []
| reachable_step rules rules' : reachable rules -> step rules rules' -> reachable rules'.

Definition is_global_rule_for (t : string) (r : ComplianceRule) : bool :=
  match company_id r with
  | None => String.eqb (doc_type r) t
  | Some _ => false
  end.

Definition is_company_rule_for (c t : string) (r : ComplianceRule) : bool :=
  match company_id r with
  | Some c' => String.eqb c' c && String.eqb (doc_type r) t
  | None => false
  end.

End ComplianceRules.

(** ** The compliance engine of the specification *)

Module Engine.

(** Modelled from the spec: the five lifecycle states of section 4.2; the
    evaluator that produces them is not among the sources. *)
Inductive LifecycleState : Type :=
| Incomplete | Valid | ExpiringSoon | InGrace | PenaltyActive.

(** Modelled from the spec: the fine accrual types of section 3. *)
Inductive FineType : Type := daily | monthly | one_time.

(** Modelled from the spec: the effective rule of section 4.1, the fields
    the evaluator and the calculator read. Amounts are in hundredths. *)
Record EffectiveRule : Type := mkEffectiveRule {
  graceDays : Z;
  fineRate : Z;
  fineType : FineType;
  fineCap : Z
}.

(** Modelled from the spec: what the evaluator reads of a date-bearing
    DocumentRecord (section 3): whether its other required fields are
    populated, and its expiry date. *)
Record DocumentRecord : Type := mkDocumentRecord {
  requiredFieldsSet : bool;
  expiryDate : option Z
}.

(** Modelled from the spec: Evaluate of section 4.2 for a document whose
    type carries dates, the five rules in their order, first match wins. *)
Definition Evaluate (document : DocumentRecord) (effectiveRule : EffectiveRule)
           (asOfDate : Z) : LifecycleState :=
  match expiryDate document with
  | None => Incomplete
  | Some expiry =>
      if negb (requiredFieldsSet document) then Incomplete
      else if expiry + graceDays effectiveRule <? asOfDate then PenaltyActive
      else if expiry <? asOfDate then InGrace
      else if expiry - asOfDate <=? 30 then ExpiringSoon
      else Valid
  end.

(** Modelled from the spec: the strict priority of section 4.6,
    PenaltyActive > InGrace > ExpiringSoon > Incomplete > Valid. *)
Definition priority (s : LifecycleState) : Z :=
  match s with
  | PenaltyActive => 4
  | InGrace => 3
  | ExpiringSoon => 2
  | Incomplete => 1
  | Valid => 0
  end.

(** Modelled from the spec: the Aggregator of section 4.6, the state of
    highest priority among those of all the documents. *)
Definition Aggregate (states : list LifecycleState) : LifecycleState :=
  fold_right (fun s acc => if priority acc <? priority s then s else acc) Valid states.

(** Modelled from the spec: days overdue beyond grace, floored at zero
    (section 4.3). *)
Definition daysOverdueBeyondGrace (expiry : Z) (effectiveRule : EffectiveRule)
           (asOfDate : Z) : Z :=
  Z.max 0 (asOfDate - (expiry + graceDays effectiveRule)).

(** Modelled from the spec: the raw amount by fine type (section 4.3);
    the monthly count is the ceiling of days / 30. *)
Definition rawFine (effectiveRule : EffectiveRule) (days : Z) : Z :=
  match fineType effectiveRule with
  | daily => fineRate effectiveRule * days
  | monthly => fineRate effectiveRule * ((days + 29) / 30)
  | one_time => fineRate effectiveRule
  end.

(** Modelled from the spec: clamp to [0, fineCap] if fineCap > 0, pass
    through when fineCap = 0 (section 4.3). *)
Definition clamp (cap : Z) (amount : Z) : Z :=
  if 0 <? cap then Z.max 0 (Z.min cap amount) else amount.

(** Modelled from the spec: Accrue of section 4.3; the Fine Calculator is
    not among the sources. *)
Definition Accrue (document : DocumentRecord) (effectiveRule : EffectiveRule)
           (lifecycleState : LifecycleState) (asOfDate : Z) : Z :=
  match lifecycleState, expiryDate document with
  | PenaltyActive, Some expiry =>
      clamp (fineCap effectiveRule)
            (rawFine effectiveRule (daysOverdueBeyondGrace expiry effectiveRule asOfDate))
  | _, _ => 0
  end.

(** Modelled from the spec: graceDaysRemaining of section 4.3,
    graceDays - (asOfDate - expiryDate), which the scenario of section 8
    has at 0 once the grace is used up. *)
Definition graceDaysRemaining (document : DocumentRecord) (effectiveRule : EffectiveRule)
           (asOfDate : Z) : Z :=
  match expiryDate document with
  | Some expiry => Z.max 0 (graceDays effectiveRule - (asOfDate - expiry))
  | None => 0
  end.

(** An amount of whole currency units, in hundredths. *)
Definition AED (n : Z) : Z := n * 100.

(** Modelled from the spec: the fine type a rule row names. *)
Definition fine_type_of_string (s : string) : option FineType :=
  if String.eqb s "daily" then Some daily
  else if String.eqb s "monthly" then Some monthly
  else if String.eqb s "one_time" then Some one_time
  else None.

(** Modelled from the spec: Resolve of section 4.1 on the four fields a
    rule row always holds: the row of the organization when there is one,
    else the global row, else RuleNotFound ([None]). *)
Definition Resolve (rules : list ComplianceRules.ComplianceRule)
           (documentType : string) (organizationID : option string)
  : option EffectiveRule :=
  let own := match organizationID with
             | Some c => find (ComplianceRules.is_company_rule_for c documentType) rules
             | None => None
             end in
  let row := match own with
             | Some r => Some r
             | None => find (ComplianceRules.is_global_rule_for documentType) rules
             end in
  match row with
  | Some r =>
      match fine_type_of_string (ComplianceRules.fine_type r) with
      | Some ft => Some (mkEffectiveRule (ComplianceRules.grace_period_days r)
                                         (ComplianceRules.fine_per_day r) ft
                                         (ComplianceRules.fine_cap r))
      | None => None
      end
  | None => None
  end.

(** The evaluator's view of a stored document: every column but the
    expiry date is NOT NULL, so the expiry date is the one field that can
    be unset. The specification has calendar dates only: an infinite date
    is no date of its DocumentRecord. *)
Definition snapshot (d : Schema.Document) : DocumentRecord :=
  mkDocumentRecord true
    (match Schema.ExpiryDate d with
     | Some (Dates.day n) => Some n
     | _ => None
     end).

(** The status of the employee list that stands for a lifecycle state:
    the list has one 'expired' for both states past expiry. *)
Definition doc_status_of (s : LifecycleState) : EmployeeHandler.DocStatus :=
  match s with
  | Incomplete => EmployeeHandler.none
  | Valid => EmployeeHandler.valid
  | ExpiringSoon => EmployeeHandler.expiring
  | InGrace => EmployeeHandler.expired
  | PenaltyActive => EmployeeHandler.expired
  end.

(** Modelled from the spec: the aggregate status of section 4.6 for
    employee [e], over the states of all the documents of [e], each under
    the rule of its type. *)
Definition aggregateStatus (docs : list Schema.Document) (e : string)
           (rule_for : string -> EffectiveRule) (asOfDate : Z) : LifecycleState :=
  Aggregate
    (map (fun d => Evaluate (snapshot d) (rule_for (Schema.DocumentType d)) asOfDate)
         (filter (fun d => String.eqb (Schema.EmployeeID d) e) docs)).

End Engine.

(** ** Sample data *)

Module Sample.
Import Schema.

Definition today : Z := Dates.days_from_civil 2026 3 1.

Definition passport : Document :=
  mkDocument "d-passport" "emp-1" "passport" (Some (Dates.day (today + 200))) true
             "https://cdn/p.pdf" "p.pdf" 1048576 "application/pdf" 100 100.

Definition visa : Document :=
  mkDocument "d-visa" "emp-1" "visa" None false
             "https://cdn/v.pdf" "v.pdf" 2048 "application/pdf" 100 100.

Definition permit : Document :=
  mkDocument "d-permit" "emp-2" "work_permit" (Some (Dates.day (today + 12))) true
             "https://cdn/w.pdf" "w.pdf" 4096 "application/pdf" 100 100.

Definition db : DB := mkDB ["emp-1"; "emp-2"] [passport; visa; permit].

(** The sort order of the sample lists: the ids stand for the sort column. *)
Definition by_id (e1 e2 : string) : bool := String.leb e1 e2.

(** The passport stored with the date 'infinity', as an Update with that
    text leaves it. *)
Definition passport_forever : Document :=
  mkDocument "d-passport" "emp-1" "passport" (Some Dates.infinity) true
             "https://cdn/p.pdf" "p.pdf" 1048576 "application/pdf" 100 300.

(** The work permit stored with the date '-infinity'. *)
Definition permit_lapsed : Document :=
  mkDocument "d-permit" "emp-2" "work_permit" (Some Dates.neg_infinity) true
             "https://cdn/w.pdf" "w.pdf" 4096 "application/pdf" 100 300.

(** The same documents before any of them is made primary. *)
Definition db0 : DB :=
  mkDB ["emp-1"; "emp-2"]
       [set_is_primary false passport; visa; set_is_primary false permit].

Definition renewal : DocumentHandler.RenewRequest.t :=
  DocumentHandler.RenewRequest.mk "2028-03-13" "" "w2.pdf" 0 "".

(** The seeded Emirates ID rule: 30 days of grace, 20.00 a day, capped at
    1000.00. *)
Definition emirates_id_rule : Engine.EffectiveRule :=
  Engine.mkEffectiveRule 30 2000 Engine.daily 100000.

Definition no_grace_rule : Engine.EffectiveRule :=
  Engine.mkEffectiveRule 0 2000 Engine.daily 100000.

Definition expiry_0219 : Z := Dates.days_from_civil 2026 2 19.

Definition emirates_id : Document :=
  mkDocument "d-eid" "emp-2" "emirates_id" (Some (Dates.day expiry_0219)) false
             "https://cdn/e.pdf" "e.pdf" 512 "application/pdf" 100 100.

Definition rule_ids (i : nat) : string :=
  String (ascii_of_nat (48 + i)) "-rule".

Definition visa_override : ComplianceRules.ComplianceRule :=
  ComplianceRules.mkComplianceRule "org-rule" (Some "company-1") "visa"
                                   30 5000 "daily" 0 None 7 7.

(** The seeded global rules and one rule of a company. *)
Definition rules : list ComplianceRules.ComplianceRule :=
  (ComplianceRules.seed_rows rule_ids 5 0 ComplianceRules.seed_values
   ++ [visa_override])%list.

End Sample.


(** ** handlers/document.go: the two reading handlers *)

Module DocumentQueries.
Import Schema DocumentHandler.

(** GET /api/documents/{id}: the document joined with its employee (and the
    employee's company); the names the join adds are columns of tables that
    are not modelled. *)
Definition GetByID (db : DB) (id : string) : Response :=
  if String.eqb id "" then JSONError 400 "Document ID is required"
  else
    match find (fun d => String.eqb (ID d) id
                         && existsb (String.eqb (EmployeeID d)) (employees db))
               (documents db) with
    | None => JSONError 404 "Document not found"
    | Some d => JSON 200 "" (Some d)
    end.

(** ORDER BY d.is_primary DESC, d.expiry_date ASC NULLS LAST *)
Definition list_order (d1 d2 : Document) : bool :=
  if Bool.eqb (IsPrimary d1) (IsPrimary d2)
  then Sql.asc_nulls_last (ExpiryDate d1) (ExpiryDate d2)
  else IsPrimary d1.

(** GET /api/employees/{id}/documents: an error response, or the status 200
    with the documents of the employee. An unknown employee is no error. *)
Definition ListByEmployee (db : DB) (employeeID : string) : Response + list Document :=
  if String.eqb employeeID "" then inl (JSONError 400 "Employee ID is required")
  else inr (Sql.order_by list_order
              (filter (fun d => String.eqb (EmployeeID d) employeeID) (documents db))).

End DocumentQueries.


(** ** The expiry alerts of the dashboard *)

Module DashboardAlerts.
Import Schema.

Inductive AlertStatus : Type := expired | urgent | warning.

(** [models.ExpiryAlert], without the names of the employee and of the
    company, which are columns of tables that are not modelled. *)
Record ExpiryAlert : Type := mkExpiryAlert {
  DocumentID : string;
  AlertEmployeeID : string;
  AlertDocumentType : string;
  AlertExpiryDate : Dates.date;
  DaysLeft : Z;
  Status : AlertStatus
}.

(** CASE WHEN d.expiry_date < CURRENT_DATE THEN 'expired'
         WHEN d.expiry_date <= CURRENT_DATE + INTERVAL '7 days' THEN 'urgent'
         ELSE 'warning' END AS status *)
Definition alert_status (CURRENT_DATE : Z) (x : Dates.date) : AlertStatus :=
  if Dates.ltb x (Dates.day CURRENT_DATE) then expired
  else if Dates.leb x (Dates.day (CURRENT_DATE + 7)) then urgent
  else warning.

(** WHERE d.is_primary = TRUE AND d.expiry_date IS NOT NULL
      AND d.expiry_date <= CURRENT_DATE + INTERVAL '30 days',
    on the rows the join with employees keeps. *)
Definition alert_where (CURRENT_DATE : Z) (emps : list string) (d : Document) : bool :=
  existsb (String.eqb (EmployeeID d)) emps
  && IsPrimary d
  && match ExpiryDate d with
     | Some x => Dates.leb x (Dates.day (CURRENT_DATE + 30))
     | None => false
     end.

(** The select list on a document that passed [alert_where], which has an
    expiry date: [None] where (d.expiry_date - CURRENT_DATE) raises, as it
    does on '-infinity', a date the WHERE clause lets through. *)
Definition alert_of (CURRENT_DATE : Z) (d : Document) : option ExpiryAlert :=
  match ExpiryDate d with
  | Some x =>
      match Dates.minus x (Dates.day CURRENT_DATE) with
      | Some days => Some (mkExpiryAlert (ID d) (EmployeeID d) (DocumentType d) x
                                         days (alert_status CURRENT_DATE x))
      | None => None
      end
  | None => None
  end.

(** ORDER BY d.expiry_date ASC *)
Definition by_expiry (d1 d2 : Document) : bool :=
  Sql.asc_nulls_last (ExpiryDate d1) (ExpiryDate d2).

(** GET /api/dashboard/expiring: the alerts in the order of their expiry
    dates, or [None] where the query raises. *)
Definition GetExpiryAlerts (CURRENT_DATE : Z) (db : DB) : option (list ExpiryAlert) :=
  Sql.select (alert_of CURRENT_DATE)
             (Sql.order_by by_expiry
                           (filter (alert_where CURRENT_DATE (employees db)) (documents db))).

End DashboardAlerts.

(** ** lib/utils.ts: formatPhoneNumber *)

Module Format.

(** [phone.startsWith('+')] *)
Definition startsWith_plus (phone : string) : bool :=
  match phone with
  | String c _ => Ascii.eqb c "+"%char
  | EmptyString => false
  end.

Definition formatPhoneNumber (phone : string) : string :=
  if startsWith_plus phone then phone else String "+"%char phone.

End Format.

(** ** The states the document handlers alone can reach *)

Module HandlerRuns.
Import Schema DocumentHandler.

Section WithDateInput.

Variable date_in : string -> option Dates.date.
Variable uuid_in : string -> option string.

(** One request to one of the five writing handlers of documents. *)
Inductive handler_step : DB -> DB -> Prop :=
| handler_Create db employeeID req new_id now :
    handler_step db (snd (Create date_in db employeeID req new_id now))
| handler_Update db id req now :
    handler_step db (snd (Update date_in db id req now))
| handler_TogglePrimary db id :
    handler_step db (snd (TogglePrimary db id))
| handler_Delete db id :
    handler_step db (snd (Delete uuid_in db id))
| handler_Renew db oldID req new_id now :
    handler_step db (snd (Renew date_in db oldID req new_id now)).

Inductive handler_reachable : DB -> Prop :=
| handler_reachable_init db : after_migration_004 db -> handler_reachable db
| handler_reachable_step db db' :
    handler_reachable db -> handler_step db db' -> handler_reachable db'.

End WithDateInput.

End HandlerRuns.

(** ** handlers/employee.go: Delete *)

Module EmployeeWrites.
Import Schema DocumentHandler.

(** DELETE /api/employees/{id}; the documents of the employee go with the
    row (employee_id ... ON DELETE CASCADE). [id] is the text of the
    request and [uuid_in] its conversion to a UUID: where the text is no
    UUID the DELETE fails, which is answered 500. *)
Definition Delete (uuid_in : string -> option string) (db : DB) (id : string)
  : Response * DB :=
  if String.eqb id "" then (JSONError 400 "Employee ID is required", db)
  else
    match uuid_in id with
    | None => (JSONError 500 "Failed to delete employee", db)
    | Some u =>
        match exec db (DeleteEmployee u) with
        | None => (JSONError 500 "Failed to delete employee", db)
        | Some db' =>
            if existsb (fun e => String.eqb e u) (employees db)
            then (JSON 200 "Employee deleted successfully" None, db')
            else (JSONError 404 "Employee not found", db')
        end
    end.

End EmployeeWrites.

(** ** Predicates of the properties and further sample requests *)

Module Counting.
Import Schema.

(** Every primary document has an expiry date. *)
Definition primaries_dated (db : DB) : Prop :=
  forall d, In d (documents db) -> IsPrimary d = true -> ExpiryDate d <> None.

(** A date condition on the joined primary document, false on NULL. *)
Definition dated (cond : Dates.date -> bool) (pd : option Document) : bool :=
  match EmployeeHandler.pd_expiry_date pd with
  | Some x => cond x
  | None => false
  end.

End Counting.

Module Requests.
Import DocumentHandler.

Definition create_insurance : CreateDocumentRequest.t :=
  CreateDocumentRequest.mk "health_insurance" (Some "2027-01-31")
                           "https://cdn/h.pdf" "h.pdf" 1024 "application/pdf".

Definition update_expiry : UpdateDocumentRequest.t :=
  UpdateDocumentRequest.mk None (Some "2027-06-30") None None None None (Some false).

Definition update_infinity : UpdateDocumentRequest.t :=
  UpdateDocumentRequest.mk None (Some "infinity") None None None None None.

End Requests.

(** ** A conversion of texts to UUIDs, and rows with ids in that form *)

Module Uuid.
Import Schema.

Definition lower (c : ascii) : ascii :=
  let n := nat_of_ascii c in
  if (Nat.leb 65 n && Nat.leb n 70)%bool then ascii_of_nat (n + 32) else c.

Definition is_hex (c : ascii) : bool :=
  let n := nat_of_ascii (lower c) in
  (Nat.leb 48 n && Nat.leb n 57) || (Nat.leb 97 n && Nat.leb n 102).

Definition hyphen_at (i : nat) : bool :=
  Nat.eqb i 8 || Nat.eqb i 13 || Nat.eqb i 18 || Nat.eqb i 23.

Fixpoint canonical (i : nat) (l : list ascii) : option (list ascii) :=
  match l with
  | [] => if Nat.eqb i 36 then Some [] else None
  | c :: t =>
      if hyphen_at i
      then (if Ascii.eqb c "-"%char then option_map (cons c) (canonical (S i) t) else None)
      else (if is_hex c then option_map (cons (lower c)) (canonical (S i) t) else None)
  end.

(** The UUID input conversion on the form 8-4-4-4-12 of hexadecimal digits,
    in either case; the canonical text has them in lower case. *)
Definition uuid_in (s : string) : option string :=
  option_map string_of_list_ascii (canonical 0 (list_ascii_of_string s)).

Definition john : string := "770e8400-e29b-41d4-a716-446655440001".
Definition jane : string := "770e8400-e29b-41d4-a716-446655440002".

Definition john_passport : Document :=
  mkDocument "0b6f3c1e-52a7-4d0e-9c11-7a1f5e2d9b01" john "passport"
             (Some (Dates.day (Dates.days_from_civil 2026 9 17))) true
             "https://cdn/jp.pdf" "jp.pdf" 1048576 "application/pdf" 100 100.

Definition john_contract : Document :=
  mkDocument "0b6f3c1e-52a7-4d0e-9c11-7a1f5e2d9b02" john "contract" None false
             "https://cdn/jc.pdf" "jc.pdf" 2048 "application/pdf" 100 100.

Definition jane_visa : Document :=
  mkDocument "0b6f3c1e-52a7-4d0e-9c11-7a1f5e2d9b03" jane "visa"
             (Some (Dates.day (Dates.days_from_civil 2026 3 13))) true
             "https://cdn/jv.pdf" "jv.pdf" 4096 "application/pdf" 100 100.

Definition db : DB := mkDB [john; jane] [john_passport; john_contract; jane_visa].

End Uuid.

(** * Properties *)

(** ** Lists, keys and counts *)

Module ListFacts.
Import Schema.

Lemma uniqueb_NoDup (l : list string) : uniqueb l = true <-> NoDup l.
Proof.
  induction l as [|x t IH]; simpl.
  - split; [constructor | reflexivity].
  - rewrite andb_true_iff, negb_true_iff, IH. split.
    + intros [Hx Ht]. constructor; [|assumption].
      intro Hin. assert (existsb (String.eqb x) t = true) as E.
      { apply existsb_exists. exists x. split; [assumption | apply String.eqb_refl]. }
      congruence.
    + intro H. inversion H as [|? ? Hn Hd]; subst. split; [|assumption].
      destruct (existsb (String.eqb x) t) eqn:E; [|reflexivity].
      apply existsb_exists in E. destruct E as [y [Hy Exy]].
      apply String.eqb_eq in Exy. subst y. contradiction.
Qed.

(** Three conditions of which each row meets exactly one split the rows
    that meet any of them. *)
Lemma count_partition3 (p a b c : Document -> bool) (docs : list Document) :
  (forall d, Z.b2z (a d) + Z.b2z (b d) + Z.b2z (c d) = Z.b2z (p d)) ->
  count a docs + count b docs + count c docs = count p docs.
Proof.
  intro H. unfold count. induction docs as [|d t IH]; [reflexivity|].
  specialize (H d). cbn [filter].
  destruct (a d), (b d), (c d), (p d); cbn [Z.b2z] in H; try lia;
    cbn [List.length]; rewrite ?Nat2Z.inj_succ; lia.
Qed.

End ListFacts.

(** ** The order of dates *)

Module DateFacts.
Import Dates.

Lemma leb_day (x y : Z) : leb (day x) (day y) = (x <=? y).
Proof. reflexivity. Qed.

Lemma ltb_day (x y : Z) : ltb (day x) (day y) = (x <? y).
Proof. unfold ltb. cbn [leb]. symmetry. apply Z.ltb_antisym. Qed.

Lemma leb_total (a b : date) : leb a b = false -> leb b a = true.
Proof.
  destruct a as [|x|], b as [|y|]; cbn; try congruence.
  rewrite Z.leb_gt, Z.leb_le. lia.
Qed.

Lemma leb_trans (a b c : date) : leb a b = true -> leb b c = true -> leb a c = true.
Proof.
  destruct a as [|x|], b as [|y|], c as [|z|]; cbn; try congruence.
  rewrite !Z.leb_le. lia.
Qed.

Lemma leb_refl (a : date) : leb a a = true.
Proof. destruct a; cbn; try reflexivity. apply Z.leb_refl. Qed.

(** Subtraction raises exactly on the infinite dates. *)
Lemma minus_day (a : date) (y : Z) :
  minus a (day y) = match a with day x => Some (x - y) | _ => None end.
Proof. destruct a; reflexivity. Qed.

(** Every date is before, within or after a window of days, and only one
    of the three. *)
Lemma window_exclusive (lo hi : Z) (x : date) :
  lo <= hi ->
  Z.b2z (ltb (day hi) x) + Z.b2z (leb (day lo) x && leb x (day hi))
  + Z.b2z (ltb x (day lo)) = 1.
Proof.
  intro H. destruct x as [|x|]; [reflexivity| |reflexivity].
  rewrite !ltb_day, !leb_day.
  destruct (hi <? x) eqn:A, (lo <=? x) eqn:B, (x <=? hi) eqn:C, (x <? lo) eqn:D;
    cbn; try reflexivity;
    rewrite ?Z.ltb_lt, ?Z.ltb_ge, ?Z.leb_le, ?Z.leb_gt in *; lia.
Qed.

End DateFacts.

(** ** The dashboard counters *)

Module DashboardProperties.
Import Schema DashboardHandler.

Lemma buckets_exclusive (today : Z) (x : Dates.date) :
  Z.b2z (is_active today x) + Z.b2z (is_expiring_soon today x)
  + Z.b2z (is_expired today x) = 1.
Proof.
  unfold is_active, is_expiring_soon, is_expired.
  apply DateFacts.window_exclusive. lia.
Qed.

Lemma count_ext (p q : Document -> bool) (docs : list Document) :
  (forall d, p d = true <-> q d = true) -> count p docs = count q docs.
Proof.
  intro H. unfold count. f_equal. f_equal. apply filter_ext. intro d.
  specialize (H d). destruct (p d), (q d); try reflexivity;
    [symmetry; now apply H | now apply H].
Qed.

(** What [tracked] decides. *)
Lemma tracked_iff (cond : Dates.date -> bool) (d : Document) :
  tracked cond d = true
  <-> IsPrimary d = true /\ exists x, ExpiryDate d = Some x /\ cond x = true.
Proof.
  unfold tracked. rewrite andb_true_iff. split.
  - intros [Hp Hx]. split; [assumption|].
    destruct (ExpiryDate d) as [x|]; [eauto | discriminate Hx].
  - intros [Hp [x [-> Hx]]]. auto.
Qed.

(** C10. On one state of the tables and one current date, each of the
    three document counters of the dashboard is the number of primary
    documents with an expiry date in its range, however the documents of
    the range are told apart: expired counts those with expiry < today,
    expiringSoon those with today <= expiry <= today + 30, activeDocuments
    those with expiry > today + 30. On days the three ranges are the
    comparisons of the day numbers; every date is in exactly one of them,
    so each primary document with an expiry date is counted in exactly one
    bucket, the counts add up to the number of such documents, and a
    document that expires within the next 30 days is not counted as
    active. *)
Theorem metrics_partition (today : Z) (db : DB) :
  let m := GetMetrics today db in
  (forall p : Document -> bool,
     (forall d, p d = true
                <-> IsPrimary d = true
                    /\ exists x, ExpiryDate d = Some x
                                 /\ Dates.ltb x (Dates.day today) = true) ->
     Expired m = count p (documents db))
  /\ (forall p : Document -> bool,
        (forall d, p d = true
                   <-> IsPrimary d = true
                       /\ exists x, ExpiryDate d = Some x
                                    /\ Dates.leb (Dates.day today) x = true
                                    /\ Dates.leb x (Dates.day (today + 30)) = true) ->
        ExpiringSoon m = count p (documents db))
  /\ (forall p : Document -> bool,
        (forall d, p d = true
                   <-> IsPrimary d = true
                       /\ exists x, ExpiryDate d = Some x
                                    /\ Dates.ltb (Dates.day (today + 30)) x = true) ->
        ActiveDocuments m = count p (documents db))
  /\ (forall x : Z,
        (Dates.ltb (Dates.day x) (Dates.day today) = true <-> x < today)
        /\ (Dates.leb (Dates.day today) (Dates.day x) = true
            /\ Dates.leb (Dates.day x) (Dates.day (today + 30)) = true
            <-> today <= x <= today + 30)
        /\ (Dates.ltb (Dates.day (today + 30)) (Dates.day x) = true <-> today + 30 < x))
  /\ (forall x : Dates.date,
        Z.b2z (Dates.ltb x (Dates.day today))
        + Z.b2z (Dates.leb (Dates.day today) x && Dates.leb x (Dates.day (today + 30)))
        + Z.b2z (Dates.ltb (Dates.day (today + 30)) x) = 1)
  /\ ActiveDocuments m + ExpiringSoon m + Expired m
     = count (fun d => IsPrimary d && DocumentHandler.is_some (ExpiryDate d)) (documents db).
Proof.
  cbv zeta. unfold GetMetrics. cbn [Expired ExpiringSoon ActiveDocuments].
  split; [|split; [|split; [|split; [|split]]]].
  - intros p Hp. apply count_ext. intro d. rewrite Hp, tracked_iff. reflexivity.
  - intros p Hp. apply count_ext. intro d. rewrite Hp, tracked_iff.
    unfold is_expiring_soon. split.
    + intros [H [x [Hx Hc]]]. apply andb_true_iff in Hc. eauto.
    + intros [H [x [Hx Hc]]]. split; [assumption|]. exists x.
      split; [assumption|]. now apply andb_true_iff.
  - intros p Hp. apply count_ext. intro d. rewrite Hp, tracked_iff. reflexivity.
  - intro x. rewrite !DateFacts.ltb_day, !DateFacts.leb_day.
    rewrite !Z.ltb_lt, !Z.leb_le. repeat split; lia.
  - intro x. pose proof (DateFacts.window_exclusive today (today + 30) x) as H. lia.
  - apply ListFacts.count_partition3.
    intro d. unfold tracked. destruct (IsPrimary d); simpl; [|reflexivity].
    destruct (ExpiryDate d) as [x|]; simpl; [|reflexivity].
    apply buckets_exclusive.
Qed.

Lemma metrics_partition_witness :
  Expired (GetMetrics (Sample.today + 13) Sample.db)
  = count (fun d => IsPrimary d
                    && match ExpiryDate d with
                       | Some Dates.neg_infinity => true
                       | Some (Dates.day x) => x <? Sample.today + 13
                       | _ => false
                       end)
          (documents Sample.db).
Proof.
  apply (proj1 (metrics_partition (Sample.today + 13) Sample.db)).
  intro d. rewrite andb_true_iff. split.
  - intros [Hp Hx]. split; [assumption|].
    destruct (ExpiryDate d) as [[|x|]|]; try discriminate Hx.
    + exists Dates.neg_infinity. split; reflexivity.
    + exists (Dates.day x). split; [reflexivity|].
      rewrite DateFacts.ltb_day. exact Hx.
  - intros [Hp [x [-> Hx]]]. split; [assumption|].
    destruct x as [|x|]; [reflexivity | | discriminate Hx].
    rewrite DateFacts.ltb_day in Hx. exact Hx.
Defined.

End DashboardProperties.

(** ** The document handlers *)

Module DocumentProperties.
Import Schema DocumentHandler.

Lemma exec_Some (db db' : DB) (s : Stmt) :
  exec db s = Some db' -> db' = apply_stmt db s /\ constraints_ok db' = true.
Proof.
  unfold exec. destruct (constraints_ok (apply_stmt db s)) eqn:E; [|discriminate].
  intro H. injection H as <-. auto.
Qed.

(** The RETURNING clause of a statement that names the table [d] resolves,
    and that of a statement that gives the table no alias does not. *)
Lemma exec_returning_alias_d (db : DB) (s : Stmt) :
  exec_returning_docCols (Some "d") db s = exec db s.
Proof. reflexivity. Qed.

Lemma exec_returning_no_alias (db : DB) (s : Stmt) :
  exec_returning_docCols None db s = None.
Proof. reflexivity. Qed.

Ltac returning_clause :=
  change (exec_returning_docCols None) with (fun (_ : DB) (_ : Stmt) => @None DB) in *;
  change (exec_returning_docCols (Some "d")) with exec in *;
  cbv beta in *.

(** Case analysis on every test of a handler body. *)
Ltac handler_cases :=
  repeat match goal with
         | |- context [exec ?a ?s] => destruct (exec a s) eqn:?
         | |- context [if ?b then _ else _] => destruct b eqn:?
         | |- context [match ?o with Some _ => _ | None => _ end] => destruct o eqn:?
         end.

Lemma idx_at_most_one (docs : list Document) (e : string) :
  idx_documents_primary_per_employee docs = true ->
  (List.length (filter (fun d => String.eqb (EmployeeID d) e && IsPrimary d) docs) <= 1)%nat.
Proof.
  unfold idx_documents_primary_per_employee. rewrite ListFacts.uniqueb_NoDup.
  intro H. apply (proj1 (NoDup_count_occ string_dec _)) with (x := e) in H.
  assert (List.length (filter (fun d => String.eqb (EmployeeID d) e && IsPrimary d) docs)
          = count_occ string_dec (map EmployeeID (filter IsPrimary docs)) e) as ->;
    [|exact H].
  clear H. induction docs as [|d t IH]; [reflexivity|].
  cbn [filter]. destruct (IsPrimary d) eqn:P; rewrite ?andb_false_r, ?andb_true_r.
  - cbn [map count_occ]. destruct (string_dec (EmployeeID d) e) as [->|N].
    + rewrite String.eqb_refl. cbn [List.length]. now rewrite IH.
    + apply String.eqb_neq in N. now rewrite N.
  - exact IH.
Qed.

Lemma constraints_idx (db : DB) :
  constraints_ok db = true -> idx_documents_primary_per_employee (documents db) = true.
Proof. unfold constraints_ok. rewrite !andb_true_iff. tauto. Qed.

(** *** Flag updates and the index keys *)

Lemma set_is_primary_same (x : Document) : set_is_primary (IsPrimary x) x = x.
Proof. destruct x; reflexivity. Qed.

Lemma flag_only_unset_employee e : flag_only (unset_employee e).
Proof.
  intro x. unfold unset_employee.
  destruct (String.eqb (EmployeeID x) e && IsPrimary x);
    [exists false; reflexivity | exists (IsPrimary x); now rewrite set_is_primary_same].
Qed.

Lemma flag_only_unset_id id : flag_only (unset_id id).
Proof.
  intro x. unfold unset_id.
  destruct (String.eqb (ID x) id);
    [exists false; reflexivity | exists (IsPrimary x); now rewrite set_is_primary_same].
Qed.

Lemma flag_only_set_id id : flag_only (set_id id).
Proof.
  intro x. unfold set_id.
  destruct (String.eqb (ID x) id);
    [exists true; reflexivity | exists (IsPrimary x); now rewrite set_is_primary_same].
Qed.

Lemma flag_only_ID g l : flag_only g -> map ID (map g l) = map ID l.
Proof.
  intro H. rewrite map_map. apply map_ext. intro x.
  destruct (H x) as [b ->]. reflexivity.
Qed.

Lemma flag_only_fkey g emps l :
  flag_only g ->
  documents_employee_id_fkey emps (map g l) = documents_employee_id_fkey emps l.
Proof.
  intro H. unfold documents_employee_id_fkey.
  induction l as [|x t IH]; [reflexivity|]. cbn [map forallb]. rewrite IH.
  destruct (H x) as [b ->]. reflexivity.
Qed.

(** A flag update keeps the primary key and the foreign key; only the
    index of the primary flags is left to check. *)
Lemma flag_update_ok (db : DB) (g : Document -> Document) :
  flag_only g ->
  constraints_ok db = true ->
  NoDup (keys (map g (documents db))) ->
  constraints_ok (mkDB (employees db) (map g (documents db))) = true.
Proof.
  intros Hg Hok Hk. unfold constraints_ok in *. cbn [employees documents].
  rewrite !andb_true_iff in *. destruct Hok as [[[He Hp] Hf] _].
  repeat split.
  - assumption.
  - unfold documents_pkey in *. now rewrite flag_only_ID.
  - now rewrite flag_only_fkey.
  - now apply ListFacts.uniqueb_NoDup.
Qed.

Lemma keys_clear_incl g l :
  (forall x, g x = x \/ g x = set_is_primary false x) ->
  incl (keys (map g l)) (keys l).
Proof.
  intro H. unfold keys. induction l as [|x t IH]; [apply incl_refl|].
  cbn [map filter]. destruct (H x) as [-> | ->].
  - destruct (IsPrimary x); cbn [map];
      [apply incl_cons; [now left | now apply incl_tl] | assumption].
  - cbn [set_is_primary IsPrimary].
    destruct (IsPrimary x); cbn [map]; [now apply incl_tl | assumption].
Qed.

Lemma keys_clear_NoDup g l :
  (forall x, g x = x \/ g x = set_is_primary false x) ->
  NoDup (keys l) -> NoDup (keys (map g l)).
Proof.
  intros H. pose proof (keys_clear_incl g) as Hincl. unfold keys in *.
  induction l as [|x t IH]; [trivial|].
  cbn [map filter]. intro Hnd.
  assert (NoDup (map EmployeeID (filter IsPrimary t))) as Ht.
  { destruct (IsPrimary x); cbn [map] in Hnd; [now inversion Hnd | assumption]. }
  destruct (H x) as [-> | ->].
  - destruct (IsPrimary x) eqn:P; cbn [map] in *; [|now apply IH].
    inversion Hnd as [|? ? Hn _]; subst. constructor; [|now apply IH].
    intro Hin. apply Hn. now apply (Hincl t H).
  - cbn [set_is_primary IsPrimary]. now apply IH.
Qed.

Lemma unset_employee_clears e x :
  unset_employee e x = x \/ unset_employee e x = set_is_primary false x.
Proof. unfold unset_employee. destruct (_ && _); auto. Qed.

Lemma unset_id_clears id x :
  unset_id id x = x \/ unset_id id x = set_is_primary false x.
Proof. unfold unset_id. destruct (String.eqb _ _); auto. Qed.

(** After the first UPDATE of the handlers the employee has no primary
    document. *)
Lemma keys_unset_employee e l : ~ In e (keys (map (unset_employee e) l)).
Proof.
  unfold keys. induction l as [|x t IH]; [intros []|].
  assert (IsPrimary (unset_employee e x) = true -> EmployeeID (unset_employee e x) <> e)
    as Hx.
  { unfold unset_employee. destruct (String.eqb (EmployeeID x) e) eqn:E; cbn [andb].
    - destruct (IsPrimary x) eqn:P; cbn [set_is_primary IsPrimary]; congruence.
    - intros _. now apply String.eqb_neq. }
  cbn [map filter]. destruct (IsPrimary (unset_employee e x)); [|assumption].
  cbn [map]. intros [H|H]; [now apply Hx | now apply IH].
Qed.

Lemma set_id_cases id x :
  (ID x = id /\ set_id id x = set_is_primary true x) \/ (ID x <> id /\ set_id id x = x).
Proof.
  unfold set_id. destruct (String.eqb (ID x) id) eqn:E.
  - left. apply String.eqb_eq in E. auto.
  - right. apply String.eqb_neq in E. auto.
Qed.

Lemma keys_set_id_In id e l k :
  (forall x, In x l -> ID x = id -> EmployeeID x = e) ->
  In k (keys (map (set_id id) l)) ->
  In k (keys l) \/ (k = e /\ In id (map ID l)).
Proof.
  intros He. unfold keys. induction l as [|x t IH]; [intros []|].
  assert (forall y, In y t -> ID y = id -> EmployeeID y = e) as Het
      by (intros y Hy; apply He; now right).
  cbn [map filter]. destruct (set_id_cases id x) as [[E ->]|[E ->]].
  - cbn [set_is_primary IsPrimary EmployeeID map].
    intros [H|H].
    + right. split; [|now left]. rewrite <- H. apply He; [now left | assumption].
    + destruct (IH Het H) as [H'|[H1 H2]].
      * left. destruct (IsPrimary x); [now right | assumption].
      * right. split; [assumption | now right].
  - destruct (IsPrimary x) eqn:P; cbn [map].
    + intros [H|H]; [left; now left|].
      destruct (IH Het H) as [H'|[H1 H2]]; [left; now right | right; split; [assumption | now right]].
    + intro H. destruct (IH Het H) as [H'|[H1 H2]];
        [now left | right; split; [assumption | now right]].
Qed.

(** Setting the flag of the one row with a given id keeps the keys
    distinct when its employee has no primary document. *)
Lemma keys_set_id_NoDup id e l :
  NoDup (map ID l) ->
  (forall x, In x l -> ID x = id -> EmployeeID x = e) ->
  NoDup (keys l) -> ~ In e (keys l) ->
  NoDup (keys (map (set_id id) l)).
Proof.
  unfold keys. induction l as [|x t IH]; [trivial|].
  intros Hpk He Hnd Hne. cbn [map] in Hpk. inversion Hpk as [|? ? Hnx Hpkt]; subst.
  assert (forall y, In y t -> ID y = id -> EmployeeID y = e) as Het
      by (intros y Hy; apply He; now right).
  assert (NoDup (map EmployeeID (filter IsPrimary t))) as Hndt.
  { cbn [filter] in Hnd. destruct (IsPrimary x); cbn [map] in Hnd;
      [now inversion Hnd | assumption]. }
  assert (~ In e (map EmployeeID (filter IsPrimary t))) as Hnet.
  { intro H. apply Hne. cbn [filter]. destruct (IsPrimary x); [now right | assumption]. }
  specialize (IH Hpkt Het Hndt Hnet).
  cbn [map filter]. destruct (set_id_cases id x) as [[E ->]|[E ->]].
  - cbn [set_is_primary IsPrimary EmployeeID map].
    constructor; [|assumption].
    intro Hin. apply (keys_set_id_In id e t _ Het) in Hin.
    destruct Hin as [H|[_ H]].
    + apply Hnet. rewrite <- (He x (or_introl eq_refl) E). exact H.
    + apply Hnx. now rewrite E.
  - destruct (IsPrimary x) eqn:P; [|assumption].
    cbn [map]. constructor; [|assumption].
    intro Hin. apply (keys_set_id_In id e t _ Het) in Hin.
    destruct Hin as [H|[H _]].
    + cbn [filter] in Hnd. rewrite P in Hnd. cbn [map] in Hnd.
      inversion Hnd; subst. contradiction.
    + apply Hne. cbn [filter]. rewrite P. left. assumption.
Qed.

Lemma find_document_Some id l d :
  find_document id l = Some d -> In d l /\ ID d = id.
Proof.
  unfold find_document. intro H. apply find_some in H.
  destruct H as [H E]. apply String.eqb_eq in E. auto.
Qed.

Lemma pkey_same_row l x y :
  NoDup (map ID l) -> In x l -> In y l -> ID x = ID y -> x = y.
Proof.
  induction l as [|z t IH]; [intros _ []|].
  cbn [map]. intro Hnd. inversion Hnd as [|? ? Hn Ht]; subst.
  intros [->|Hx] [->|Hy] E; try reflexivity.
  - exfalso. apply Hn. rewrite E. now apply in_map.
  - exfalso. apply Hn. rewrite <- E. now apply in_map.
  - now apply IH.
Qed.

Lemma constraints_pkey (db : DB) :
  constraints_ok db = true -> NoDup (map ID (documents db)).
Proof.
  unfold constraints_ok, documents_pkey. rewrite !andb_true_iff.
  intros [[[_ H] _] _]. now apply ListFacts.uniqueb_NoDup.
Qed.

Lemma constraints_keys (db : DB) :
  constraints_ok db = true -> NoDup (keys (documents db)).
Proof.
  intro H. apply constraints_idx in H. now apply ListFacts.uniqueb_NoDup.
Qed.

(** *** The flag updates of TogglePrimary and Renew are never rejected *)

Lemma exec_unset_id (db : DB) (id : string) :
  constraints_ok db = true ->
  exec db (UpdateDocuments (fun x => String.eqb (ID x) id) (set_is_primary false))
  = Some (mkDB (employees db) (map (unset_id id) (documents db))).
Proof.
  intro H. unfold exec. cbn [apply_stmt].
  change (map _ (documents db)) with (map (unset_id id) (documents db)).
  rewrite flag_update_ok; auto using flag_only_unset_id.
  apply keys_clear_NoDup; auto using unset_id_clears, constraints_keys.
Qed.

Lemma unset_employee_ok (db : DB) (e : string) :
  constraints_ok db = true ->
  constraints_ok (mkDB (employees db) (map (unset_employee e) (documents db))) = true.
Proof.
  intro H. apply flag_update_ok; auto using flag_only_unset_employee.
  apply keys_clear_NoDup; auto using unset_employee_clears, constraints_keys.
Qed.

Lemma exec_unset_employee (db : DB) (e : string) :
  constraints_ok db = true ->
  exec db (UpdateDocuments (fun x => String.eqb (EmployeeID x) e && IsPrimary x)
                           (set_is_primary false))
  = Some (mkDB (employees db) (map (unset_employee e) (documents db))).
Proof.
  intro H. unfold exec. cbn [apply_stmt].
  change (map _ (documents db)) with (map (unset_employee e) (documents db)).
  now rewrite unset_employee_ok.
Qed.

Lemma exec_set_id (db : DB) (id : string) (d : Document) :
  constraints_ok db = true ->
  find_document id (documents db) = Some d ->
  let docs1 := map (unset_employee (EmployeeID d)) (documents db) in
  exec (mkDB (employees db) docs1)
       (UpdateDocuments (fun x => String.eqb (ID x) id) (set_is_primary true))
  = Some (mkDB (employees db) (map (set_id id) docs1)).
Proof.
  intros H Hfind docs1. unfold exec. cbn [apply_stmt employees documents].
  change (map _ docs1) with (map (set_id id) docs1).
  pose proof (unset_employee_ok db (EmployeeID d) H) as H1. fold docs1 in H1.
  pose proof (flag_update_ok (mkDB (employees db) docs1) (set_id id)
                             (flag_only_set_id id) H1) as H2.
  cbn [employees documents] in H2. rewrite H2; [reflexivity|].
  apply (keys_set_id_NoDup id (EmployeeID d)).
  - apply (constraints_pkey _ H1).
  - intros x Hx Ex. unfold docs1 in Hx. apply in_map_iff in Hx.
    destruct Hx as [x0 [<- Hx0]].
    destruct (flag_only_unset_employee (EmployeeID d) x0) as [b Eb].
    rewrite Eb in Ex |- *. cbn [set_is_primary ID EmployeeID] in *.
    apply find_document_Some in Hfind. destruct Hfind as [Hd Ed].
    f_equal. apply (pkey_same_row (documents db)); auto using constraints_pkey.
    congruence.
  - apply (constraints_keys _ H1).
  - apply keys_unset_employee.
Qed.

Lemma fkey_In emps docs d :
  documents_employee_id_fkey emps docs = true -> In d docs ->
  existsb (String.eqb (EmployeeID d)) emps = true.
Proof.
  unfold documents_employee_id_fkey. rewrite forallb_forall. auto.
Qed.

Lemma exec_insert_renewed (db : DB) (old newDoc : Document) :
  constraints_ok db = true ->
  In old (documents db) ->
  EmployeeID newDoc = EmployeeID old ->
  ~ In (ID newDoc) (map ID (documents db)) ->
  let docs1 := map (unset_employee (EmployeeID old)) (documents db) in
  exec (mkDB (employees db) docs1) (InsertDocument newDoc)
  = Some (mkDB (employees db) (docs1 ++ [newDoc])).
Proof.
  intros H Hold He Hfresh docs1. unfold exec. cbn [apply_stmt employees documents].
  pose proof (unset_employee_ok db (EmployeeID old) H) as H1. fold docs1 in H1.
  assert (constraints_ok (mkDB (employees db) (docs1 ++ [newDoc])) = true) as ->;
    [|reflexivity].
  pose proof (constraints_pkey _ H1) as Hpk. pose proof (constraints_keys _ H1) as Hk.
  cbn [documents] in Hpk, Hk.
  unfold constraints_ok in *. cbn [employees documents] in *.
  rewrite !andb_true_iff in *. destruct H as [[[Hemp _] Hfk0] _].
  destruct H1 as [[[_ _] Hfk] _]. repeat split.
  - assumption.
  - apply ListFacts.uniqueb_NoDup. rewrite map_app. cbn [map].
    apply NoDup_app; [assumption | repeat constructor; intros [] |].
    intros k Hin [<-|[]]. apply Hfresh.
    unfold docs1 in Hin. now rewrite flag_only_ID in Hin by apply flag_only_unset_employee.
  - unfold documents_employee_id_fkey in *. rewrite forallb_app, Hfk. cbn [forallb].
    rewrite He, andb_true_r. apply (fkey_In _ _ _ Hfk0 Hold).
  - apply ListFacts.uniqueb_NoDup. rewrite filter_app, map_app.
    apply NoDup_app; [assumption | |].
    + cbn [filter]. destruct (IsPrimary newDoc); repeat constructor; intros [].
    + intros k Hin Hin'. cbn [filter] in Hin'.
      destruct (IsPrimary newDoc); [|destruct Hin'].
      destruct Hin' as [<-|[]]. rewrite He in Hin.
      exact (keys_unset_employee _ _ Hin).
Qed.

Section WithDateInput.
Variable date_in : string -> option Dates.date.
Variable uuid_in : string -> option string.

Lemma Create_preserves db employeeID req new_id now :
  constraints_ok db = true ->
  constraints_ok (snd (Create date_in db employeeID req new_id now)) = true.
Proof.
  intro H. unfold Create. returning_clause. handler_cases; cbn [snd]; assumption.
Qed.

Lemma Update_preserves db id req now :
  constraints_ok db = true ->
  constraints_ok (snd (Update date_in db id req now)) = true.
Proof.
  intro H. unfold Update. returning_clause. handler_cases; cbn [snd]; try assumption.
  match goal with E : exec _ _ = Some _ |- _ => apply exec_Some in E; tauto end.
Qed.

Lemma TogglePrimary_preserves db id :
  constraints_ok db = true -> constraints_ok (snd (TogglePrimary db id)) = true.
Proof.
  clear date_in uuid_in. intro H. unfold TogglePrimary. handler_cases; cbn [snd]; try assumption;
    match goal with E : exec _ _ = Some ?d |- constraints_ok ?d = true =>
                      apply exec_Some in E; tauto end.
Qed.

Lemma Delete_preserves db id :
  constraints_ok db = true -> constraints_ok (snd (Delete uuid_in db id)) = true.
Proof.
  clear date_in. intro H. unfold Delete. handler_cases; cbn [snd]; try assumption;
    match goal with E : exec _ _ = Some ?d |- constraints_ok ?d = true =>
                      apply exec_Some in E; tauto end.
Qed.

(** Renew writes nothing: the INSERT of its transaction is rejected. *)
Lemma Renew_unchanged db oldID req new_id now :
  snd (Renew date_in db oldID req new_id now) = db.
Proof.
  unfold Renew. returning_clause. handler_cases; reflexivity.
Qed.

(** Create writes nothing: its INSERT is rejected. *)
Lemma Create_unchanged db employeeID req new_id now :
  snd (Create date_in db employeeID req new_id now) = db.
Proof.
  unfold Create. returning_clause. handler_cases; reflexivity.
Qed.

Lemma Renew_preserves db oldID req new_id now :
  constraints_ok db = true ->
  constraints_ok (snd (Renew date_in db oldID req new_id now)) = true.
Proof. intro H. now rewrite Renew_unchanged. Qed.



Lemma TogglePrimary_commits db id d :
  constraints_ok db = true ->
  id <> "" ->
  find_document id (documents db) = Some d ->
  ExpiryDate d <> None ->
  TogglePrimary db id
  = (JSON 200 "Primary document updated successfully" None,
     mkDB (employees db)
          (if IsPrimary d then map (unset_id id) (documents db)
           else map (set_id id) (map (unset_employee (EmployeeID d)) (documents db)))).
Proof.
  intros Hok Hid Hfind Hexp. unfold TogglePrimary.
  apply String.eqb_neq in Hid. rewrite Hid, Hfind.
  destruct (ExpiryDate d) as [x|] eqn:Ex; [|contradiction]. cbn [is_some negb].
  destruct (IsPrimary d).
  - now rewrite exec_unset_id.
  - rewrite exec_unset_employee by assumption.
    now rewrite (exec_set_id db id d Hok Hfind).
Qed.

(** Where the constraints hold, a renewal of a stored document with a date
    the database accepts gets as far as its INSERT. *)
Lemma Renew_rejected db oldID req new_id now old expiry :
  constraints_ok db = true ->
  oldID <> "" ->
  RenewRequest.ExpiryDate req <> "" ->
  find_document oldID (documents db) = Some old ->
  date_in (RenewRequest.ExpiryDate req) = Some expiry ->
  Renew date_in db oldID req new_id now
  = (JSONError 500 "Failed to create renewed document", db).
Proof.
  intros Hok Hid Hreq Hfind Hdate. unfold Renew.
  apply String.eqb_neq in Hid, Hreq. rewrite Hid, Hreq, Hfind.
  rewrite exec_unset_employee by assumption. rewrite Hdate.
  now rewrite exec_returning_no_alias.
Qed.



(** C7. The renewal never takes place. Renew answers 201 to no request
    and leaves the database as it was, whatever the request: a renewal of a
    stored document with a date the database accepts, in a state where the
    constraints hold, is answered 500 'Failed to create renewed document'.
    The INSERT of the transaction ends with RETURNING docCols, whose
    columns are qualified by [d], and gives the table no alias; the same
    INSERT under the alias is accepted and stores the renewed record after
    the documents stored before. On the sample database the renewal of the
    work permit is answered 500, the permit is still the primary document
    and no record is added. *)
Theorem Renew_inserts_nothing :
  (forall db oldID req new_id now,
     status (fst (Renew date_in db oldID req new_id now)) <> 201
     /\ snd (Renew date_in db oldID req new_id now) = db)
  /\ (forall db oldID req new_id now old expiry,
        constraints_ok db = true ->
        oldID <> "" ->
        RenewRequest.ExpiryDate req <> "" ->
        find_document oldID (documents db) = Some old ->
        date_in (RenewRequest.ExpiryDate req) = Some expiry ->
        Renew date_in db oldID req new_id now
        = (JSONError 500 "Failed to create renewed document", db)
        /\ (~ In new_id (map ID (documents db)) ->
            exec_returning_docCols
              (Some docCols_qualifier)
              (mkDB (employees db)
                    (map (unset_employee (EmployeeID old)) (documents db)))
              (InsertDocument (renewed_document old req expiry new_id now))
            = Some (mkDB (employees db)
                         (map (unset_employee (EmployeeID old)) (documents db)
                          ++ [renewed_document old req expiry new_id now]))))
  /\ Renew Dates.iso_date_in Sample.db "d-permit" Sample.renewal "d-permit-2" 200
     = (JSONError 500 "Failed to create renewed document", Sample.db)
  /\ In Sample.permit (documents Sample.db)
  /\ IsPrimary Sample.permit = true.
Proof.
  split; [|split; [|split; [|split]]].
  - intros db oldID req new_id now. split; [|apply Renew_unchanged].
    unfold Renew. returning_clause.
    handler_cases; cbn [fst status JSON JSONError]; discriminate.
  - intros db oldID req new_id now old expiry Hok Hid Hreq Hfind Hdate. split.
    + now apply Renew_rejected with (old := old) (expiry := expiry).
    + intro Hfresh. rewrite exec_returning_alias_d.
      apply find_document_Some in Hfind. destruct Hfind as [Hin _].
      now apply (exec_insert_renewed db old (renewed_document old req expiry new_id now)).
  - reflexivity.
  - right. right. left. reflexivity.
  - reflexivity.
Qed.

(** C9. TogglePrimary on a document whose expiry date is NULL answers
    400 with the message 'Cannot set as primary: document has no expiry
    date' and leaves every record as it was. Only a document that carries an
    expiry date can become primary: where the constraints hold, a document
    that is primary after TogglePrimary either was stored as it is before
    the call or has an expiry date. *)
Theorem TogglePrimary_no_expiry (db : DB) (id : string) :
  (forall d,
     id <> "" ->
     find_document id (documents db) = Some d ->
     ExpiryDate d = None ->
     TogglePrimary db id
     = (JSONError 400 "Cannot set as primary: document has no expiry date", db))
  /\ (constraints_ok db = true ->
      forall d', In d' (documents (snd (TogglePrimary db id))) ->
                 IsPrimary d' = true ->
                 In d' (documents db) \/ ExpiryDate d' <> None).
Proof.
  split.
  - intros d Hid Hfind Hexp. unfold TogglePrimary.
    apply String.eqb_neq in Hid. rewrite Hid, Hfind, Hexp. reflexivity.
  - intros Hok d'.
    destruct (String.eqb id "") eqn:Hid;
      [unfold TogglePrimary; rewrite Hid; cbn [snd]; auto|].
    destruct (find_document id (documents db)) as [d|] eqn:Hfind;
      [|unfold TogglePrimary; rewrite Hid, Hfind; cbn [snd]; auto].
    destruct (ExpiryDate d) as [x|] eqn:Hexp;
      [|unfold TogglePrimary; rewrite Hid, Hfind, Hexp; cbn [snd]; auto].
    apply String.eqb_neq in Hid.
    rewrite (TogglePrimary_commits db id d Hok Hid Hfind) by congruence.
    cbn [snd documents]. intros Hin Hp.
    destruct (IsPrimary d).
    + apply in_map_iff in Hin. destruct Hin as [y [<- Hy]].
      destruct (unset_id_clears id y) as [E|E]; rewrite E in *; [now left|].
      discriminate Hp.
    + apply in_map_iff in Hin. destruct Hin as [y [<- Hy]].
      apply in_map_iff in Hy. destruct Hy as [z [<- Hz]].
      destruct (set_id_cases id (unset_employee (EmployeeID d) z)) as [[E1 E2]|[E1 E2]];
        rewrite E2 in *.
      * right. destruct (flag_only_unset_employee (EmployeeID d) z) as [b Eb].
        rewrite Eb in *. cbn [set_is_primary ID ExpiryDate] in *.
        apply find_document_Some in Hfind. destruct Hfind as [Hd Ed].
        assert (z = d) as ->
            by (apply (pkey_same_row (documents db)); auto using constraints_pkey;
                congruence).
        congruence.
      * destruct (unset_employee_clears (EmployeeID d) z) as [E|E]; rewrite E in *;
          [now left | discriminate Hp].
Qed.

End WithDateInput.

Lemma TogglePrimary_no_expiry_witness :
  TogglePrimary Sample.db "d-visa"
  = (JSONError 400 "Cannot set as primary: document has no expiry date", Sample.db).
Proof.
  apply (proj1 (TogglePrimary_no_expiry Sample.db "d-visa") Sample.visa).
  - discriminate.
  - reflexivity.
  - reflexivity.
Defined.



Lemma Renew_inserts_nothing_witness :
  Renew Dates.iso_date_in Sample.db "d-permit" Sample.renewal "d-permit-2" 200
  = (JSONError 500 "Failed to create renewed document", Sample.db).
Proof.
  apply (proj1 (proj2 (Renew_inserts_nothing Dates.iso_date_in))
               Sample.db "d-permit" Sample.renewal "d-permit-2" 200 Sample.permit
               (Dates.day (Dates.days_from_civil 2028 3 13))).
  - reflexivity.
  - discriminate.
  - discriminate.
  - reflexivity.
  - reflexivity.
Defined.

End DocumentProperties.

(** ** Ordered results *)

Module SqlFacts.
Import Sql.

Lemma insert_by_perm {A : Type} (leb : A -> A -> bool) (x : A) (l : list A) :
  Permutation (insert_by leb x l) (x :: l).
Proof.
  induction l as [|y t IH]; cbn [insert_by]; [reflexivity|].
  destruct (leb x y); [reflexivity|].
  rewrite IH. apply perm_swap.
Qed.

Lemma order_by_perm {A : Type} (leb : A -> A -> bool) (l : list A) :
  Permutation (order_by leb l) l.
Proof.
  induction l as [|x t IH]; cbn [order_by fold_right]; [reflexivity|].
  fold (order_by leb t). rewrite insert_by_perm. now constructor.
Qed.

Section Sorted.
Context {A : Type} (leb : A -> A -> bool).
Hypothesis leb_total : forall a b, leb a b = false -> leb b a = true.
Hypothesis leb_trans : forall a b c, leb a b = true -> leb b c = true -> leb a c = true.

Lemma insert_by_sorted (x : A) (l : list A) :
  StronglySorted (fun a b => leb a b = true) l ->
  StronglySorted (fun a b => leb a b = true) (insert_by leb x l).
Proof.
  induction l as [|y t IH]; cbn [insert_by]; intro H.
  - repeat constructor.
  - inversion H as [|? ? Ht Hy]; subst.
    destruct (leb x y) eqn:E.
    + constructor; [assumption|]. constructor; [assumption|].
      rewrite Forall_forall in *. intros z Hz. eauto.
    + constructor; [now apply IH|].
      rewrite insert_by_perm.
      constructor; [now apply leb_total | assumption].
Qed.

Lemma order_by_sorted (l : list A) :
  StronglySorted (fun a b => leb a b = true) (order_by leb l).
Proof.
  induction l as [|x t IH]; cbn [order_by fold_right]; [constructor|].
  now apply insert_by_sorted.
Qed.

End Sorted.

Lemma asc_nulls_last_total (a b : option Dates.date) :
  asc_nulls_last a b = false -> asc_nulls_last b a = true.
Proof.
  destruct a as [x|], b as [y|]; cbn; try congruence.
  apply DateFacts.leb_total.
Qed.

Lemma asc_nulls_last_trans (a b c : option Dates.date) :
  asc_nulls_last a b = true -> asc_nulls_last b c = true -> asc_nulls_last a c = true.
Proof.
  destruct a as [x|], b as [y|], c as [z|]; cbn; try congruence.
  apply DateFacts.leb_trans.
Qed.

(** *** The select list *)

Lemma select_Some_map {A B : Type} (f : A -> option B) (l : list A) (bs : list B) :
  select f l = Some bs -> map f l = map Some bs.
Proof.
  revert bs. induction l as [|a t IH]; cbn [select map]; intros bs H.
  - injection H as <-. reflexivity.
  - destruct (f a) as [b|]; [|discriminate H].
    destruct (select f t) as [bs'|]; [|discriminate H].
    injection H as <-. cbn [map]. now rewrite (IH bs').
Qed.

Lemma select_Some_In {A B : Type} (f : A -> option B) (l : list A) (bs : list B) (b : B) :
  select f l = Some bs -> In b bs -> exists a, In a l /\ f a = Some b.
Proof.
  intros H Hb. apply select_Some_map in H.
  assert (In (Some b) (map f l)) as Hin by (rewrite H; now apply in_map).
  apply in_map_iff in Hin. destruct Hin as [a [Ha Hin]]. eauto.
Qed.

Lemma select_Some_length {A B : Type} (f : A -> option B) (l : list A) (bs : list B) :
  select f l = Some bs -> List.length bs = List.length l.
Proof.
  intro H. apply select_Some_map in H.
  rewrite <- (length_map f l), H. now rewrite length_map.
Qed.

(** The select list raises as soon as it raises on one row. *)
Lemma select_None {A B : Type} (f : A -> option B) (l : list A) (a : A) :
  In a l -> f a = None -> select f l = None.
Proof.
  intros Hin Ha. induction l as [|x t IH]; [destruct Hin|].
  cbn [select]. destruct Hin as [->|Hin].
  - now rewrite Ha.
  - rewrite (IH Hin). now destruct (f x).
Qed.

Lemma select_total {A B : Type} (f : A -> option B) (l : list A) :
  (forall a, In a l -> f a <> None) -> exists bs, select f l = Some bs.
Proof.
  induction l as [|x t IH]; intro H; cbn [select]; [eauto|].
  destruct (f x) as [b|] eqn:E; [|exfalso; apply (H x); [now left | assumption]].
  destruct IH as [bs ->]; [intros a Ha; apply H; now right|]. eauto.
Qed.

Lemma select_ext_in {A B : Type} (f g : A -> option B) (l : list A) :
  (forall a, In a l -> f a = g a) -> select f l = select g l.
Proof.
  induction l as [|x t IH]; intro H; cbn [select]; [reflexivity|].
  rewrite (H x (or_introl eq_refl)), IH; [reflexivity|].
  intros a Ha. apply H. now right.
Qed.

(** The rows of a page are rows of the result. *)
Lemma page_incl {A : Type} (limit offset : nat) (l : list A) :
  incl (firstn limit (skipn offset l)) l.
Proof.
  intros x Hx.
  rewrite <- (firstn_skipn offset l). apply in_or_app. right.
  rewrite <- (firstn_skipn limit (skipn offset l)). apply in_or_app. now left.
Qed.

Lemma page_length {A : Type} (limit offset : nat) (l : list A) :
  List.length (firstn limit (skipn offset l))
  = Nat.min limit (List.length l - offset).
Proof. now rewrite length_firstn, length_skipn. Qed.

End SqlFacts.

(** ** The status of an employee and of a document *)

Module StatusProperties.
Import Schema EmployeeHandler.

(** C1, as stated, fails on the code. The document of the scenario
    (expiry 2026-02-19), read 10 days after its expiry, is 'expired' in
    the employee list and in the frontend helper, whatever the grace
    period; the specification has it InGrace under 30 days of grace and
    PenaltyActive under none. So no reading of the four statuses of the
    code gives the five lifecycle states. *)
Lemma lifecycle_states_counterexample :
  doc_status (Sample.expiry_0219 + 10) (ExpiryDate Sample.emirates_id) = expired
  /\ Utils.getExpiryStatus (Utils.new_Date (Sample.expiry_0219 + 10)) Sample.expiry_0219
     = Utils.expired
  /\ Engine.Evaluate (Engine.snapshot Sample.emirates_id) Sample.emirates_id_rule
                     (Sample.expiry_0219 + 10) = Engine.InGrace
  /\ Engine.Evaluate (Engine.snapshot Sample.emirates_id) Sample.no_grace_rule
                     (Sample.expiry_0219 + 10) = Engine.PenaltyActive
  /\ ~ (exists label : DocStatus -> Engine.LifecycleState,
           forall d rule asOfDate,
             Engine.Evaluate (Engine.snapshot d) rule asOfDate
             = label (doc_status asOfDate (ExpiryDate d))).
Proof.
  repeat split; try reflexivity.
  intros [label H].
  pose proof (H Sample.emirates_id Sample.emirates_id_rule (Sample.expiry_0219 + 10)) as H1.
  pose proof (H Sample.emirates_id Sample.no_grace_rule (Sample.expiry_0219 + 10)) as H2.
  vm_compute in H1, H2. congruence.
Qed.

(** C1, amended. The status of a document at the current date follows a
    fixed first-match order of four states: 'none' when the expiry date is
    unset, else 'expired' when the date is past it, else 'expiring' when
    the expiry is at most 30 days away, else 'valid'; of the two special
    dates, '-infinity' is 'expired' and 'infinity' is 'valid'. The grace
    period plays no part: under any rule with a grace period of zero days
    or more, the status of a document whose date is a day or is unset is
    the lifecycle state of the specification with InGrace and
    PenaltyActive both read as 'expired'. *)
Theorem doc_status_first_match (CURRENT_DATE : Z) (d : Document)
        (rule : Engine.EffectiveRule) :
  0 <= Engine.graceDays rule ->
  (ExpiryDate d = None -> doc_status CURRENT_DATE (ExpiryDate d) = none)
  /\ (forall x, ExpiryDate d = Some (Dates.day x) ->
        (x < CURRENT_DATE -> doc_status CURRENT_DATE (ExpiryDate d) = expired)
        /\ (CURRENT_DATE <= x -> x - CURRENT_DATE <= 30 ->
            doc_status CURRENT_DATE (ExpiryDate d) = expiring)
        /\ (30 < x - CURRENT_DATE -> doc_status CURRENT_DATE (ExpiryDate d) = valid))
  /\ (ExpiryDate d = Some Dates.neg_infinity ->
      doc_status CURRENT_DATE (ExpiryDate d) = expired)
  /\ (ExpiryDate d = Some Dates.infinity ->
      doc_status CURRENT_DATE (ExpiryDate d) = valid)
  /\ (ExpiryDate d <> Some Dates.neg_infinity -> ExpiryDate d <> Some Dates.infinity ->
      doc_status CURRENT_DATE (ExpiryDate d)
      = Engine.doc_status_of (Engine.Evaluate (Engine.snapshot d) rule CURRENT_DATE)).
Proof.
  intro Hg. unfold doc_status, Engine.Evaluate, Engine.snapshot.
  cbn [Engine.expiryDate Engine.requiredFieldsSet negb].
  split; [intros ->; reflexivity|]. split; [|split; [|split]].
  - intros x ->. rewrite DateFacts.ltb_day, DateFacts.leb_day. repeat split; intro H.
    + apply Z.ltb_lt in H. now rewrite H.
    + intro H'. assert ((x <? CURRENT_DATE) = false) as -> by (apply Z.ltb_ge; lia).
      assert ((x <=? CURRENT_DATE + 30) = true) as -> by (apply Z.leb_le; lia).
      reflexivity.
    + assert ((x <? CURRENT_DATE) = false) as -> by (apply Z.ltb_ge; lia).
      assert ((x <=? CURRENT_DATE + 30) = false) as -> by (apply Z.leb_gt; lia).
      reflexivity.
  - intros ->. reflexivity.
  - intros ->. reflexivity.
  - intros Hn Hi. destruct (ExpiryDate d) as [[|x|]|]; try congruence; [|reflexivity].
    rewrite DateFacts.ltb_day, DateFacts.leb_day.
    destruct (x + Engine.graceDays rule <? CURRENT_DATE) eqn:A,
             (x <? CURRENT_DATE) eqn:B,
             (x <=? CURRENT_DATE + 30) eqn:C,
             (x - CURRENT_DATE <=? 30) eqn:D; cbn [Engine.doc_status_of];
      try reflexivity;
      rewrite ?Z.ltb_lt, ?Z.ltb_ge, ?Z.leb_le, ?Z.leb_gt in *; lia.
Qed.

Lemma doc_status_first_match_witness :
  doc_status (Sample.expiry_0219 + 10) (ExpiryDate Sample.emirates_id)
  = Engine.doc_status_of
      (Engine.Evaluate (Engine.snapshot Sample.emirates_id) Sample.emirates_id_rule
                       (Sample.expiry_0219 + 10)).
Proof.
  apply (doc_status_first_match (Sample.expiry_0219 + 10) Sample.emirates_id
                                Sample.emirates_id_rule).
  - simpl. lia.
  - discriminate.
  - discriminate.
Defined.

(** *** One status for an employee *)

Lemma left_join_primary_one (docs : list Document) (e : string) (d : Document) :
  idx_documents_primary_per_employee docs = true ->
  In d docs -> EmployeeID d = e -> IsPrimary d = true ->
  left_join_primary docs e = [Some d].
Proof.
  intros Hidx Hin He Hp. unfold left_join_primary.
  pose proof (DocumentProperties.idx_at_most_one docs e Hidx) as Hlen.
  assert (In d (filter (fun pd => String.eqb (EmployeeID pd) e && IsPrimary pd) docs)) as Hd.
  { apply filter_In. split; [assumption|].
    rewrite Hp, andb_true_r. apply String.eqb_eq. assumption. }
  destruct (filter _ docs) as [|a [|b t]].
  - destruct Hd.
  - destruct Hd as [->|[]]. reflexivity.
  - cbn [List.length] in Hlen. lia.
Qed.

Lemma left_join_primary_none (docs : list Document) (e : string) :
  (forall d, In d docs -> EmployeeID d = e -> IsPrimary d = false) ->
  left_join_primary docs e = [None].
Proof.
  intro H. unfold left_join_primary.
  destruct (filter _ docs) as [|a t] eqn:E; [reflexivity|].
  assert (In a (filter (fun pd => String.eqb (EmployeeID pd) e && IsPrimary pd) docs)) as Ha
      by (rewrite E; now left).
  apply filter_In in Ha. destruct Ha as [Hin Hb].
  apply andb_true_iff in Hb. destruct Hb as [He Hp].
  apply String.eqb_eq in He. rewrite (H a Hin He) in Hp. discriminate.
Qed.

(** Under the index the join has one row for an employee. *)
Lemma left_join_primary_single (docs : list Document) (e : string) :
  idx_documents_primary_per_employee docs = true ->
  exists pd, left_join_primary docs e = [pd].
Proof.
  intro Hidx. unfold left_join_primary.
  pose proof (DocumentProperties.idx_at_most_one docs e Hidx) as Hlen.
  destruct (filter _ docs) as [|a [|b t]]; cbn [map]; eauto.
  cbn [List.length] in Hlen. lia.
Qed.

Lemma GetByID_single (CURRENT_DATE : Z) (db : DB) (e : string) (pd : option Document) :
  In e (employees db) ->
  left_join_primary (documents db) e = [pd] ->
  GetByID CURRENT_DATE db e = status_columns CURRENT_DATE pd.
Proof.
  intros He Hpd. unfold GetByID.
  assert (existsb (String.eqb e) (employees db) = true) as ->.
  { apply existsb_exists. exists e. split; [assumption | apply String.eqb_refl]. }
  rewrite Hpd. cbn [Sql.select]. now destruct (status_columns CURRENT_DATE pd).
Qed.

(** The rows of the two queries of List are rows of the join. *)
Lemma from_where_In (CURRENT_DATE : Z) (db : DB) (f : string) (e : string)
      (pd : option Document) :
  In (e, pd) (from_where CURRENT_DATE db f) <->
  In e (employees db) /\ In pd (left_join_primary (documents db) e)
  /\ statusFilter f CURRENT_DATE pd = true.
Proof.
  unfold from_where. rewrite in_flat_map. split.
  - intros [e' [He Hin]]. apply in_map_iff in Hin. destruct Hin as [pd' [Heq Hin]].
    injection Heq as -> ->. apply filter_In in Hin. tauto.
  - intros [He [Hin Hf]]. exists e. split; [assumption|].
    apply in_map. now apply filter_In.
Qed.

(** A row of a page of List is the select list of a row of the queries. *)
Lemma List_row (CURRENT_DATE : Z) (db : DB) (f : string)
      (order : string -> string -> bool) (page limit : Z)
      (rows : list (string * StatusColumns)) (total : Z) (e : string) (cols : StatusColumns) :
  List CURRENT_DATE db f order page limit = Some (rows, total) ->
  In (e, cols) rows ->
  exists pd, In (e, pd) (from_where CURRENT_DATE db f)
             /\ status_columns CURRENT_DATE pd = Some cols.
Proof.
  unfold List. destruct (EmployeeQuery.offset_of page limit <? 0); [discriminate|].
  destruct (Sql.select _ _) as [all|] eqn:E; [|discriminate].
  intros H Hin. injection H as <- _.
  apply SqlFacts.page_incl in Hin.
  destruct (SqlFacts.select_Some_In _ _ _ _ E Hin) as [[e' pd] [Hrow Hcols]].
  unfold list_columns in Hcols. cbn [fst snd] in Hcols.
  destruct (status_columns CURRENT_DATE pd) as [c|] eqn:Ec; [|discriminate Hcols].
  cbn [option_map] in Hcols. injection Hcols as -> ->.
  exists pd. split; [|assumption].
  now rewrite SqlFacts.order_by_perm in Hrow.
Qed.

(** C2, as stated, fails on the code. Employee emp-1 holds a visa without
    an expiry date (Incomplete) and a passport valid for 200 more days,
    which is the primary document: the aggregate the specification asks
    for is Incomplete, the status the code returns is 'valid'. *)
Lemma aggregate_status_counterexample :
  GetByID Sample.today Sample.db "emp-1"
  = Some (mkStatusColumns valid (Some 200) (Some "passport"))
  /\ List Sample.today Sample.db "" Sample.by_id 1 20
     = Some ([("emp-1", mkStatusColumns valid (Some 200) (Some "passport"));
              ("emp-2", mkStatusColumns expiring (Some 12) (Some "work_permit"))], 2)
  /\ Engine.aggregateStatus (documents Sample.db) "emp-1"
                            (fun _ => Sample.emirates_id_rule) Sample.today
     = Engine.Incomplete
  /\ ~ (forall today db e rule_for cols,
           GetByID today db e = Some cols ->
           DocStatusOf cols
           = Engine.doc_status_of (Engine.aggregateStatus (documents db) e rule_for today)).
Proof.
  repeat split; try reflexivity.
  intro H.
  specialize (H Sample.today Sample.db "emp-1" (fun _ => Sample.emirates_id_rule) _ eq_refl).
  vm_compute in H. discriminate H.
Qed.

(** C2, amended. The single status that stands for an employee is the
    status of the employee's primary document alone: where the database
    constraints hold, an employee with a primary document gets the status,
    the days left and the type of that document, whatever the other
    documents of the employee are, and an employee without a primary
    document gets 'none'. The days left are the expiry day less the current
    day; for a primary document dated 'infinity' or '-infinity' that
    subtraction raises and the employee is answered 404. Every row a page
    of the employee list has for the employee carries the status that
    GetByID gives. *)
Theorem status_of_primary_document (CURRENT_DATE : Z) (db : DB) (e : string) :
  constraints_ok db = true ->
  In e (employees db) ->
  (forall d, In d (documents db) -> EmployeeID d = e -> IsPrimary d = true ->
     GetByID CURRENT_DATE db e = status_columns CURRENT_DATE (Some d)
     /\ (forall x, ExpiryDate d = Some (Dates.day x) ->
           GetByID CURRENT_DATE db e
           = Some (mkStatusColumns (doc_status CURRENT_DATE (ExpiryDate d))
                                   (Some (x - CURRENT_DATE))
                                   (Some (DocumentType d))))
     /\ (ExpiryDate d = None ->
         GetByID CURRENT_DATE db e
         = Some (mkStatusColumns none None (Some (DocumentType d))))
     /\ (ExpiryDate d = Some Dates.infinity \/ ExpiryDate d = Some Dates.neg_infinity ->
         GetByID CURRENT_DATE db e = None))
  /\ ((forall d, In d (documents db) -> EmployeeID d = e -> IsPrimary d = false) ->
      GetByID CURRENT_DATE db e = Some (mkStatusColumns none None None))
  /\ (forall f order page limit rows total cols,
        List CURRENT_DATE db f order page limit = Some (rows, total) ->
        In (e, cols) rows ->
        GetByID CURRENT_DATE db e = Some cols).
Proof.
  intros Hok He.
  pose proof (DocumentProperties.constraints_idx db Hok) as Hidx.
  split; [|split].
  - intros d Hin Hd Hp.
    pose proof (GetByID_single CURRENT_DATE db e (Some d) He
                  (left_join_primary_one _ _ d Hidx Hin Hd Hp)) as Hget.
    split; [assumption|]. rewrite Hget. unfold status_columns, expiry_days_left.
    cbn [pd_expiry_date option_map].
    split; [|split].
    + intros x ->. reflexivity.
    + intros ->. reflexivity.
    + intros [-> | ->]; reflexivity.
  - intro Hnone.
    now rewrite (GetByID_single CURRENT_DATE db e None He
                   (left_join_primary_none _ _ Hnone)).
  - intros f order page limit rows total cols HL Hin.
    destruct (List_row _ _ _ _ _ _ _ _ _ _ HL Hin) as [pd [Hrow Hcols]].
    apply from_where_In in Hrow. destruct Hrow as [_ [Hpd _]].
    destruct (left_join_primary_single (documents db) e Hidx) as [pd0 Hpd0].
    rewrite Hpd0 in Hpd. destruct Hpd as [<-|[]].
    now rewrite (GetByID_single CURRENT_DATE db e pd0 He Hpd0).
Qed.

Lemma status_of_primary_document_witness :
  GetByID Sample.today Sample.db "emp-1"
  = Some (mkStatusColumns valid (Some 200) (Some "passport"))
  /\ GetByID Sample.today
             (mkDB ["emp-1"; "emp-2"] [Sample.passport_forever; Sample.visa; Sample.permit])
             "emp-1"
     = None.
Proof.
  split.
  - apply (proj1 (proj2 (proj1 (status_of_primary_document Sample.today Sample.db "emp-1"
                                  eq_refl (or_introl eq_refl))
                               Sample.passport (or_introl eq_refl) eq_refl eq_refl))
                 (Sample.today + 200)).
    reflexivity.
  - apply (proj2 (proj2 (proj2 (proj1 (status_of_primary_document Sample.today
                                         (mkDB ["emp-1"; "emp-2"]
                                               [Sample.passport_forever; Sample.visa;
                                                Sample.permit])
                                         "emp-1" eq_refl (or_introl eq_refl))
                                      Sample.passport_forever (or_introl eq_refl)
                                      eq_refl eq_refl)))).
    left. reflexivity.
Defined.

(** *** The date of the evaluation *)

Lemma status_columns_read (CURRENT_DATE : Z) (d1 d2 : Document) :
  read_columns d1 = read_columns d2 ->
  status_columns CURRENT_DATE (Some d1) = status_columns CURRENT_DATE (Some d2).
Proof.
  unfold read_columns, status_columns. intro H. injection H as H1 H2.
  cbn [pd_expiry_date option_map]. now rewrite H1, H2.
Qed.

Lemma join_rows_read (CURRENT_DATE : Z) (l1 l2 : list Document) :
  map read_columns l1 = map read_columns l2 ->
  Sql.select (status_columns CURRENT_DATE) (map Some l1)
  = Sql.select (status_columns CURRENT_DATE) (map Some l2).
Proof.
  revert l2. induction l1 as [|a t IH]; intros [|b u] H; try discriminate H.
  - reflexivity.
  - cbn [map] in *.
    assert (read_columns a = read_columns b) as Hab by congruence.
    assert (map read_columns t = map read_columns u) as Htu by congruence.
    cbn [Sql.select]. now rewrite (status_columns_read _ a b Hab), (IH u Htu).
Qed.

(** C6, as stated, fails on the code. The evaluation takes no date from its
    caller: the queries read CURRENT_DATE and the frontend helper reads
    new Date(). The same request on the same stored documents is answered
    'expiring' on 2026-03-01 and 'expired' on 2026-04-01, so the answer is
    no function of the request and the documents alone. *)
Lemma evaluation_date_counterexample :
  GetByID (Dates.days_from_civil 2026 3 1) Sample.db "emp-2"
  = Some (mkStatusColumns expiring (Some 12) (Some "work_permit"))
  /\ GetByID (Dates.days_from_civil 2026 4 1) Sample.db "emp-2"
     = Some (mkStatusColumns expired (Some (-19)) (Some "work_permit"))
  /\ Utils.getExpiryStatus (Utils.new_Date (Dates.days_from_civil 2026 3 1))
                           (Dates.days_from_civil 2026 3 13) = Utils.warning
  /\ Utils.getExpiryStatus (Utils.new_Date (Dates.days_from_civil 2026 4 1))
                           (Dates.days_from_civil 2026 3 13) = Utils.expired
  /\ ~ (forall clock1 clock2 db id, GetByID clock1 db id = GetByID clock2 db id)
  /\ ~ (forall now1 now2 expiryDate,
           Utils.getExpiryStatus now1 expiryDate = Utils.getExpiryStatus now2 expiryDate).
Proof.
  repeat split; try reflexivity.
  - intro H.
    specialize (H (Dates.days_from_civil 2026 3 1) (Dates.days_from_civil 2026 4 1)
                  Sample.db "emp-2").
    vm_compute in H. discriminate H.
  - intro H.
    specialize (H (Utils.new_Date (Dates.days_from_civil 2026 3 1))
                  (Utils.new_Date (Dates.days_from_civil 2026 4 1))
                  (Dates.days_from_civil 2026 3 13)).
    vm_compute in H. discriminate H.
Qed.

(** C6, amended. The status of an employee is a function of the current
    date the query reads from the clock of the database and of the expiry
    date and type of the employee's primary document: at one reading of
    the clock, two databases in which the employee is known and has
    primary documents with the same expiry dates and types give the same
    answer, whatever else they store. *)
Theorem status_determined_by_clock_and_expiry (CURRENT_DATE : Z) (db1 db2 : DB)
        (e : string) :
  In e (employees db1) -> In e (employees db2) ->
  map read_columns
      (filter (fun pd => String.eqb (EmployeeID pd) e && IsPrimary pd) (documents db1))
  = map read_columns
        (filter (fun pd => String.eqb (EmployeeID pd) e && IsPrimary pd) (documents db2)) ->
  GetByID CURRENT_DATE db1 e = GetByID CURRENT_DATE db2 e.
Proof.
  intros H1 H2 Hread. unfold GetByID.
  assert (forall db, In e (employees db) -> existsb (String.eqb e) (employees db) = true)
    as Hex.
  { intros db Hin. apply existsb_exists. exists e.
    split; [assumption | apply String.eqb_refl]. }
  rewrite (Hex db1 H1), (Hex db2 H2). unfold left_join_primary.
  destruct (filter _ (documents db1)) as [|a1 t1];
    destruct (filter _ (documents db2)) as [|a2 t2]; try discriminate Hread.
  - reflexivity.
  - now rewrite (join_rows_read CURRENT_DATE (a1 :: t1) (a2 :: t2)).
Qed.

Lemma status_determined_by_clock_and_expiry_witness :
  GetByID Sample.today Sample.db "emp-2"
  = GetByID Sample.today (mkDB ["emp-2"] [Sample.permit; Sample.emirates_id]) "emp-2".
Proof.
  apply (status_determined_by_clock_and_expiry Sample.today Sample.db
           (mkDB ["emp-2"] [Sample.permit; Sample.emirates_id]) "emp-2").
  - right. left. reflexivity.
  - left. reflexivity.
  - reflexivity.
Defined.

End StatusProperties.

(** ** The rules store *)

Module RulesProperties.
Import ComplianceRules.

Lemma pairwise_at_most_one {A : Type} (ok : A -> A -> bool) (p : A -> bool) (l : list A) :
  pairwise ok l = true ->
  (forall x y, p x = true -> p y = true -> ok x y = false) ->
  (List.length (filter p l) <= 1)%nat.
Proof.
  intros Hpw Hclash. induction l as [|x t IH]; [cbn; lia|].
  cbn [pairwise] in Hpw. apply andb_true_iff in Hpw. destruct Hpw as [Hx Ht].
  cbn [filter]. destruct (p x) eqn:Px; [|now apply IH].
  assert (filter p t = []) as ->; [|cbn; lia].
  destruct (filter p t) as [|y u] eqn:E; [reflexivity|].
  assert (In y (filter p t)) as Hy by (rewrite E; now left).
  apply filter_In in Hy. destruct Hy as [Hin Py].
  rewrite forallb_forall in Hx. specialize (Hx y Hin).
  rewrite (Hclash x y Px Py) in Hx. discriminate Hx.
Qed.

Lemma rules_exec_Some rules s rules' :
  exec rules s = Some rules' -> constraints_ok rules' = true.
Proof.
  unfold exec. destruct (constraints_ok (apply_stmt rules s)) eqn:E; [|discriminate].
  intro H. now injection H as <-.
Qed.

Lemma seed_Some new_ids now rules rules' :
  constraints_ok rules = true -> seed new_ids now rules = Some rules' ->
  constraints_ok rules' = true.
Proof.
  unfold seed. destruct rules as [|r t].
  - intros _. destruct (constraints_ok (seed_rows new_ids now 0 seed_values)) eqn:E;
      [|discriminate]. intro H. now injection H as <-.
  - intros H H'. now injection H' as <-.
Qed.

Lemma rules_reachable_constraints rules : reachable rules -> constraints_ok rules = true.
Proof.
  induction 1 as [|rules rules' _ IH Hstep]; [reflexivity|].
  destruct Hstep; eauto using seed_Some, rules_exec_Some.
Qed.

(** The seed itself meets the constraints as soon as the ids drawn for
    its seven rows differ: no document type occurs twice in it. *)
Lemma seed_accepted (new_ids : nat -> string) (now : Z) :
  pairwise (fun a b => negb (String.eqb a b)) (map new_ids (seq 0 7)) = true ->
  seed new_ids now [] = Some (seed_rows new_ids now 0 seed_values).
Proof.
  intro H. unfold seed.
  assert (constraints_ok (seed_rows new_ids now 0 seed_values) = true) as ->;
    [|reflexivity].
  unfold constraints_ok. rewrite !andb_true_iff.
  split; [split|]; [exact H | reflexivity | reflexivity].
Qed.

(** C5. In every state the rules store can reach from the empty table,
    through the seeding of migration 007 and through any statement the
    constraints of the table accept, there is at most one global rule
    (company_id NULL) for every document type and at most one rule for
    every pair of a company and a document type. *)
Theorem rules_unique (rules : list ComplianceRule) :
  reachable rules ->
  (forall t : string,
     (List.length (filter (is_global_rule_for t) rules) <= 1)%nat)
  /\ (forall c t : string,
        (List.length (filter (is_company_rule_for c t) rules) <= 1)%nat).
Proof.
  intro H. apply rules_reachable_constraints in H. unfold constraints_ok in H.
  rewrite !andb_true_iff in H. destruct H as [[_ Hu] Hg]. split.
  - intro t. apply (pairwise_at_most_one global_distinct); [assumption|].
    intros x y. unfold is_global_rule_for, global_distinct.
    destruct (company_id x), (company_id y); try discriminate.
    intros Hx Hy. apply String.eqb_eq in Hx, Hy. rewrite Hx, Hy, String.eqb_refl.
    reflexivity.
  - intros c t. apply (pairwise_at_most_one company_doc_type_distinct); [assumption|].
    intros x y. unfold is_company_rule_for, company_doc_type_distinct.
    destruct (company_id x) as [cx|], (company_id y) as [cy|]; try discriminate.
    rewrite !andb_true_iff, !String.eqb_eq. intros [-> ->] [-> ->].
    now rewrite !String.eqb_refl.
Qed.

Lemma rules_reachable_sample : reachable Sample.rules.
Proof.
  apply reachable_step with (rules := seed_rows Sample.rule_ids 5 0 seed_values).
  - apply reachable_step with (rules := []); [constructor|].
    apply step_seed with (new_ids := Sample.rule_ids) (now := 5).
    apply seed_accepted. reflexivity.
  - apply step_exec with (s := Insert Sample.visa_override). reflexivity.
Qed.

Lemma rules_unique_witness :
  (List.length (filter (is_global_rule_for "visa") Sample.rules) <= 1)%nat
  /\ (List.length (filter (is_company_rule_for "company-1" "visa") Sample.rules) <= 1)%nat.
Proof.
  split.
  - apply (proj1 (rules_unique Sample.rules rules_reachable_sample)).
  - apply (proj2 (rules_unique Sample.rules rules_reachable_sample)).
Defined.

End RulesProperties.

(** ** The fine calculator of the specification *)

Module EngineProperties.
Import Engine.

Lemma PenaltyActive_overdue document rule asOfDate expiry :
  expiryDate document = Some expiry ->
  Evaluate document rule asOfDate = PenaltyActive ->
  0 < asOfDate - (expiry + graceDays rule).
Proof.
  unfold Evaluate. intros -> H.
  destruct (negb (requiredFieldsSet document)); [discriminate|].
  destruct (expiry + graceDays rule <? asOfDate) eqn:A.
  - apply Z.ltb_lt in A. lia.
  - destruct (expiry <? asOfDate); [discriminate|].
    destruct (expiry - asOfDate <=? 30); discriminate.
Qed.

Lemma InGrace_within document rule asOfDate expiry :
  expiryDate document = Some expiry ->
  Evaluate document rule asOfDate = InGrace ->
  0 < asOfDate - expiry <= graceDays rule.
Proof.
  unfold Evaluate. intros -> H.
  destruct (negb (requiredFieldsSet document)); [discriminate|].
  destruct (expiry + graceDays rule <? asOfDate) eqn:A; [discriminate|].
  destruct (expiry <? asOfDate) eqn:B.
  - apply Z.ltb_ge in A. apply Z.ltb_lt in B. lia.
  - destruct (expiry - asOfDate <=? 30); discriminate.
Qed.

(** C3. For a PenaltyActive document under a daily rule, the days overdue
    beyond grace are asOfDate - (expiryDate + graceDays), which is
    positive, the raw amount is fineRate times these days, and the accrued
    fine is the raw amount when fineCap = 0 and the raw amount clamped to
    [0, fineCap] when fineCap > 0. The seeded Emirates ID rule (grace 30,
    20.00 a day, cap 1000.00) at 60 days beyond grace yields 1000.00, the
    raw amount being 1200.00. *)
Theorem daily_fine_clamped :
  (forall document rule asOfDate expiry,
     expiryDate document = Some expiry ->
     Evaluate document rule asOfDate = PenaltyActive ->
     fineType rule = daily ->
     let raw := fineRate rule * (asOfDate - (expiry + graceDays rule)) in
     daysOverdueBeyondGrace expiry rule asOfDate = asOfDate - (expiry + graceDays rule)
     /\ 0 < daysOverdueBeyondGrace expiry rule asOfDate
     /\ (fineCap rule = 0 ->
         Accrue document rule (Evaluate document rule asOfDate) asOfDate = raw)
     /\ (0 < fineCap rule ->
         Accrue document rule (Evaluate document rule asOfDate) asOfDate
         = Z.max 0 (Z.min (fineCap rule) raw)
         /\ 0 <= Accrue document rule (Evaluate document rule asOfDate) asOfDate
            <= fineCap rule))
  /\ (forall new_ids now,
        Resolve (ComplianceRules.seed_rows new_ids now 0 ComplianceRules.seed_values)
                "emirates_id" None
        = Some Sample.emirates_id_rule)
  /\ (let asOfDate := Sample.expiry_0219 + 30 + 60 in
      let document := snapshot Sample.emirates_id in
      Evaluate document Sample.emirates_id_rule asOfDate = PenaltyActive
      /\ rawFine Sample.emirates_id_rule
                 (daysOverdueBeyondGrace Sample.expiry_0219 Sample.emirates_id_rule asOfDate)
         = AED 1200
      /\ Accrue document Sample.emirates_id_rule PenaltyActive asOfDate = AED 1000).
Proof.
  split; [|split].
  - intros document rule asOfDate expiry He Hs Hd raw.
    pose proof (PenaltyActive_overdue _ _ _ _ He Hs) as Hpos.
    assert (daysOverdueBeyondGrace expiry rule asOfDate
            = asOfDate - (expiry + graceDays rule)) as Hdays
        by (unfold daysOverdueBeyondGrace; lia).
    rewrite Hs. unfold Accrue, rawFine. rewrite He, Hd, Hdays. fold raw.
    repeat split; try lia.
    + intros ->. reflexivity.
    + unfold clamp. apply Z.ltb_lt in H. now rewrite H.
    + unfold clamp. pose proof H as H'. apply Z.ltb_lt in H'. rewrite H'. lia.
    + unfold clamp. pose proof H as H'. apply Z.ltb_lt in H'. rewrite H'. lia.
  - intros new_ids now. reflexivity.
  - cbv zeta. repeat split; reflexivity.
Qed.

Lemma daily_fine_clamped_witness :
  Accrue (snapshot Sample.emirates_id) Sample.emirates_id_rule
         (Evaluate (snapshot Sample.emirates_id) Sample.emirates_id_rule
                   (Sample.expiry_0219 + 90))
         (Sample.expiry_0219 + 90)
  = Z.max 0 (Z.min (fineCap Sample.emirates_id_rule)
                   (fineRate Sample.emirates_id_rule
                    * (Sample.expiry_0219 + 90
                       - (Sample.expiry_0219 + graceDays Sample.emirates_id_rule)))).
Proof.
  apply (proj1 daily_fine_clamped (snapshot Sample.emirates_id) Sample.emirates_id_rule
               (Sample.expiry_0219 + 90) Sample.expiry_0219 eq_refl eq_refl eq_refl).
  simpl. lia.
Defined.

(** C4. For a document in the InGrace state the fine is zero and
    graceDaysRemaining is graceDays - (asOfDate - expiryDate), which is not
    negative. The document that expires on 2026-02-19 under 30 days of
    grace is, 10 days after its expiry, InGrace with 20 grace days
    remaining and no fine; 45 days after its expiry it is PenaltyActive
    with no grace days remaining. *)
Theorem in_grace_no_fine :
  (forall document rule asOfDate expiry,
     expiryDate document = Some expiry ->
     Evaluate document rule asOfDate = InGrace ->
     Accrue document rule (Evaluate document rule asOfDate) asOfDate = 0
     /\ graceDaysRemaining document rule asOfDate
        = graceDays rule - (asOfDate - expiry)
     /\ 0 <= graceDaysRemaining document rule asOfDate < graceDays rule)
  /\ (let document := snapshot Sample.emirates_id in
      expiryDate document = Some (Dates.days_from_civil 2026 2 19)
      /\ graceDays Sample.emirates_id_rule = 30
      /\ Evaluate document Sample.emirates_id_rule (Sample.expiry_0219 + 10) = InGrace
      /\ graceDaysRemaining document Sample.emirates_id_rule (Sample.expiry_0219 + 10) = 20
      /\ Accrue document Sample.emirates_id_rule InGrace (Sample.expiry_0219 + 10) = 0
      /\ Evaluate document Sample.emirates_id_rule (Sample.expiry_0219 + 45) = PenaltyActive
      /\ graceDaysRemaining document Sample.emirates_id_rule (Sample.expiry_0219 + 45) = 0).
Proof.
  split.
  - intros document rule asOfDate expiry He Hs.
    pose proof (InGrace_within _ _ _ _ He Hs) as Hin.
    rewrite Hs. unfold Accrue, graceDaysRemaining. rewrite He.
    repeat split; lia.
  - cbv zeta. repeat split; reflexivity.
Qed.

Lemma in_grace_no_fine_witness :
  Accrue (snapshot Sample.emirates_id) Sample.emirates_id_rule
         (Evaluate (snapshot Sample.emirates_id) Sample.emirates_id_rule
                   (Sample.expiry_0219 + 10))
         (Sample.expiry_0219 + 10) = 0.
Proof.
  apply (proj1 in_grace_no_fine (snapshot Sample.emirates_id) Sample.emirates_id_rule
               (Sample.expiry_0219 + 10) Sample.expiry_0219 eq_refl eq_refl).
Defined.

End EngineProperties.


(** ** Phone numbers *)

Module FormatProperties.
Import Format.

(** X1. formatPhoneNumber puts one '+' in front of a number that has none:
    its result always starts with '+', a number that starts with '+' is
    returned as it is and no other number is, and formatting twice is
    formatting once. *)
Theorem formatPhoneNumber_idempotent (phone : string) :
  startsWith_plus (formatPhoneNumber phone) = true
  /\ (formatPhoneNumber phone = phone <-> startsWith_plus phone = true)
  /\ formatPhoneNumber (formatPhoneNumber phone) = formatPhoneNumber phone.
Proof.
  unfold formatPhoneNumber.
  destruct (startsWith_plus phone) eqn:E.
  - rewrite E. repeat split; auto.
  - cbn [startsWith_plus]. rewrite Ascii.eqb_refl. repeat split; try congruence.
    intro H. exfalso.
    assert (String.length (String "+" phone) = String.length phone) as Hl by now rewrite H.
    cbn [String.length] in Hl. lia.
Qed.

End FormatProperties.

(** ** CSV cells and error texts *)

Module TextProperties.
Import EmployeeQuery.

Lemma ReplaceAll_quote_inj (a b : string) :
  ReplaceAll_quote a = ReplaceAll_quote b -> a = b.
Proof.
  revert b. induction a as [|x a IH]; intros [|y b]; cbn [ReplaceAll_quote].
  - reflexivity.
  - destruct (Ascii.eqb y quote); discriminate.
  - destruct (Ascii.eqb x quote); discriminate.
  - destruct (Ascii.eqb x quote) eqn:Ex, (Ascii.eqb y quote) eqn:Ey; intro H.
    + apply Ascii.eqb_eq in Ex, Ey. subst. injection H as H. f_equal. now apply IH.
    + injection H as H1 H2. subst y. now rewrite Ascii.eqb_refl in Ey.
    + injection H as H1 H2. subst x. now rewrite Ascii.eqb_refl in Ex.
    + injection H as H1 H2. subst. f_equal. now apply IH.
Qed.

Lemma append_char_inj (a b : string) (c : ascii) :
  (a ++ String c EmptyString = b ++ String c EmptyString)%string -> a = b.
Proof.
  revert b. induction a as [|x a IH]; intros [|y b]; cbn [append]; intro H.
  - reflexivity.
  - injection H as _ H. destruct b; discriminate H.
  - injection H as _ H. destruct a; discriminate H.
  - injection H as -> H. f_equal. now apply IH.
Qed.

Lemma Contains_head (c : ascii) (t : string) : Contains (String c t) c = true.
Proof. cbn [Contains]. now rewrite Ascii.eqb_refl. Qed.

(** X2. csvEscape keeps distinct values distinct: two values with the same
    cell are the same value. A value without comma and quote is its own
    cell; any other value is put between quotes with its quotes doubled. *)
Theorem csvEscape_injective :
  (forall s t, csvEscape s = csvEscape t -> s = t)
  /\ (forall s, Contains s comma = false -> Contains s quote = false -> csvEscape s = s)
  /\ (forall s, Contains s comma = true \/ Contains s quote = true ->
                csvEscape s
                = String quote (ReplaceAll_quote s ++ String quote EmptyString)).
Proof.
  split; [|split].
  - intros s t. unfold csvEscape.
    destruct (Contains s comma || Contains s quote) eqn:Es,
             (Contains t comma || Contains t quote) eqn:Et; intro H.
    + injection H as H. apply append_char_inj in H. now apply ReplaceAll_quote_inj.
    + subst t. rewrite Contains_head, orb_true_r in Et. discriminate.
    + subst s. rewrite Contains_head, orb_true_r in Es. discriminate.
    + assumption.
  - intros s H1 H2. unfold csvEscape. now rewrite H1, H2.
  - intros s H. unfold csvEscape.
    destruct H as [-> | ->]; now rewrite ?orb_true_r.
Qed.

Lemma csvEscape_injective_witness :
  csvEscape "Dubai, UAE"
  = String quote ("Dubai, UAE" ++ String quote EmptyString).
Proof.
  apply (proj2 (proj2 csvEscape_injective) "Dubai, UAE"). left. reflexivity.
Defined.

Lemma str_length_app (a b : string) :
  String.length (a ++ b) = (String.length a + String.length b)%nat.
Proof. induction a as [|x a IH]; cbn; [reflexivity | now rewrite IH]. Qed.

Lemma str_app_assoc (a b c : string) : ((a ++ b) ++ c = a ++ (b ++ c))%string.
Proof. induction a as [|x a IH]; cbn; [reflexivity | now rewrite IH]. Qed.

Lemma substring_prefix (sub s : string) :
  substring 0 (String.length sub) s = sub -> exists b, s = (sub ++ b)%string.
Proof.
  revert s. induction sub as [|c sub IH]; intros s H.
  - exists s. reflexivity.
  - destruct s as [|x s]; cbn in H; [discriminate H|].
    injection H as -> H. destruct (IH s H) as [b ->]. now exists b.
Qed.

Lemma substring_found (i : nat) (sub s : string) :
  substring i (String.length sub) s = sub ->
  exists a b, s = (a ++ sub ++ b)%string.
Proof.
  revert s. induction i as [|i IH]; intros s H.
  - apply substring_prefix in H. destruct H as [b ->]. now exists EmptyString, b.
  - destruct s as [|x s].
    + cbn in H. subst sub. now exists EmptyString, EmptyString.
    + cbn [substring] in H. destruct (IH s H) as [a [b ->]].
      now exists (String x a), b.
Qed.

Lemma substring_at (a sub b : string) :
  substring (String.length a) (String.length sub) (a ++ sub ++ b) = sub.
Proof.
  induction a as [|x a IH]; cbn [String.length append].
  - induction sub as [|c sub IHs]; cbn.
    + destruct b; reflexivity.
    + now rewrite IHs.
  - cbn [substring]. exact IH.
Qed.

Lemma searchString_loop_true (s sub : string) (i n : nat) :
  searchString_loop s sub i n = true ->
  exists j, substring j (String.length sub) s = sub.
Proof.
  revert i. induction n as [|n IH]; intros i; cbn [searchString_loop]; [discriminate|].
  destruct (String.eqb_spec (substring i (String.length sub) s) sub) as [E|_].
  - intros _. now exists i.
  - apply IH.
Qed.

Lemma searchString_loop_reaches (s sub : string) (n i j : nat) :
  (i <= j < i + n)%nat ->
  substring j (String.length sub) s = sub ->
  searchString_loop s sub i n = true.
Proof.
  revert i. induction n as [|n IH]; intros i Hj Hs; [lia|].
  cbn [searchString_loop].
  destruct (String.eqb_spec (substring i (String.length sub) s) sub) as [_|N];
    [reflexivity|].
  apply IH; [|assumption].
  assert (i <> j) by (intros ->; contradiction). lia.
Qed.

(** X3. contains(s, substr) is true exactly when [substr] occurs in [s], at
    any place: [s] is some text, then [substr], then some text. So the
    empty text occurs in every text, and a text longer than [s] is never
    found. *)
Theorem contains_iff_occurs (s substr : string) :
  contains s substr = true <-> exists a b, s = (a ++ substr ++ b)%string.
Proof.
  unfold contains, searchString. rewrite andb_true_iff, Nat.leb_le. split.
  - intros [_ H]. apply searchString_loop_true in H. destruct H as [j H].
    now apply substring_found in H.
  - intros [a [b ->]]. rewrite !str_length_app. split; [lia|].
    apply (searchString_loop_reaches _ _ _ 0%nat (String.length a)).
    + lia.
    + apply substring_at.
Qed.

Lemma contains_iff_occurs_witness :
  contains "ERROR: duplicate key value (SQLSTATE 23505)" "duplicate key" = true.
Proof.
  apply (proj2 (contains_iff_occurs _ _)).
  exists "ERROR: ", " value (SQLSTATE 23505)". reflexivity.
Defined.

End TextProperties.

(** ** Query parameters of the employee list *)

Module QueryProperties.
Import EmployeeQuery.

Lemma wrap_small (z : Z) : MinInt64 <= z <= MaxInt64 -> wrap z = z.
Proof.
  unfold wrap, MinInt64, MaxInt64. intro H.
  rewrite Z.mod_small; lia.
Qed.

(** X4. Whatever the query parameters are, the employee list runs with a
    limit between 1 and 100 and a page of at least 1, orders by one of the
    four whitelisted columns, ascending or descending, and so formats no
    text of the request into its ORDER BY clause. For pages up to
    92233720368547759 the offset is (page - 1) * limit and is not negative;
    beyond that the 64-bit product wraps around, and the page
    9223372036854775807 with the limit 100 gives the offset -200. *)
Theorem list_parameters_normalised (page limit : Z) (sortBy sortOrder : string) :
  1 <= limit_of limit <= 100
  /\ (1 <= limit <= 100 -> limit_of limit = limit)
  /\ 1 <= page_of page
  /\ (1 <= page -> page_of page = page)
  /\ (page <= 92233720368547759 ->
      offset_of page limit = (page_of page - 1) * limit_of limit
      /\ 0 <= offset_of page limit)
  /\ offset_of MaxInt64 100 = -200
  /\ In (sortCol sortBy) ["e.name"; "e.joining_date"; "e.created_at"; "e.salary"]
  /\ In (sortOrder_of sortOrder) ["asc"; "desc"]
  /\ In (order_clause sortBy sortOrder)
        (flat_map (fun c => ["ORDER BY " ++ c ++ " asc"; "ORDER BY " ++ c ++ " desc"])
                  ["e.name"; "e.joining_date"; "e.created_at"; "e.salary"])%string.
Proof.
  assert (1 <= limit_of limit <= 100) as Hl.
  { unfold limit_of. destruct (limit <? 1) eqn:A, (100 <? limit) eqn:B; cbn [orb];
      rewrite ?Z.ltb_lt, ?Z.ltb_ge in *; lia. }
  assert (1 <= page_of page) as Hp.
  { unfold page_of. destruct (page <? 1) eqn:A; rewrite ?Z.ltb_ge in *; lia. }
  assert (In (sortCol sortBy) ["e.name"; "e.joining_date"; "e.created_at"; "e.salary"])
    as Hc.
  { unfold sortCol, allowedSorts.
    destruct (String.eqb sortBy "name"); [cbn; tauto|].
    destruct (String.eqb sortBy "joining_date"); [cbn; tauto|].
    destruct (String.eqb sortBy "created_at"); [cbn; tauto|].
    destruct (String.eqb sortBy "salary"); cbn; tauto. }
  assert (In (sortOrder_of sortOrder) ["asc"; "desc"]) as Ho.
  { unfold sortOrder_of. destruct (String.eqb sortOrder "desc"); cbn; tauto. }
  repeat split; try assumption; try lia.
  - intro H. unfold limit_of.
    assert ((limit <? 1) = false) as -> by (apply Z.ltb_ge; lia).
    assert ((100 <? limit) = false) as -> by (apply Z.ltb_ge; lia). reflexivity.
  - intro H. unfold page_of.
    assert ((page <? 1) = false) as -> by (apply Z.ltb_ge; lia). reflexivity.
  - unfold offset_of. rewrite (wrap_small (page_of page - 1)).
    + apply wrap_small. unfold MinInt64, MaxInt64.
      assert (page_of page <= 92233720368547759)
        by (unfold page_of; destruct (page <? 1); lia).
      nia.
    + unfold MinInt64, MaxInt64.
      assert (page_of page <= 92233720368547759)
        by (unfold page_of; destruct (page <? 1); lia).
      lia.
  - unfold offset_of. rewrite (wrap_small (page_of page - 1)).
    + rewrite wrap_small; [nia|]. unfold MinInt64, MaxInt64.
      assert (page_of page <= 92233720368547759)
        by (unfold page_of; destruct (page <? 1); lia).
      nia.
    + unfold MinInt64, MaxInt64.
      assert (page_of page <= 92233720368547759)
        by (unfold page_of; destruct (page <? 1); lia).
      lia.
  - unfold order_clause.
    cbn [In] in Hc, Ho.
    destruct Hc as [<-|[<-|[<-|[<-|[]]]]]; destruct Ho as [<-|[<-|[]]]; cbn; tauto.
Qed.

Lemma list_parameters_normalised_witness :
  offset_of 3 50 = (page_of 3 - 1) * limit_of 50 /\ 0 <= offset_of 3 50.
Proof.
  apply (list_parameters_normalised 3 50 "name" "desc"). lia.
Defined.

End QueryProperties.

(** ** Days until expiry in the browser *)

Module UtilsProperties.
Import Utils.

Lemma msPerDay_pos : 0 < Dates.msPerDay.
Proof. reflexivity. Qed.

(** X5. At the instant [r] milliseconds into the UTC day [D], getDaysUntil
    of the date [E] is E - D for a date that is not after [D], and for a
    later date E - D at midnight and E - D - 1 at any other instant of the
    day. So getExpiryStatus is 'expired' exactly for the dates before [D],
    as in the status of the employee list, and a date 31 days ahead is a
    'warning' at every instant but midnight. *)
Theorem getDaysUntil_by_day (D r E : Z) :
  0 <= r < Dates.msPerDay ->
  let now := D * Dates.msPerDay + r in
  getDaysUntil now E = (if (E <=? D) || (r =? 0) then E - D else E - D - 1)
  /\ (getExpiryStatus now E = expired <-> E < D)
  /\ (getExpiryStatus now E = expired
      <-> EmployeeHandler.doc_status D (Some (Dates.day E)) = EmployeeHandler.expired)
  /\ (0 < r -> E = D + 31 -> getExpiryStatus now E = warning).
Proof.
  intros Hr now.
  assert (getDaysUntil now E = (if (E <=? D) || (r =? 0) then E - D else E - D - 1)) as Hd.
  { unfold getDaysUntil, differenceInDays, new_Date, now.
    pose proof msPerDay_pos as Hm.
    destruct (E <=? D) eqn:A; cbn [orb].
    - apply Z.leb_le in A.
      replace (E * Dates.msPerDay - (D * Dates.msPerDay + r))
        with (- ((D - E) * Dates.msPerDay + r)) by ring.
      rewrite Z.quot_opp_l by lia.
      rewrite Z.quot_div_nonneg by nia.
      rewrite Z.div_add_l by lia. rewrite Z.div_small by lia. lia.
    - apply Z.leb_gt in A. destruct (r =? 0) eqn:B.
      + apply Z.eqb_eq in B. subst r.
        replace (E * Dates.msPerDay - (D * Dates.msPerDay + 0))
          with ((E - D) * Dates.msPerDay) by ring.
        rewrite Z.quot_div_nonneg by nia. now rewrite Z.div_mul by lia.
      + apply Z.eqb_neq in B.
        replace (E * Dates.msPerDay - (D * Dates.msPerDay + r))
          with ((E - D - 1) * Dates.msPerDay + (Dates.msPerDay - r)) by ring.
        rewrite Z.quot_div_nonneg by nia.
        rewrite Z.div_add_l by lia. rewrite Z.div_small by lia. lia. }
  assert (getExpiryStatus now E = expired <-> E < D) as He.
  { unfold getExpiryStatus. fold now. rewrite Hd.
    destruct (E <=? D) eqn:A; cbn [orb].
    - apply Z.leb_le in A. destruct (E - D <? 0) eqn:C.
      + apply Z.ltb_lt in C. split; [lia | reflexivity].
      + apply Z.ltb_ge in C. split; [|lia].
        destruct (E - D <=? 7); [discriminate|].
        destruct (E - D <=? 30); discriminate.
    - apply Z.leb_gt in A. split; [|lia].
      destruct (r =? 0).
      + assert ((E - D <? 0) = false) as -> by (apply Z.ltb_ge; lia).
        destruct (E - D <=? 7); [discriminate|].
        destruct (E - D <=? 30); discriminate.
      + assert ((E - D - 1 <? 0) = false) as -> by (apply Z.ltb_ge; lia).
        destruct (E - D - 1 <=? 7); [discriminate|].
        destruct (E - D - 1 <=? 30); discriminate. }
  split; [exact Hd|]. split; [exact He|]. split.
  - rewrite He. unfold EmployeeHandler.doc_status.
    rewrite DateFacts.ltb_day, DateFacts.leb_day.
    destruct (E <? D) eqn:A.
    + apply Z.ltb_lt in A. split; auto.
    + apply Z.ltb_ge in A. split; [lia|].
      destruct (E <=? D + 30); discriminate.
  - intros Hpos ->. unfold getExpiryStatus. fold now. rewrite Hd.
    assert ((D + 31 <=? D) = false) as -> by (apply Z.leb_gt; lia).
    assert ((r =? 0) = false) as -> by (apply Z.eqb_neq; lia).
    cbn [orb]. replace (D + 31 - D - 1) with 30 by ring. reflexivity.
Qed.

Lemma getDaysUntil_by_day_witness :
  getDaysUntil (Sample.today * Dates.msPerDay + 3600000) (Sample.today + 12) = 11.
Proof.
  refine (proj1 (getDaysUntil_by_day Sample.today 3600000 (Sample.today + 12) _)).
  unfold Dates.msPerDay. lia.
Defined.

End UtilsProperties.

(** ** What the document handlers do to the stored documents *)

Module HandlerProperties.
Import Schema DocumentHandler DocumentProperties HandlerRuns Counting.

Lemma db_eta (db : DB) : mkDB (employees db) (documents db) = db.
Proof. destruct db; reflexivity. Qed.

Lemma filter_none_matches {A : Type} (w : A -> bool) (l : list A) :
  existsb w l = false -> filter (fun d => negb (w d)) l = l.
Proof.
  induction l as [|a t IH]; cbn [existsb filter]; [reflexivity|].
  rewrite orb_false_iff. intros [-> Ht]. cbn [negb]. now rewrite IH.
Qed.

Lemma filter_filter_incl {A : Type} (p q : A -> bool) (l : list A) :
  incl (filter q (filter p l)) (filter q l).
Proof.
  intros x Hx. apply filter_In in Hx. destruct Hx as [Hx Hq].
  apply filter_In in Hx. destruct Hx as [Hx _]. now apply filter_In.
Qed.

Lemma NoDup_map_filter2 {A B : Type} (f : A -> B) (p q : A -> bool) (l : list A) :
  NoDup (map f (filter q l)) -> NoDup (map f (filter q (filter p l))).
Proof.
  induction l as [|a t IH]; cbn [filter]; [trivial|].
  destruct (p a); cbn [filter]; destruct (q a); cbn [map]; intro H;
    try (inversion H as [|? ? Hn Hd]; subst); auto.
  constructor; [|now apply IH].
  intro Hin. apply Hn. apply in_map_iff in Hin. destruct Hin as [x [Hx Hin]].
  apply in_map_iff. exists x. split; [assumption|].
  now apply (filter_filter_incl p q).
Qed.

Lemma filter_all {A : Type} (l : list A) : filter (fun _ => true) l = l.
Proof. induction l as [|a t IH]; cbn; [reflexivity | now rewrite IH]. Qed.

(** Deleting rows leaves the ids of the remaining documents distinct. *)
Lemma documents_pkey_filter (keep : Document -> bool) (docs : list Document) :
  NoDup (map ID docs) -> NoDup (map ID (filter keep docs)).
Proof.
  intro H. rewrite <- (filter_all (filter keep docs)).
  apply NoDup_map_filter2. now rewrite filter_all.
Qed.

Lemma forallb_filter {A : Type} (q p : A -> bool) (l : list A) :
  forallb q l = true -> forallb q (filter p l) = true.
Proof.
  rewrite !forallb_forall. intros H x Hx. apply filter_In in Hx. now apply H.
Qed.

(** Deleting documents breaks no constraint. *)
Lemma delete_ok (db : DB) (p : Document -> bool) :
  constraints_ok db = true ->
  constraints_ok (mkDB (employees db) (filter p (documents db))) = true.
Proof.
  unfold constraints_ok, documents_pkey, idx_documents_primary_per_employee,
    documents_employee_id_fkey.
  cbn [employees documents]. rewrite !andb_true_iff, !ListFacts.uniqueb_NoDup.
  intros [[[He Hp] Hf] Hi]. repeat split.
  - assumption.
  - now apply documents_pkey_filter.
  - now apply forallb_filter.
  - now apply NoDup_map_filter2.
Qed.

Lemma find_document_none (id : string) (docs : list Document) :
  find_document id (filter (fun d => negb (String.eqb (ID d) id)) docs) = None.
Proof.
  unfold find_document. induction docs as [|x t IH]; cbn [filter find]; [reflexivity|].
  destruct (String.eqb (ID x) id) eqn:E; cbn [negb find]; [assumption|].
  now rewrite E.
Qed.

Lemma In_employees (emps : list string) (e : string) :
  existsb (String.eqb e) emps = true <-> In e emps.
Proof.
  rewrite existsb_exists. split.
  - intros [x [Hx E]]. apply String.eqb_eq in E. now subst x.
  - intro H. exists e. split; [assumption | apply String.eqb_refl].
Qed.

(** The constraints accept a row that is not primary, has an id no stored
    document has, and belongs to a known employee. *)
Lemma exec_insert_created (db : DB) (doc : Document) :
  constraints_ok db = true ->
  In (EmployeeID doc) (employees db) ->
  IsPrimary doc = false ->
  ~ In (ID doc) (map ID (documents db)) ->
  exec db (InsertDocument doc) = Some (mkDB (employees db) (documents db ++ [doc])).
Proof.
  intros Hok He Hp Hfresh. unfold exec. cbn [apply_stmt].
  assert (constraints_ok (mkDB (employees db) (documents db ++ [doc])) = true) as ->;
    [|reflexivity].
  pose proof (constraints_pkey _ Hok) as Hpk. pose proof (constraints_keys _ Hok) as Hk.
  unfold constraints_ok in *. cbn [employees documents].
  rewrite !andb_true_iff in *. destruct Hok as [[[Hemp _] Hfk] _]. repeat split.
  - assumption.
  - apply ListFacts.uniqueb_NoDup. rewrite map_app. cbn [map].
    apply NoDup_app; [assumption | repeat constructor; intros [] |].
    intros k Hin [<-|[]]. contradiction.
  - unfold documents_employee_id_fkey in *. rewrite forallb_app, Hfk. cbn [forallb].
    rewrite andb_true_r. now apply In_employees.
  - apply ListFacts.uniqueb_NoDup. unfold idx_documents_primary_per_employee, keys in *.
    rewrite filter_app. cbn [filter]. rewrite Hp, app_nil_r. exact Hk.
Qed.

Section WithDateInput.
Variable date_in : string -> option Dates.date.
Variable uuid_in : string -> option string.

Lemma Update_result db id req now resp db' :
  Update date_in db id req now = (resp, db') ->
  status resp = 200 ->
  exists expiry doc,
    bind_date date_in (UpdateDocumentRequest.ExpiryDate req) = Some expiry
    /\ resp = JSON 200 "Document updated successfully" (Some doc)
    /\ db' = mkDB (employees db)
                  (map (fun d => if String.eqb (ID d) id
                                 then update_set req expiry now d else d)
                       (documents db))
    /\ find_document id (documents db') = Some doc
    /\ constraints_ok db' = true.
Proof.
  unfold Update. returning_clause. intros H Hst.
  destruct (String.eqb id ""); [injection H as <- <-; discriminate Hst|].
  destruct (no_set_clauses req); [injection H as <- <-; discriminate Hst|].
  destruct (bind_date date_in _) as [expiry|] eqn:Hb;
    [|injection H as <- <-; discriminate Hst].
  destruct (exec db _) as [db1|] eqn:E; [|injection H as <- <-; discriminate Hst].
  destruct (find_document id (documents db1)) as [doc|] eqn:Hf;
    [|injection H as <- <-; discriminate Hst].
  injection H as <- <-. apply exec_Some in E. destruct E as [-> Hok].
  exists expiry, doc. cbn [apply_stmt] in *. auto.
Qed.

Lemma Delete_result db id :
  snd (Delete uuid_in db id) = db
  \/ exists u,
       uuid_in id = Some u
       /\ snd (Delete uuid_in db id)
          = mkDB (employees db)
                 (filter (fun d => negb (String.eqb (ID d) u)) (documents db)).
Proof.
  unfold Delete. destruct (String.eqb id ""); [now left|].
  destruct (uuid_in id) as [u|]; [|now left].
  destruct (exec db _) as [db'|] eqn:E; [|now left].
  apply exec_Some in E. destruct E as [-> _].
  right. exists u. split; [reflexivity|].
  destruct (existsb _ (documents db)); reflexivity.
Qed.

Lemma TogglePrimary_result db id :
  constraints_ok db = true ->
  snd (TogglePrimary db id) = db
  \/ exists d,
       id <> "" /\ find_document id (documents db) = Some d /\ ExpiryDate d <> None
       /\ snd (TogglePrimary db id)
          = mkDB (employees db)
                 (if IsPrimary d then map (unset_id id) (documents db)
                  else map (set_id id)
                           (map (unset_employee (EmployeeID d)) (documents db))).
Proof.
  intro Hok.
  destruct (String.eqb id "") eqn:Hid;
    [left; unfold TogglePrimary; now rewrite Hid|].
  destruct (find_document id (documents db)) as [d|] eqn:Hfind;
    [|left; unfold TogglePrimary; now rewrite Hid, Hfind].
  destruct (ExpiryDate d) as [x|] eqn:Hexp;
    [|left; unfold TogglePrimary; now rewrite Hid, Hfind, Hexp].
  right. exists d. apply String.eqb_neq in Hid.
  assert (ExpiryDate d <> None) as Hne by congruence.
  rewrite (TogglePrimary_commits db id d Hok Hid Hfind Hne).
  rewrite Hexp. repeat split; auto. discriminate.
Qed.

(** Where every primary document has an expiry date, the documents a
    toggle of a dated document leaves are so too. *)
Lemma toggle_keeps_dated (docs : list Document) (id : string) (d : Document) :
  NoDup (map ID docs) ->
  find_document id docs = Some d ->
  ExpiryDate d <> None ->
  (forall x, In x docs -> IsPrimary x = true -> ExpiryDate x <> None) ->
  forall x,
    In x (if IsPrimary d then map (unset_id id) docs
          else map (set_id id) (map (unset_employee (EmployeeID d)) docs)) ->
    IsPrimary x = true -> ExpiryDate x <> None.
Proof.
  intros Hpk Hfind Hexp Hinv x Hin Hp.
  apply find_document_Some in Hfind. destruct Hfind as [Hd Ed].
  destruct (IsPrimary d).
  - apply in_map_iff in Hin. destruct Hin as [y [<- Hy]].
    destruct (unset_id_clears id y) as [E|E]; rewrite E in *; [now apply Hinv|].
    discriminate Hp.
  - apply in_map_iff in Hin. destruct Hin as [y [<- Hy]].
    apply in_map_iff in Hy. destruct Hy as [z [<- Hz]].
    destruct (set_id_cases id (unset_employee (EmployeeID d) z)) as [[E1 E2]|[E1 E2]];
      rewrite E2 in *.
    + destruct (flag_only_unset_employee (EmployeeID d) z) as [b Eb].
      rewrite Eb in *. cbn [set_is_primary ID ExpiryDate] in *.
      assert (z = d) as -> by (apply (pkey_same_row docs); auto; congruence).
      assumption.
    + destruct (unset_employee_clears (EmployeeID d) z) as [E|E]; rewrite E in *;
        [now apply Hinv | discriminate Hp].
Qed.

Lemma failed_changes (db : DB) :
  (forall employeeID req new_id now,
     status (fst (Create date_in db employeeID req new_id now)) <> 201 ->
     snd (Create date_in db employeeID req new_id now) = db)
  /\ (forall id req now,
        status (fst (Update date_in db id req now)) <> 200 ->
        snd (Update date_in db id req now) = db)
  /\ (forall id,
        status (fst (TogglePrimary db id)) <> 200 -> snd (TogglePrimary db id) = db)
  /\ (forall id,
        status (fst (Delete uuid_in db id)) <> 200 -> snd (Delete uuid_in db id) = db)
  /\ (forall oldID req new_id now,
        status (fst (Renew date_in db oldID req new_id now)) <> 201 ->
        snd (Renew date_in db oldID req new_id now) = db).
Proof.
  repeat split.
  - intros employeeID req new_id now _. apply Create_unchanged.
  - intros id req now. unfold Update. returning_clause.
    handler_cases; cbn [fst snd status JSON JSONError]; congruence.
  - intros id. unfold TogglePrimary.
    handler_cases; cbn [fst snd status JSON JSONError]; congruence.
  - intros id. unfold Delete.
    destruct (String.eqb id ""); [reflexivity|].
    destruct (uuid_in id) as [u|]; [|reflexivity].
    destruct (exec db _) as [db'|] eqn:E; [|reflexivity].
    destruct (existsb _ (documents db)) eqn:Ex; cbn [fst snd status JSON JSONError];
      [congruence|].
    intros _. apply exec_Some in E. destruct E as [-> _]. cbn [apply_stmt].
    rewrite filter_none_matches by assumption. apply db_eta.
  - intros oldID req new_id now _. apply Renew_unchanged.
Qed.

(** X6. A request that is not answered with success changes nothing: Create
    and Renew leave the database as it was unless they answer 201, Update,
    TogglePrimary and Delete unless they answer 200. In particular a
    renewal whose INSERT fails does not keep the cleared primary flag. *)
Theorem failed_request_changes_nothing (db : DB) :
  (forall employeeID req new_id now,
     status (fst (Create date_in db employeeID req new_id now)) <> 201 ->
     snd (Create date_in db employeeID req new_id now) = db)
  /\ (forall id req now,
        status (fst (Update date_in db id req now)) <> 200 ->
        snd (Update date_in db id req now) = db)
  /\ (forall id,
        status (fst (TogglePrimary db id)) <> 200 -> snd (TogglePrimary db id) = db)
  /\ (forall id,
        status (fst (Delete uuid_in db id)) <> 200 -> snd (Delete uuid_in db id) = db)
  /\ (forall oldID req new_id now,
        status (fst (Renew date_in db oldID req new_id now)) <> 201 ->
        snd (Renew date_in db oldID req new_id now) = db).
Proof. exact (failed_changes db). Qed.

(** X7. Create stores nothing. Whatever the request, it answers 201 to none
    and leaves the database as it was; a request that passes the
    validation for an employee that is known is answered 500 'Failed to
    create document', and the id drawn for the document is afterwards
    found as little as before. The INSERT ends with RETURNING docCols,
    whose columns are qualified by [d], and gives the table no alias; where
    the constraints hold, the same INSERT under the alias is accepted for
    an id no stored document has, and stores the document, not primary,
    after the documents stored before. *)
Theorem Create_stores_nothing (db : DB) (employeeID : string)
        (req : CreateDocumentRequest.t) (new_id : string) (now : Z) :
  snd (Create date_in db employeeID req new_id now) = db
  /\ status (fst (Create date_in db employeeID req new_id now)) <> 201
  /\ (employeeID <> "" -> CreateDocumentRequest.Validate req = true ->
      In employeeID (employees db) ->
      Create date_in db employeeID req new_id now
      = (JSONError 500 "Failed to create document", db))
  /\ (forall id,
        DocumentQueries.GetByID (snd (Create date_in db employeeID req new_id now)) id
        = DocumentQueries.GetByID db id)
  /\ (forall expiry,
        constraints_ok db = true ->
        In employeeID (employees db) ->
        ~ In new_id (map ID (documents db)) ->
        let doc := mkDocument new_id employeeID
                     (CreateDocumentRequest.DocumentType req) expiry false
                     (CreateDocumentRequest.FileURL req)
                     (CreateDocumentRequest.FileName req)
                     (CreateDocumentRequest.FileSize req)
                     (CreateDocumentRequest.FileType req) now now in
        exec_returning_docCols (Some docCols_qualifier) db (InsertDocument doc)
        = Some (mkDB (employees db) (documents db ++ [doc]))).
Proof.
  split; [apply Create_unchanged|]. split; [|split; [|split]].
  - unfold Create. returning_clause.
    handler_cases; cbn [fst status JSON JSONError]; discriminate.
  - intros Hid Hv He. unfold Create. returning_clause.
    apply String.eqb_neq in Hid. apply In_employees in He.
    rewrite Hid, Hv, He. cbn [negb].
    now destruct (bind_date date_in (CreateDocumentRequest.ExpiryDate req)).
  - intro id. now rewrite Create_unchanged.
  - intros expiry Hok He Hfresh doc. rewrite exec_returning_alias_d.
    now apply exec_insert_created.
Qed.

(** X8. An Update that answers 200 rewrites the documents with the given id
    and no other: every stored document keeps its id, its employee, its
    primary flag and its creation time, a document with another id is kept
    as it is, and no expiry date is ever cleared. The primary flag of the
    request is never applied. *)
Theorem Update_frame (db : DB) (id : string) (req : UpdateDocumentRequest.t) (now : Z)
        (resp : Response) (db' : DB) :
  Update date_in db id req now = (resp, db') ->
  status resp = 200 ->
  employees db' = employees db
  /\ List.length (documents db') = List.length (documents db)
  /\ (exists doc, data resp = Some doc /\ In doc (documents db') /\ ID doc = id
                  /\ LastUpdated doc = now)
  /\ (forall d, In d (documents db) ->
        exists d', In d' (documents db')
                   /\ ID d' = ID d /\ EmployeeID d' = EmployeeID d
                   /\ IsPrimary d' = IsPrimary d /\ CreatedAt d' = CreatedAt d
                   /\ (ExpiryDate d <> None -> ExpiryDate d' <> None)
                   /\ (ID d <> id -> d' = d)).
Proof.
  intros H Hst. destruct (Update_result _ _ _ _ _ _ H Hst)
    as (expiry & doc & Hb & -> & -> & Hf & Hok).
  cbn [employees documents data JSON] in *. split; [reflexivity|].
  split; [apply length_map|]. split.
  - exists doc. split; [reflexivity|].
    pose proof (find_document_Some _ _ _ Hf) as [Hin Hid]. repeat split; auto.
    apply in_map_iff in Hin. destruct Hin as [x [Hx _]].
    destruct (String.eqb (ID x) id) eqn:E.
    + now rewrite <- Hx.
    + subst doc. apply String.eqb_neq in E. contradiction.
  - intros d Hd.
    exists (if String.eqb (ID d) id then update_set req expiry now d else d).
    split; [apply in_map_iff; now exists d|].
    destruct (String.eqb_spec (ID d) id) as [E|N].
    + cbn [update_set ID EmployeeID IsPrimary CreatedAt ExpiryDate].
      repeat split; try contradiction.
      intro Hne. unfold bind_date in Hb.
      destruct (UpdateDocumentRequest.ExpiryDate req) as [s|]; [|assumption].
      destruct (date_in s); [|discriminate Hb]. injection Hb as <-. discriminate.
    + repeat split; auto.
Qed.

(** X9. For a text that is no UUID Delete answers 500 and changes nothing.
    For a text that is a UUID, where the constraints hold: when a document
    has that id, Delete answers 200 and removes the documents with that id
    and no other; when none has, it answers 404 and changes nothing. After
    either the id is found neither directly nor through
    GET /api/documents/{id}, and a second Delete answers 404. *)
Theorem Delete_then_lookup (db : DB) (id : string) :
  constraints_ok db = true ->
  id <> "" ->
  (uuid_in id = None ->
   Delete uuid_in db id = (JSONError 500 "Failed to delete document", db))
  /\ (forall u, uuid_in id = Some u ->
        (existsb (fun d => String.eqb (ID d) u) (documents db) = true ->
         Delete uuid_in db id
         = (JSON 200 "Document deleted successfully" None,
            mkDB (employees db)
                 (filter (fun d => negb (String.eqb (ID d) u)) (documents db))))
        /\ (existsb (fun d => String.eqb (ID d) u) (documents db) = false ->
            Delete uuid_in db id = (JSONError 404 "Document not found", db))
        /\ find_document u (documents (snd (Delete uuid_in db id))) = None
        /\ (u <> "" ->
            DocumentQueries.GetByID (snd (Delete uuid_in db id)) u
            = JSONError 404 "Document not found")
        /\ (forall d, In d (documents db) -> ID d <> u ->
                      In d (documents (snd (Delete uuid_in db id))))
        /\ Delete uuid_in (snd (Delete uuid_in db id)) id
           = (JSONError 404 "Document not found", snd (Delete uuid_in db id))).
Proof.
  intros Hok Hid. pose proof Hid as Hid'. apply String.eqb_neq in Hid'.
  split; [intro Hu; unfold Delete; now rewrite Hid', Hu|].
  intros u Hu.
  set (docs' := filter (fun d => negb (String.eqb (ID d) u)) (documents db)).
  assert (exec db (DeleteDocuments (fun d => String.eqb (ID d) u))
          = Some (mkDB (employees db) docs')) as Hexec.
  { unfold exec. cbn [apply_stmt]. fold docs'. unfold docs'.
    now rewrite (delete_ok db _ Hok). }
  assert (snd (Delete uuid_in db id) = mkDB (employees db) docs') as Hsnd.
  { unfold Delete. rewrite Hid', Hu, Hexec. now destruct (existsb _ (documents db)). }
  assert (existsb (fun d => String.eqb (ID d) u) docs' = false) as Hgone.
  { destruct (existsb _ docs') eqn:E; [|reflexivity].
    apply existsb_exists in E. destruct E as [x [Hx Ex]].
    apply filter_In in Hx. destruct Hx as [_ Hx]. now rewrite Ex in Hx. }
  split; [|split; [|split; [|split; [|split]]]].
  - intro Hex. unfold Delete. now rewrite Hid', Hu, Hexec, Hex.
  - intro Hex. unfold Delete. rewrite Hid', Hu, Hexec, Hex. f_equal.
    unfold docs'. rewrite filter_none_matches by assumption. apply db_eta.
  - rewrite Hsnd. apply find_document_none.
  - intro Hne. apply String.eqb_neq in Hne.
    rewrite Hsnd. unfold DocumentQueries.GetByID. rewrite Hne. cbn [documents employees].
    destruct (find _ docs') as [x|] eqn:E; [|reflexivity].
    apply find_some in E. destruct E as [Hx Ex]. apply andb_true_iff in Ex.
    destruct Ex as [Ex _].
    assert (existsb (fun d => String.eqb (ID d) u) docs' = true)
      by (apply existsb_exists; now exists x).
    congruence.
  - intros d Hd Hne. rewrite Hsnd. cbn [documents]. apply filter_In. split; [assumption|].
    apply String.eqb_neq in Hne. now rewrite Hne.
  - rewrite Hsnd. unfold Delete. rewrite Hid', Hu.
    assert (exec (mkDB (employees db) docs')
                 (DeleteDocuments (fun d => String.eqb (ID d) u))
            = Some (mkDB (employees db) docs')) as ->.
    { unfold exec. cbn [apply_stmt employees documents].
      rewrite (filter_none_matches _ docs' Hgone).
      unfold docs'. now rewrite (delete_ok db _ Hok). }
    cbn [documents]. now rewrite Hgone.
Qed.

Lemma count_partition3_in (p a b c : Document -> bool) (docs : list Document) :
  (forall d, In d docs -> Z.b2z (a d) + Z.b2z (b d) + Z.b2z (c d) = Z.b2z (p d)) ->
  count a docs + count b docs + count c docs = count p docs.
Proof.
  unfold count. induction docs as [|d t IH]; intro H; [reflexivity|].
  assert (forall x, In x t -> Z.b2z (a x) + Z.b2z (b x) + Z.b2z (c x) = Z.b2z (p x)) as Ht
      by (intros x Hx; apply H; now right).
  specialize (IH Ht). specialize (H d (or_introl eq_refl)). cbn [filter].
  destruct (a d), (b d), (c d), (p d); cbn [Z.b2z] in H; try lia;
    cbn [List.length]; rewrite ?Nat2Z.inj_succ; lia.
Qed.

Lemma handler_step_keeps_dated (db db' : DB) :
  handler_step date_in uuid_in db db' ->
  constraints_ok db = true -> primaries_dated db ->
  constraints_ok db' = true /\ primaries_dated db'.
Proof.
  intros Hstep Hok Hinv. split.
  - destruct Hstep;
      auto using Create_preserves, Update_preserves, TogglePrimary_preserves,
                 Delete_preserves, Renew_preserves.
  - destruct Hstep as [db employeeID req new_id now | db id req now | db id | db id
                       | db oldID req new_id now].
    + now rewrite Create_unchanged.
    + destruct (Update date_in db id req now) as [resp db'] eqn:E.
      cbn [snd]. destruct (Z.eq_dec (status resp) 200) as [Hst|Hst].
      * destruct (Update_result _ _ _ _ _ _ E Hst) as (expiry & doc & Hb & _ & -> & _ & _).
        intros d Hd Hp. cbn [documents] in Hd. apply in_map_iff in Hd.
        destruct Hd as [x [<- Hx]].
        destruct (String.eqb (ID x) id); [|now apply Hinv].
        cbn [update_set IsPrimary ExpiryDate] in *.
        unfold bind_date in Hb.
        destruct (UpdateDocumentRequest.ExpiryDate req) as [s|]; [|now apply Hinv].
        destruct (date_in s); [|discriminate Hb]. injection Hb as <-. discriminate.
      * pose proof (proj1 (proj2 (failed_changes db)) id req now) as Hf.
        rewrite E in Hf. cbn [fst snd] in Hf. now rewrite (Hf Hst).
    + destruct (TogglePrimary_result db id Hok) as [->|(d & Hid & Hfind & Hexp & ->)];
        [assumption|].
      intros x Hx Hp. cbn [documents] in Hx.
      apply (toggle_keeps_dated (documents db) id d); auto using constraints_pkey.
    + destruct (Delete_result db id) as [->|[u [_ ->]]]; [assumption|].
      intros x Hx Hp. cbn [documents] in Hx. apply filter_In in Hx.
      destruct Hx as [Hx _]. now apply Hinv.
    + now rewrite Renew_unchanged.
Qed.

Lemma handler_reachable_dated (db : DB) :
  handler_reachable date_in uuid_in db -> constraints_ok db = true /\ primaries_dated db.
Proof.
  induction 1 as [db [Hok Hnone]|db db' _ [Hok Hinv] Hstep].
  - split; [assumption|]. intros d Hd Hp.
    rewrite forallb_forall in Hnone. specialize (Hnone d Hd).
    rewrite Hp in Hnone. discriminate.
  - now apply (handler_step_keeps_dated db db').
Qed.

(** X10. In every state the five document handlers alone can reach from the
    one migration 004 leaves, every primary document has an expiry date:
    Create and Renew store nothing, Update clears no date, TogglePrimary
    sets the flag of dated documents only and Delete only removes. So each
    primary document falls in exactly one of the three counters of the
    dashboard, which add up to the number of primary documents. *)
Theorem primary_documents_are_dated (db : DB) :
  handler_reachable date_in uuid_in db ->
  (forall d, In d (documents db) -> IsPrimary d = true -> ExpiryDate d <> None)
  /\ (forall CURRENT_DATE,
        DashboardHandler.ActiveDocuments (DashboardHandler.GetMetrics CURRENT_DATE db)
        + DashboardHandler.ExpiringSoon (DashboardHandler.GetMetrics CURRENT_DATE db)
        + DashboardHandler.Expired (DashboardHandler.GetMetrics CURRENT_DATE db)
        = count IsPrimary (documents db)).
Proof.
  intro H. apply handler_reachable_dated in H. destruct H as [_ Hinv].
  split; [exact Hinv|].
  intro today. cbn [DashboardHandler.GetMetrics DashboardHandler.ActiveDocuments
                    DashboardHandler.ExpiringSoon DashboardHandler.Expired].
  apply count_partition3_in. intros d Hd. unfold DashboardHandler.tracked.
  destruct (IsPrimary d) eqn:P; cbn [andb]; [|reflexivity].
  destruct (ExpiryDate d) as [x|] eqn:Ex; [|exfalso; now apply (Hinv d Hd P)].
  apply DashboardProperties.buckets_exclusive.
Qed.

Lemma at_most_one_same {A : Type} (l : list A) (a b : A) :
  (List.length l <= 1)%nat -> In a l -> In b l -> a = b.
Proof.
  destruct l as [|x [|y t]]; cbn [List.length In]; intros Hl Ha Hb;
    [destruct Ha | destruct Ha as [Ha|[]], Hb as [Hb|[]]; congruence | lia].
Qed.

(** The status columns of a dated document. *)
Lemma status_columns_dated (CURRENT_DATE : Z) (d : Document) :
  (forall x, ExpiryDate d = Some (Dates.day x) ->
     EmployeeHandler.status_columns CURRENT_DATE (Some d)
     = Some (EmployeeHandler.mkStatusColumns
               (EmployeeHandler.doc_status CURRENT_DATE (ExpiryDate d))
               (Some (x - CURRENT_DATE)) (Some (DocumentType d))))
  /\ (ExpiryDate d = Some Dates.infinity \/ ExpiryDate d = Some Dates.neg_infinity ->
      EmployeeHandler.status_columns CURRENT_DATE (Some d) = None).
Proof.
  unfold EmployeeHandler.status_columns, EmployeeHandler.expiry_days_left.
  cbn [EmployeeHandler.pd_expiry_date option_map]. split.
  - intros x ->. reflexivity.
  - intros [-> | ->]; reflexivity.
Qed.

(** X11. Where the constraints hold, TogglePrimary on a dated document decides
    the status of its employee. After the flag is set, the employee's
    status, days left and document type are those of this document: for a
    date that is a day the days left are that day less the current one,
    and for the date 'infinity' or '-infinity' the query raises and the
    employee is answered 404. After the flag of the primary document is
    cleared, the employee's status is 'none', whatever documents the
    employee holds. *)
Theorem TogglePrimary_sets_employee_status (db : DB) (id : string) (d : Document)
        (CURRENT_DATE : Z) :
  constraints_ok db = true ->
  id <> "" ->
  find_document id (documents db) = Some d ->
  ExpiryDate d <> None ->
  (IsPrimary d = false ->
   EmployeeHandler.GetByID CURRENT_DATE (snd (TogglePrimary db id)) (EmployeeID d)
   = EmployeeHandler.status_columns CURRENT_DATE (Some d)
   /\ (forall x, ExpiryDate d = Some (Dates.day x) ->
         EmployeeHandler.GetByID CURRENT_DATE (snd (TogglePrimary db id)) (EmployeeID d)
         = Some (EmployeeHandler.mkStatusColumns
                   (EmployeeHandler.doc_status CURRENT_DATE (ExpiryDate d))
                   (Some (x - CURRENT_DATE)) (Some (DocumentType d))))
   /\ (ExpiryDate d = Some Dates.infinity \/ ExpiryDate d = Some Dates.neg_infinity ->
       EmployeeHandler.GetByID CURRENT_DATE (snd (TogglePrimary db id)) (EmployeeID d)
       = None))
  /\ (IsPrimary d = true ->
      EmployeeHandler.GetByID CURRENT_DATE (snd (TogglePrimary db id)) (EmployeeID d)
      = Some (EmployeeHandler.mkStatusColumns EmployeeHandler.none None None)).
Proof.
  intros Hok Hid Hfind Hexp.
  pose proof (TogglePrimary_preserves db id Hok) as Hok'.
  rewrite (TogglePrimary_commits db id d Hok Hid Hfind Hexp) in *. cbn [snd] in *.
  pose proof (find_document_Some _ _ _ Hfind) as [Hd Ed].
  assert (In (EmployeeID d) (employees db)) as Hemp.
  { apply In_employees. unfold constraints_ok in Hok. rewrite !andb_true_iff in Hok.
    destruct Hok as [[[_ _] Hfk] _]. exact (fkey_In _ _ _ Hfk Hd). }
  split; intro Hp; rewrite Hp in *.
  - assert (EmployeeHandler.GetByID CURRENT_DATE
              (mkDB (employees db)
                    (map (set_id id) (map (unset_employee (EmployeeID d)) (documents db))))
              (EmployeeID d)
            = EmployeeHandler.status_columns CURRENT_DATE (Some d)) as Hget.
    { rewrite (StatusProperties.GetByID_single _ _ _ (Some (set_is_primary true d)));
        [reflexivity | assumption |].
      apply StatusProperties.left_join_primary_one;
        [exact (constraints_idx _ Hok') | | reflexivity | reflexivity].
      cbn [documents]. apply in_map_iff. exists d. split.
      - unfold set_id. apply String.eqb_eq in Ed. now rewrite Ed.
      - apply in_map_iff. exists d. split; [|assumption].
        unfold unset_employee. now rewrite Hp, andb_false_r. }
    rewrite Hget. split; [reflexivity|]. apply status_columns_dated.
  - rewrite (StatusProperties.GetByID_single _ _ _ None); [reflexivity | assumption |].
    apply StatusProperties.left_join_primary_none. cbn [documents].
    intros x Hx Ex. apply in_map_iff in Hx. destruct Hx as [y [<- Hy]].
    unfold unset_id in *. destruct (String.eqb (ID y) id) eqn:Ey; [reflexivity|].
    destruct (IsPrimary y) eqn:Py; [|reflexivity]. exfalso.
    assert (y = d) as ->.
    { apply (at_most_one_same
               (filter (fun x => String.eqb (EmployeeID x) (EmployeeID d) && IsPrimary x)
                       (documents db))).
      - apply idx_at_most_one. now apply constraints_idx.
      - apply filter_In. split; [assumption|].
        rewrite Py, andb_true_r. now apply String.eqb_eq.
      - apply filter_In. split; [assumption|].
        now rewrite Hp, andb_true_r, String.eqb_refl. }
    apply String.eqb_neq in Ey. contradiction.
Qed.

(** X14. Where the constraints hold, an Update that succeeds with a new expiry
    date for the primary document of an employee moves the status of the
    employee to that date: for a date that is a day, the status at the
    current date and the days left are those of the new expiry date; for
    the text 'infinity' or '-infinity', which the database accepts as a
    date and the Update stores, the query of the employee raises from then
    on and the employee is answered 404. *)
Theorem Update_expiry_sets_status (db : DB) (id : string) (req : UpdateDocumentRequest.t)
        (now : Z) (resp : Response) (db' : DB) (d : Document) (s : string) :
  Update date_in db id req now = (resp, db') ->
  status resp = 200 ->
  constraints_ok db = true ->
  find_document id (documents db) = Some d ->
  IsPrimary d = true ->
  UpdateDocumentRequest.ExpiryDate req = Some s ->
  exists x,
    date_in s = Some x
    /\ (forall CURRENT_DATE n,
          x = Dates.day n ->
          EmployeeHandler.GetByID CURRENT_DATE db' (EmployeeID d)
          = Some (EmployeeHandler.mkStatusColumns
                    (EmployeeHandler.doc_status CURRENT_DATE (Some x))
                    (Some (n - CURRENT_DATE))
                    (Some (or_else (UpdateDocumentRequest.DocumentType req)
                                   (DocumentType d)))))
    /\ (x = Dates.infinity \/ x = Dates.neg_infinity ->
        forall CURRENT_DATE,
          EmployeeHandler.GetByID CURRENT_DATE db' (EmployeeID d) = None).
Proof.
  intros H Hst Hok Hfind Hp Hs. destruct (Update_result _ _ _ _ _ _ H Hst)
    as (expiry & doc & Hb & _ & -> & _ & Hok').
  unfold bind_date in Hb. rewrite Hs in Hb.
  destruct (date_in s) as [x|]; [|discriminate Hb]. injection Hb as <-.
  exists x. split; [reflexivity|].
  pose proof (find_document_Some _ _ _ Hfind) as [Hd Ed].
  assert (In (EmployeeID d) (employees db)) as Hemp.
  { apply In_employees. unfold constraints_ok in Hok. rewrite !andb_true_iff in Hok.
    destruct Hok as [[[_ _] Hfk] _]. exact (fkey_In _ _ _ Hfk Hd). }
  assert (forall today,
            EmployeeHandler.GetByID today
              (mkDB (employees db)
                    (map (fun d0 => if String.eqb (ID d0) id
                                    then update_set req (Some x) now d0 else d0)
                         (documents db)))
              (EmployeeID d)
            = EmployeeHandler.status_columns today (Some (update_set req (Some x) now d)))
    as Hget.
  { intro today. apply StatusProperties.GetByID_single; [assumption|].
    apply StatusProperties.left_join_primary_one;
      [exact (constraints_idx _ Hok') | | reflexivity | exact Hp].
    cbn [documents]. apply in_map_iff. exists d. split; [|assumption].
    apply String.eqb_eq in Ed. now rewrite Ed. }
  split.
  - intros today n ->. rewrite Hget.
    unfold EmployeeHandler.status_columns, EmployeeHandler.expiry_days_left.
    cbn [EmployeeHandler.pd_expiry_date update_set ExpiryDate option_map DocumentType].
    rewrite Hs. reflexivity.
  - intros Hx today. rewrite Hget.
    unfold EmployeeHandler.status_columns, EmployeeHandler.expiry_days_left.
    cbn [EmployeeHandler.pd_expiry_date update_set ExpiryDate option_map].
    rewrite Hs. destruct Hx as [-> | ->]; reflexivity.
Qed.

End WithDateInput.

Lemma failed_request_changes_nothing_witness :
  snd (Update Dates.iso_date_in Sample.db "d-missing" Requests.update_expiry 300)
  = Sample.db.
Proof.
  apply (proj1 (proj2 (failed_request_changes_nothing Dates.iso_date_in Uuid.uuid_in
                         Sample.db))).
  vm_compute. discriminate.
Defined.

Lemma Create_stores_nothing_witness :
  Create Dates.iso_date_in Sample.db "emp-1" Requests.create_insurance "d-health" 300
  = (JSONError 500 "Failed to create document", Sample.db).
Proof.
  apply (proj1 (proj2 (proj2 (Create_stores_nothing Dates.iso_date_in Sample.db "emp-1"
                                Requests.create_insurance "d-health" 300)))).
  - discriminate.
  - reflexivity.
  - left. reflexivity.
Defined.

Lemma Update_frame_witness :
  List.length (documents (snd (Update Dates.iso_date_in Sample.db "d-passport"
                                      Requests.update_expiry 300)))
  = List.length (documents Sample.db).
Proof.
  apply (Update_frame Dates.iso_date_in Sample.db "d-passport" Requests.update_expiry 300 _ _
                      (surjective_pairing _)).
  vm_compute. reflexivity.
Defined.

Lemma Delete_then_lookup_witness :
  Delete Uuid.uuid_in Uuid.db "0B6F3C1E-52A7-4D0E-9C11-7A1F5E2D9B02"
  = (JSON 200 "Document deleted successfully" None,
     mkDB [Uuid.john; Uuid.jane] [Uuid.john_passport; Uuid.jane_visa])
  /\ Delete Uuid.uuid_in Uuid.db "d-visa"
     = (JSONError 500 "Failed to delete document", Uuid.db).
Proof.
  split.
  - apply (proj1 (proj2 (Delete_then_lookup Uuid.uuid_in Uuid.db
                           "0B6F3C1E-52A7-4D0E-9C11-7A1F5E2D9B02"
                           eq_refl ltac:(discriminate))
                        "0b6f3c1e-52a7-4d0e-9c11-7a1f5e2d9b02" eq_refl)).
    reflexivity.
  - apply (proj1 (Delete_then_lookup Uuid.uuid_in Uuid.db "d-visa"
                    eq_refl ltac:(discriminate))).
    reflexivity.
Defined.

Lemma sample_handler_reachable :
  handler_reachable Dates.iso_date_in Uuid.uuid_in
                    (snd (TogglePrimary Sample.db0 "d-passport")).
Proof.
  apply handler_reachable_step with (db := Sample.db0).
  - apply handler_reachable_init. split; reflexivity.
  - apply handler_TogglePrimary.
Qed.

Lemma primary_documents_are_dated_witness :
  DashboardHandler.ActiveDocuments
    (DashboardHandler.GetMetrics Sample.today (snd (TogglePrimary Sample.db0 "d-passport")))
  + DashboardHandler.ExpiringSoon
      (DashboardHandler.GetMetrics Sample.today (snd (TogglePrimary Sample.db0 "d-passport")))
  + DashboardHandler.Expired
      (DashboardHandler.GetMetrics Sample.today (snd (TogglePrimary Sample.db0 "d-passport")))
  = count IsPrimary (documents (snd (TogglePrimary Sample.db0 "d-passport"))).
Proof.
  apply (proj2 (primary_documents_are_dated Dates.iso_date_in Uuid.uuid_in _
                  sample_handler_reachable)).
Defined.

Lemma TogglePrimary_sets_employee_status_witness :
  EmployeeHandler.GetByID Sample.today (snd (TogglePrimary Sample.db "d-passport")) "emp-1"
  = Some (EmployeeHandler.mkStatusColumns EmployeeHandler.none None None)
  /\ EmployeeHandler.GetByID Sample.today (snd (TogglePrimary Sample.db0 "d-permit")) "emp-2"
     = Some (EmployeeHandler.mkStatusColumns EmployeeHandler.expiring (Some 12)
                                             (Some "work_permit")).
Proof.
  split.
  - apply (proj2 (TogglePrimary_sets_employee_status Sample.db "d-passport" Sample.passport
                    Sample.today eq_refl ltac:(discriminate) eq_refl ltac:(discriminate))).
    reflexivity.
  - apply (proj1 (proj2 (proj1 (TogglePrimary_sets_employee_status Sample.db0 "d-permit"
                                  (set_is_primary false Sample.permit) Sample.today
                                  eq_refl ltac:(discriminate) eq_refl ltac:(discriminate))
                               eq_refl))
                 (Sample.today + 12)).
    reflexivity.
Defined.

Lemma Update_expiry_sets_status_witness :
  EmployeeHandler.GetByID Sample.today
    (snd (Update Dates.iso_date_in Sample.db "d-passport" Requests.update_expiry 300))
    "emp-1"
  = Some (EmployeeHandler.mkStatusColumns EmployeeHandler.valid (Some 486)
                                          (Some "passport"))
  /\ EmployeeHandler.GetByID Sample.today
       (snd (Update Dates.iso_date_in Sample.db "d-passport" Requests.update_infinity 300))
       "emp-1"
     = None.
Proof.
  split.
  - destruct (Update_expiry_sets_status Dates.iso_date_in Sample.db "d-passport"
                Requests.update_expiry 300 _ _ Sample.passport "2027-06-30"
                (surjective_pairing _))
      as (x & Hx & Hget & _);
      [vm_compute; reflexivity ..
      | vm_compute in Hx; injection Hx as <-; exact (Hget Sample.today _ eq_refl)].
  - destruct (Update_expiry_sets_status Dates.iso_date_in Sample.db "d-passport"
                Requests.update_infinity 300 _ _ Sample.passport "infinity"
                (surjective_pairing _))
      as (x & Hx & _ & Hget);
      [vm_compute; reflexivity ..
      | vm_compute in Hx; injection Hx as <-; apply Hget; now left].
Defined.

End HandlerProperties.

(** ** The employee list and the dashboard *)

Module ListProperties.
Import Schema EmployeeHandler Counting.

Lemma statusFilter_other (f : string) (today : Z) (pd : option Document) :
  f <> "expiring" -> f <> "expired" -> f <> "valid" -> f <> "active" ->
  statusFilter f today pd = true.
Proof.
  intros H1 H2 H3 H4. unfold statusFilter.
  apply String.eqb_neq in H1, H2, H3, H4. now rewrite H1, H2, H3, H4.
Qed.

Lemma filter_true_ext {A : Type} (p : A -> bool) (l : list A) :
  (forall x, p x = true) -> filter p l = l.
Proof.
  intro H. induction l as [|a t IH]; cbn [filter]; [reflexivity|].
  now rewrite H, IH.
Qed.

(** The status column of a row that the select list does not raise on. *)
Lemma status_columns_Some (CURRENT_DATE : Z) (pd : option Document) (cols : StatusColumns) :
  status_columns CURRENT_DATE pd = Some cols ->
  DocStatusOf cols = doc_status CURRENT_DATE (pd_expiry_date pd).
Proof.
  unfold status_columns.
  destruct (expiry_days_left CURRENT_DATE (pd_expiry_date pd)); [|discriminate].
  intro H. injection H as <-. reflexivity.
Qed.

(** What the three filters say of the status column. *)
Lemma statusFilter_status (CURRENT_DATE : Z) (f : string) (pd : option Document) :
  statusFilter f CURRENT_DATE pd = true ->
  (f = "expired" -> doc_status CURRENT_DATE (pd_expiry_date pd) = expired)
  /\ (f = "expiring" -> doc_status CURRENT_DATE (pd_expiry_date pd) = expiring)
  /\ (f = "valid" \/ f = "active" -> doc_status CURRENT_DATE (pd_expiry_date pd) = valid).
Proof.
  intro Hf. split; [|split].
  - intros ->. change (dated (DashboardHandler.is_expired CURRENT_DATE) pd = true) in Hf.
    unfold dated, DashboardHandler.is_expired, doc_status in *.
    destruct (pd_expiry_date pd) as [x|]; [|discriminate Hf]. now rewrite Hf.
  - intros ->. change (dated (DashboardHandler.is_expiring_soon CURRENT_DATE) pd = true) in Hf.
    unfold dated, DashboardHandler.is_expiring_soon, doc_status in *.
    destruct (pd_expiry_date pd) as [x|]; [|discriminate Hf].
    apply andb_true_iff in Hf. destruct Hf as [H1 H2].
    unfold Dates.ltb. now rewrite H1, H2.
  - assert (dated (DashboardHandler.is_active CURRENT_DATE) pd = true ->
            doc_status CURRENT_DATE (pd_expiry_date pd) = valid) as Hvalid.
    { unfold dated, DashboardHandler.is_active, doc_status.
      destruct (pd_expiry_date pd) as [x|]; [|discriminate].
      intro Hx. unfold Dates.ltb in *.
      apply negb_true_iff in Hx. rewrite Hx.
      assert (Dates.leb (Dates.day CURRENT_DATE) x = true) as ->; [|reflexivity].
      apply (DateFacts.leb_trans _ (Dates.day (CURRENT_DATE + 30))).
      - rewrite DateFacts.leb_day. apply Z.leb_le. lia.
      - now apply DateFacts.leb_total. }
    intros [-> | ->]; apply Hvalid; exact Hf.
Qed.

(** X15. The status filter of the employee list agrees with the status column
    it is shown with: a row of a page listed under status=expired carries
    'expired', under status=expiring 'expiring', under status=valid or
    status=active 'valid', and each is the select list of a row that the
    queries without the filter range over. Any other value of the filter,
    'none' among them, filters nothing. *)
Theorem List_status_filter (CURRENT_DATE : Z) (db : DB) :
  (forall f order page limit rows total e cols,
     List CURRENT_DATE db f order page limit = Some (rows, total) ->
     In (e, cols) rows ->
     (exists pd, In (e, pd) (from_where CURRENT_DATE db "")
                 /\ status_columns CURRENT_DATE pd = Some cols)
     /\ (f = "expired" -> DocStatusOf cols = expired)
     /\ (f = "expiring" -> DocStatusOf cols = expiring)
     /\ (f = "valid" \/ f = "active" -> DocStatusOf cols = valid))
  /\ (forall f order page limit,
        f <> "expiring" -> f <> "expired" -> f <> "valid" -> f <> "active" ->
        List CURRENT_DATE db f order page limit
        = List CURRENT_DATE db "" order page limit).
Proof.
  split.
  - intros f order page limit rows total e cols HL Hin.
    destruct (StatusProperties.List_row _ _ _ _ _ _ _ _ _ _ HL Hin) as [pd [Hrow Hcols]].
    apply StatusProperties.from_where_In in Hrow. destruct Hrow as [He [Hpd Hf]].
    rewrite (status_columns_Some _ _ _ Hcols). split.
    + exists pd. split; [|assumption].
      apply StatusProperties.from_where_In. auto.
    + now apply statusFilter_status.
  - intros f order page limit H1 H2 H3 H4.
    assert (from_where CURRENT_DATE db f = from_where CURRENT_DATE db "") as Hfw.
    { unfold from_where. apply flat_map_ext. intro e.
      rewrite !filter_true_ext; auto using statusFilter_other. }
    unfold List. now rewrite Hfw.
Qed.

Lemma List_status_filter_witness :
  List Sample.today Sample.db "expiring" Sample.by_id 1 20
  = Some ([("emp-2", mkStatusColumns expiring (Some 12) (Some "work_permit"))], 1)
  /\ DocStatusOf (mkStatusColumns expiring (Some 12) (Some "work_permit")) = expiring.
Proof.
  assert (H : List Sample.today Sample.db "expiring" Sample.by_id 1 20
              = Some ([("emp-2", mkStatusColumns expiring (Some 12) (Some "work_permit"))], 1))
    by reflexivity.
  split; [exact H|].
  exact (proj1 (proj2 (proj2 (proj1 (List_status_filter Sample.today Sample.db)
                                    _ _ _ _ _ _ _ _ H (or_introl eq_refl))))
               eq_refl).
Defined.

(** *** Counting the rows of the list *)

Lemma length_filter_map_Some (cond : Dates.date -> bool) (l : list Document) :
  List.length (filter (dated cond) (map Some l))
  = List.length (filter (fun d => dated cond (Some d)) l).
Proof.
  induction l as [|a t IH]; cbn [map filter]; [reflexivity|].
  destruct (dated cond (Some a)); cbn [List.length]; now rewrite IH.
Qed.

Lemma length_filter_filter {A : Type} (p q : A -> bool) (l : list A) :
  List.length (filter q (filter p l)) = List.length (filter (fun x => p x && q x) l).
Proof.
  induction l as [|a t IH]; cbn [filter]; [reflexivity|].
  destruct (p a); cbn [filter andb]; [|assumption].
  destruct (q a); cbn [List.length]; now rewrite IH.
Qed.

Lemma join_rows_count (cond : Dates.date -> bool) (docs : list Document) (e : string) :
  List.length (filter (dated cond) (left_join_primary docs e))
  = List.length (filter (fun d => String.eqb (EmployeeID d) e
                                  && DashboardHandler.tracked cond d) docs).
Proof.
  unfold left_join_primary.
  assert (List.length
            (filter (fun d => dated cond (Some d))
                    (filter (fun pd => String.eqb (EmployeeID pd) e && IsPrimary pd) docs))
          = List.length (filter (fun d => String.eqb (EmployeeID d) e
                                          && DashboardHandler.tracked cond d) docs)) as H.
  { rewrite length_filter_filter. f_equal. apply filter_ext. intro d.
    unfold DashboardHandler.tracked, dated. cbn [pd_expiry_date].
    now rewrite andb_assoc. }
  destruct (filter (fun pd => String.eqb (EmployeeID pd) e && IsPrimary pd) docs)
    as [|a t] eqn:E.
  - cbn [filter dated pd_expiry_date List.length] in *. exact H.
  - rewrite <- H. apply length_filter_map_Some.
Qed.

Lemma list_sum_map_add {A : Type} (f g : A -> nat) (l : list A) :
  list_sum (map (fun x => (f x + g x)%nat) l)
  = (list_sum (map f l) + list_sum (map g l))%nat.
Proof. induction l as [|a t IH]; simpl; [reflexivity | rewrite IH; lia]. Qed.

Lemma list_sum_map_zero {A : Type} (l : list A) :
  list_sum (map (fun _ => 0%nat) l) = 0%nat.
Proof. induction l as [|a t IH]; simpl; [reflexivity | assumption]. Qed.

Lemma list_sum_map_one {A : Type} (l : list A) :
  list_sum (map (fun _ => 1%nat) l) = List.length l.
Proof. induction l as [|a t IH]; simpl; [reflexivity | now rewrite IH]. Qed.

Lemma list_sum_once (x : string) (emps : list string) :
  NoDup emps -> In x emps ->
  list_sum (map (fun e => if String.eqb x e then 1%nat else 0%nat) emps) = 1%nat.
Proof.
  induction emps as [|a t IH]; intros Hnd Hin; [destruct Hin|].
  inversion Hnd as [|? ? Hn Ht]; subst. cbn [map]. change (list_sum (?a :: ?l)) with (a + list_sum l)%nat.
  destruct (String.eqb_spec x a) as [->|N].
  - assert (list_sum (map (fun e => if String.eqb a e then 1%nat else 0%nat) t) = 0%nat)
      as ->; [|reflexivity].
    transitivity (list_sum (map (fun _ : string => 0%nat) t));
      [|apply list_sum_map_zero].
    f_equal. apply map_ext_in. intros e He.
    destruct (String.eqb_spec a e) as [->|_]; [contradiction | reflexivity].
  - destruct Hin as [->|Hin]; [contradiction|]. now rewrite IH.
Qed.

(** Each document belongs to one listed employee, so the rows counted
    employee by employee are the rows counted at once. *)
Lemma per_employee_count (p : Document -> bool) (emps : list string)
      (docs : list Document) :
  NoDup emps ->
  (forall d, In d docs -> In (EmployeeID d) emps) ->
  list_sum (map (fun e => List.length
                            (filter (fun d => String.eqb (EmployeeID d) e && p d) docs))
                emps)
  = List.length (filter p docs).
Proof.
  intros Hnd. induction docs as [|d t IH]; intro Hfk.
  - cbn [filter List.length]. apply list_sum_map_zero.
  - assert (forall x, In x t -> In (EmployeeID x) emps) as Ht
        by (intros x Hx; apply Hfk; now right).
    specialize (IH Ht).
    assert (forall e,
              List.length (filter (fun x => String.eqb (EmployeeID x) e && p x) (d :: t))
              = ((if String.eqb (EmployeeID d) e then (if p d then 1 else 0) else 0)
                 + List.length (filter (fun x => String.eqb (EmployeeID x) e && p x) t))%nat)
      as Hstep.
    { intro e. cbn [filter].
      destruct (String.eqb (EmployeeID d) e), (p d); reflexivity. }
    rewrite (map_ext _ _ Hstep), list_sum_map_add, IH. cbn [filter].
    destruct (p d).
    + rewrite (list_sum_once (EmployeeID d) emps Hnd (Hfk d (or_introl eq_refl))).
      reflexivity.
    + assert (list_sum (map (fun e => if String.eqb (EmployeeID d) e then 0%nat else 0%nat)
                            emps) = 0%nat) as ->; [|reflexivity].
      transitivity (list_sum (map (fun _ : string => 0%nat) emps));
        [|apply list_sum_map_zero].
      f_equal. apply map_ext. intro e.
      now destruct (String.eqb (EmployeeID d) e).
Qed.

Lemma from_where_length (CURRENT_DATE : Z) (db : DB) (f : string) :
  List.length (from_where CURRENT_DATE db f)
  = list_sum (map (fun e => List.length (filter (statusFilter f CURRENT_DATE)
                                                (left_join_primary (documents db) e)))
                  (employees db)).
Proof.
  unfold from_where. rewrite length_flat_map. f_equal. apply map_ext. intro e.
  apply length_map.
Qed.

(** The total of the count query under a filter on the date. *)
Lemma from_where_count (CURRENT_DATE : Z) (db : DB) (f : string)
      (cond : Dates.date -> bool) :
  constraints_ok db = true ->
  (forall pd, statusFilter f CURRENT_DATE pd = dated cond pd) ->
  Z.of_nat (List.length (from_where CURRENT_DATE db f))
  = count (DashboardHandler.tracked cond) (documents db).
Proof.
  intros Hok Hf. unfold count. f_equal. rewrite from_where_length.
  rewrite <- (per_employee_count (DashboardHandler.tracked cond) (employees db)
                                 (documents db)).
  - f_equal. apply map_ext. intro e.
    rewrite (filter_ext _ _ Hf). apply join_rows_count.
  - unfold constraints_ok in Hok. rewrite !andb_true_iff in Hok.
    destruct Hok as [[[He _] _] _]. now apply ListFacts.uniqueb_NoDup.
  - intros d Hd. unfold constraints_ok in Hok. rewrite !andb_true_iff in Hok.
    destruct Hok as [[[_ _] Hfk] _].
    pose proof (DocumentProperties.fkey_In _ _ _ Hfk Hd) as Hex.
    now apply HandlerProperties.In_employees.
Qed.

(** Without a filter the count query counts the employees. *)
Lemma from_where_all (CURRENT_DATE : Z) (db : DB) :
  constraints_ok db = true ->
  List.length (from_where CURRENT_DATE db "") = List.length (employees db).
Proof.
  intro Hok. rewrite from_where_length, <- list_sum_map_one. f_equal.
  apply map_ext. intro e.
  destruct (StatusProperties.left_join_primary_single
              (documents db) e (DocumentProperties.constraints_idx db Hok)) as [pd ->].
  reflexivity.
Qed.

(** What List answers when its query does not raise. *)
Lemma List_Some (CURRENT_DATE : Z) (db : DB) (f : string)
      (order : string -> string -> bool) (page limit : Z)
      (rows : list (string * StatusColumns)) (total : Z) :
  List CURRENT_DATE db f order page limit = Some (rows, total) ->
  total = Z.of_nat (List.length (from_where CURRENT_DATE db f))
  /\ 0 <= EmployeeQuery.offset_of page limit
  /\ Z.of_nat (List.length rows)
     = Z.min (EmployeeQuery.limit_of limit)
             (Z.max 0 (total - EmployeeQuery.offset_of page limit)).
Proof.
  unfold List. destruct (EmployeeQuery.offset_of page limit <? 0) eqn:Ho; [discriminate|].
  apply Z.ltb_ge in Ho.
  destruct (Sql.select _ _) as [all|] eqn:E; [|discriminate].
  intro H. injection H as <- <-. split; [reflexivity|]. split; [assumption|].
  apply SqlFacts.select_Some_length in E.
  rewrite (Permutation_length (SqlFacts.order_by_perm _ _)) in E.
  rewrite SqlFacts.page_length, E.
  assert (1 <= EmployeeQuery.limit_of limit) as Hl.
  { unfold EmployeeQuery.limit_of.
    destruct ((limit <? 1) || (100 <? limit)) eqn:B; [lia|].
    apply orb_false_iff in B. destruct B as [B _]. apply Z.ltb_ge in B. lia. }
  lia.
Qed.

(** X16. Where the constraints hold, the total that a page of the employee
    list reports under a status filter is the matching counter of the
    dashboard: expired under status=expired, expiringSoon under
    status=expiring, activeDocuments under status=valid and under
    status=active, and the number of employees without a filter. The page
    itself holds the rows from the offset on, at most as many as the limit.
    The list is answered so for every page whose offset is not negative,
    as long as no primary document has an infinite expiry date. *)
Theorem List_counts_match_dashboard (CURRENT_DATE : Z) (db : DB) :
  constraints_ok db = true ->
  (forall f order page limit rows total,
     List CURRENT_DATE db f order page limit = Some (rows, total) ->
     (f = "expired" ->
      total = DashboardHandler.Expired (DashboardHandler.GetMetrics CURRENT_DATE db))
     /\ (f = "expiring" ->
         total = DashboardHandler.ExpiringSoon (DashboardHandler.GetMetrics CURRENT_DATE db))
     /\ (f = "valid" \/ f = "active" ->
         total = DashboardHandler.ActiveDocuments
                   (DashboardHandler.GetMetrics CURRENT_DATE db))
     /\ (f = "" ->
         total = DashboardHandler.TotalEmployees
                   (DashboardHandler.GetMetrics CURRENT_DATE db))
     /\ Z.of_nat (List.length rows)
        = Z.min (EmployeeQuery.limit_of limit)
                (Z.max 0 (total - EmployeeQuery.offset_of page limit))
     /\ Z.of_nat (List.length rows) <= 100)
  /\ ((forall d, In d (documents db) -> IsPrimary d = true ->
                 ExpiryDate d <> Some Dates.infinity
                 /\ ExpiryDate d <> Some Dates.neg_infinity) ->
      forall f order page limit,
        0 <= EmployeeQuery.offset_of page limit ->
        exists rows total, List CURRENT_DATE db f order page limit = Some (rows, total)).
Proof.
  intro Hok. split.
  - intros f order page limit rows total HL.
    destruct (List_Some _ _ _ _ _ _ _ _ HL) as (Ht & Ho & Hlen).
    cbn [DashboardHandler.GetMetrics DashboardHandler.Expired
         DashboardHandler.ExpiringSoon DashboardHandler.ActiveDocuments
         DashboardHandler.TotalEmployees].
    split; [|split; [|split; [|split; [|split]]]].
    + intros ->. rewrite Ht.
      apply from_where_count; [assumption | intro pd; reflexivity].
    + intros ->. rewrite Ht.
      apply from_where_count; [assumption | intro pd; reflexivity].
    + intros [-> | ->]; rewrite Ht;
        (apply from_where_count; [assumption | intro pd; reflexivity]).
    + intros ->. rewrite Ht. f_equal. now apply from_where_all.
    + exact Hlen.
    + rewrite Hlen.
      assert (EmployeeQuery.limit_of limit <= 100); [|lia].
      unfold EmployeeQuery.limit_of.
      destruct ((limit <? 1) || (100 <? limit)) eqn:B; [lia|].
      apply orb_false_iff in B. destruct B as [_ B]. apply Z.ltb_ge in B. lia.
  - intros Hfin f order page limit Ho. unfold List.
    apply Z.ltb_ge in Ho. rewrite Ho.
    destruct (SqlFacts.select_total (list_columns CURRENT_DATE)
                (Sql.order_by (fun r1 r2 => order (fst r1) (fst r2))
                              (from_where CURRENT_DATE db f))) as [all ->]; [|eauto].
    intros [e pd] Hrow. rewrite SqlFacts.order_by_perm in Hrow.
    apply StatusProperties.from_where_In in Hrow. destruct Hrow as [_ [Hpd _]].
    unfold list_columns, status_columns, expiry_days_left. cbn [fst snd].
    destruct pd as [d|]; cbn [pd_expiry_date]; [|discriminate].
    assert (In d (documents db) /\ IsPrimary d = true) as [Hd Hp].
    { unfold left_join_primary in Hpd.
      destruct (filter _ (documents db)) as [|a t] eqn:E; [destruct Hpd as [Hpd|[]]; discriminate|].
      rewrite <- E in Hpd. apply in_map_iff in Hpd. destruct Hpd as [d' [Heq Hd']].
      injection Heq as ->. apply filter_In in Hd'. destruct Hd' as [Hd' Hb].
      apply andb_true_iff in Hb. tauto. }
    destruct (Hfin d Hd Hp) as [Hi Hn].
    destruct (ExpiryDate d) as [[|x|]|]; cbn; congruence.
Qed.

Lemma List_counts_match_dashboard_witness :
  List Sample.today Sample.db "expiring" Sample.by_id 1 20
  = Some ([("emp-2", mkStatusColumns expiring (Some 12) (Some "work_permit"))], 1)
  /\ 1 = DashboardHandler.ExpiringSoon (DashboardHandler.GetMetrics Sample.today Sample.db).
Proof.
  assert (H : List Sample.today Sample.db "expiring" Sample.by_id 1 20
              = Some ([("emp-2", mkStatusColumns expiring (Some 12) (Some "work_permit"))], 1))
    by reflexivity.
  split; [exact H|].
  exact (proj1 (proj2 (proj1 (List_counts_match_dashboard Sample.today Sample.db eq_refl)
                             _ _ _ _ _ _ H))
               eq_refl).
Defined.

End ListProperties.

(** ** The expiry alerts and the document list of an employee *)

Module AlertProperties.
Import Schema DashboardAlerts.

Lemma select_None_iff {A B : Type} (f : A -> option B) (l : list A) :
  Sql.select f l = None <-> exists a, In a l /\ f a = None.
Proof.
  split.
  - induction l as [|x t IH]; cbn [Sql.select]; [discriminate|].
    destruct (f x) as [b|] eqn:E; [|intros _; exists x; split; [now left | assumption]].
    destruct (Sql.select f t); [discriminate|].
    intros _. destruct (IH eq_refl) as [a [Ha Hf]]. exists a. split; [now right | assumption].
  - intros [a [Ha Hf]]. now apply (SqlFacts.select_None f l a).
Qed.

Lemma select_sorted {A B : Type} (f : A -> option B) (R : A -> A -> Prop)
      (R' : B -> B -> Prop) (l : list A) (bs : list B) :
  (forall a b a' b', R a b -> f a = Some a' -> f b = Some b' -> R' a' b') ->
  StronglySorted R l -> Sql.select f l = Some bs -> StronglySorted R' bs.
Proof.
  intros HR Hs. revert bs. induction Hs as [|x t Ht IH Hx]; cbn [Sql.select]; intros bs H.
  - injection H as <-. constructor.
  - destruct (f x) as [y|] eqn:E; [|discriminate H].
    destruct (Sql.select f t) as [bs'|] eqn:Et; [|discriminate H].
    injection H as <-. constructor; [now apply IH|].
    apply Forall_forall. intros b' Hb'.
    destruct (SqlFacts.select_Some_In _ _ _ _ Et Hb') as [b [Hb Hf]].
    rewrite Forall_forall in Hx. eauto.
Qed.

Lemma count_split2 (p a b : Document -> bool) (docs : list Document) :
  (forall d, In d docs -> Z.b2z (a d) + Z.b2z (b d) = Z.b2z (p d)) ->
  count a docs + count b docs = count p docs.
Proof.
  unfold count. induction docs as [|d t IH]; intro H; [reflexivity|].
  assert (forall x, In x t -> Z.b2z (a x) + Z.b2z (b x) = Z.b2z (p x)) as Ht
      by (intros x Hx; apply H; now right).
  specialize (IH Ht). specialize (H d (or_introl eq_refl)). cbn [filter].
  destruct (a d), (b d), (p d); cbn [Z.b2z] in H; try lia;
    cbn [List.length]; rewrite ?Nat2Z.inj_succ; lia.
Qed.

(** X17. Where the constraints hold, the query of the expiry alerts raises
    exactly when a primary document is dated '-infinity'. When it does
    not, the alerts are the primary documents that the dashboard counts as
    expired or as expiring soon, one alert for each, so their number is the
    sum of the two counters. Each alert has at most 30 days left; it is
    'expired' with less than 0 days left, 'urgent' with 0 to 7 and
    'warning' with more; and the alerts come in the order of their expiry
    dates, the longest overdue first. *)
Theorem GetExpiryAlerts_match_counters (CURRENT_DATE : Z) (db : DB) :
  constraints_ok db = true ->
  (GetExpiryAlerts CURRENT_DATE db = None
   <-> exists d, In d (documents db) /\ IsPrimary d = true
                 /\ ExpiryDate d = Some Dates.neg_infinity)
  /\ (forall alerts,
        GetExpiryAlerts CURRENT_DATE db = Some alerts ->
        Z.of_nat (List.length alerts)
        = DashboardHandler.Expired (DashboardHandler.GetMetrics CURRENT_DATE db)
          + DashboardHandler.ExpiringSoon (DashboardHandler.GetMetrics CURRENT_DATE db)
        /\ (forall a, In a alerts ->
              exists x,
                AlertExpiryDate a = Dates.day x
                /\ DaysLeft a = x - CURRENT_DATE
                /\ DaysLeft a <= 30
                /\ (Status a = expired <-> DaysLeft a < 0)
                /\ (Status a = urgent <-> 0 <= DaysLeft a <= 7)
                /\ (Status a = warning <-> 7 < DaysLeft a)
                /\ exists d, In d (documents db) /\ IsPrimary d = true
                             /\ ID d = DocumentID a /\ EmployeeID d = AlertEmployeeID a
                             /\ ExpiryDate d = Some (AlertExpiryDate a))
        /\ StronglySorted (fun a b => Dates.leb (AlertExpiryDate a) (AlertExpiryDate b) = true)
                          alerts).
Proof.
  intro Hok. unfold GetExpiryAlerts.
  set (sel := filter (alert_where CURRENT_DATE (employees db)) (documents db)).
  pose proof (SqlFacts.order_by_perm by_expiry sel) as Hperm.
  assert (forall d, In d (documents db) ->
            existsb (String.eqb (EmployeeID d)) (employees db) = true) as Hknown.
  { intros d Hd. unfold constraints_ok in Hok. rewrite !andb_true_iff in Hok.
    destruct Hok as [[[_ _] Hfk] _]. exact (DocumentProperties.fkey_In _ _ _ Hfk Hd). }
  assert (forall d, In d (Sql.order_by by_expiry sel) <->
            In d (documents db) /\ IsPrimary d = true
            /\ exists x, ExpiryDate d = Some x
                         /\ Dates.leb x (Dates.day (CURRENT_DATE + 30)) = true) as Hsel.
  { intro d. rewrite Hperm. unfold sel. rewrite filter_In. unfold alert_where. split.
    - intros [Hd Hw]. rewrite !andb_true_iff in Hw. destruct Hw as [[_ Hp] Hx].
      destruct (ExpiryDate d) as [x|]; [|discriminate Hx]. eauto.
    - intros [Hd [Hp [x [Hx Hle]]]]. split; [assumption|].
      now rewrite (Hknown d Hd), Hp, Hx. }
  split; [|intros alerts Hal; split; [|split]].
  - rewrite select_None_iff. split.
    + intros [d [Hd Hf]]. apply Hsel in Hd. destruct Hd as [Hd [Hp [x [Hx Hle]]]].
      exists d. split; [assumption|]. split; [assumption|].
      unfold alert_of in Hf. rewrite Hx in Hf.
      destruct x as [|x|]; [assumption | discriminate Hf | discriminate Hle].
    + intros [d [Hd [Hp Hx]]]. exists d. split.
      * apply Hsel. split; [assumption|]. split; [assumption|].
        exists Dates.neg_infinity. split; [assumption | reflexivity].
      * unfold alert_of. now rewrite Hx.
  - rewrite (SqlFacts.select_Some_length _ _ _ Hal), (Permutation_length Hperm).
    cbn [DashboardHandler.GetMetrics DashboardHandler.Expired
         DashboardHandler.ExpiringSoon].
    fold (count (alert_where CURRENT_DATE (employees db)) (documents db)).
    symmetry. apply count_split2. intros d Hd.
    unfold DashboardHandler.tracked, alert_where. rewrite (Hknown d Hd).
    cbn [andb]. destruct (IsPrimary d); cbn [andb]; [|reflexivity].
    destruct (ExpiryDate d) as [x|]; [|reflexivity].
    unfold DashboardHandler.is_expired, DashboardHandler.is_expiring_soon.
    pose proof (DateFacts.window_exclusive CURRENT_DATE (CURRENT_DATE + 30) x) as Hw.
    unfold Dates.ltb in *.
    destruct (Dates.leb x (Dates.day (CURRENT_DATE + 30))),
             (Dates.leb (Dates.day CURRENT_DATE) x); cbn in *; lia.
  - intros a Ha.
    destruct (SqlFacts.select_Some_In _ _ _ _ Hal Ha) as [d [Hd Hf]].
    apply Hsel in Hd. destruct Hd as (Hin & Hp & x & Hx & Hle).
    unfold alert_of in Hf. rewrite Hx in Hf.
    destruct x as [|x|]; cbn [Dates.minus] in Hf; try discriminate Hf.
    injection Hf as <-.
    cbn [DaysLeft AlertExpiryDate Status DocumentID AlertEmployeeID].
    rewrite DateFacts.leb_day in Hle. apply Z.leb_le in Hle.
    exists x. unfold alert_status. rewrite DateFacts.ltb_day, DateFacts.leb_day.
    split; [reflexivity|]. split; [reflexivity|]. split; [lia|].
    destruct (x <? CURRENT_DATE) eqn:A; [|destruct (x <=? CURRENT_DATE + 7) eqn:B];
      rewrite ?Z.ltb_lt, ?Z.ltb_ge, ?Z.leb_le, ?Z.leb_gt in *.
    + repeat split; try lia; try discriminate; try reflexivity.
      exists d. auto.
    + repeat split; try lia; try discriminate; try reflexivity.
      exists d. auto.
    + repeat split; try lia; try discriminate; try reflexivity.
      exists d. auto.
  - apply (select_sorted (alert_of CURRENT_DATE) (fun d1 d2 => by_expiry d1 d2 = true)
                         _ (Sql.order_by by_expiry sel)); [| |assumption].
    + intros d1 d2 a1 a2 HR H1 H2. unfold alert_of, by_expiry in *.
      destruct (ExpiryDate d1) as [x|]; [|discriminate H1].
      destruct (ExpiryDate d2) as [y|]; [|discriminate H2].
      destruct (Dates.minus x _); [|discriminate H1].
      destruct (Dates.minus y _); [|discriminate H2].
      injection H1 as <-. injection H2 as <-. exact HR.
    + apply SqlFacts.order_by_sorted; unfold by_expiry.
      * intros a b. apply SqlFacts.asc_nulls_last_total.
      * intros a b c. apply SqlFacts.asc_nulls_last_trans.
Qed.

Lemma GetExpiryAlerts_match_counters_witness :
  GetExpiryAlerts Sample.today (mkDB ["emp-1"; "emp-2"] [Sample.passport; Sample.permit_lapsed])
  = None
  /\ Z.of_nat (List.length [mkExpiryAlert "d-permit" "emp-2" "work_permit"
                                          (Dates.day (Sample.today + 12)) 12 warning])
     = DashboardHandler.Expired (DashboardHandler.GetMetrics Sample.today Sample.db)
       + DashboardHandler.ExpiringSoon (DashboardHandler.GetMetrics Sample.today Sample.db).
Proof.
  split.
  - apply (proj1 (GetExpiryAlerts_match_counters Sample.today
                    (mkDB ["emp-1"; "emp-2"] [Sample.passport; Sample.permit_lapsed])
                    eq_refl)).
    exists Sample.permit_lapsed. split; [right; left; reflexivity|]. split; reflexivity.
  - apply (proj2 (GetExpiryAlerts_match_counters Sample.today Sample.db eq_refl)).
    reflexivity.
Defined.

End AlertProperties.

Module DocumentListProperties.
Import Schema DocumentHandler DocumentQueries.

Lemma list_order_total (a b : Document) :
  list_order a b = false -> list_order b a = true.
Proof.
  unfold list_order. destruct (IsPrimary a), (IsPrimary b); cbn [Bool.eqb];
    try congruence; apply SqlFacts.asc_nulls_last_total.
Qed.

Lemma list_order_trans (a b c : Document) :
  list_order a b = true -> list_order b c = true -> list_order a c = true.
Proof.
  unfold list_order. destruct (IsPrimary a), (IsPrimary b), (IsPrimary c);
    cbn [Bool.eqb]; try congruence; apply SqlFacts.asc_nulls_last_trans.
Qed.

Lemma sorted_suffix {A : Type} (R : A -> A -> Prop) (t1 l : list A) :
  StronglySorted R (t1 ++ l) -> StronglySorted R l.
Proof.
  induction t1 as [|x t IH]; cbn [app]; [trivial|].
  intro H. apply StronglySorted_inv in H. now apply IH.
Qed.

(** X18. The document list of an employee holds the documents of that
    employee, each as often as it is stored, and no other; an employee
    without documents, known or not, gets the empty list and no error. The
    primary document, when there is one, comes first; within the primary
    and within the other documents the earlier expiry date comes first,
    '-infinity' before every day and 'infinity' after, and the documents
    without expiry date come last. *)
Theorem ListByEmployee_primary_first (db : DB) (employeeID : string) :
  employeeID <> "" ->
  exists l,
    ListByEmployee db employeeID = inr l
    /\ Permutation l (filter (fun d => String.eqb (EmployeeID d) employeeID)
                             (documents db))
    /\ (forall d, In d l <-> In d (documents db) /\ EmployeeID d = employeeID)
    /\ StronglySorted (fun a b => list_order a b = true) l
    /\ (forall p, In p l -> IsPrimary p = true ->
          exists h t, l = h :: t /\ IsPrimary h = true)
    /\ (forall a b t1 t2, l = (t1 ++ a :: b :: t2)%list ->
          IsPrimary a = IsPrimary b ->
          forall y, ExpiryDate b = Some y ->
                    exists x, ExpiryDate a = Some x /\ Dates.leb x y = true).
Proof.
  intro Hid. unfold ListByEmployee. apply String.eqb_neq in Hid. rewrite Hid.
  set (sel := filter (fun d => String.eqb (EmployeeID d) employeeID) (documents db)).
  exists (Sql.order_by list_order sel).
  pose proof (SqlFacts.order_by_perm list_order sel) as Hperm.
  pose proof (SqlFacts.order_by_sorted list_order list_order_total list_order_trans sel)
    as Hsorted.
  split; [reflexivity|]. split; [assumption|]. split; [|split; [assumption|split]].
  - intro d. split.
    + intro Hd. apply (Permutation_in _ Hperm) in Hd. unfold sel in Hd.
      apply filter_In in Hd. destruct Hd as [Hd He]. apply String.eqb_eq in He. auto.
    + intros [Hd He]. apply (Permutation_in _ (Permutation_sym Hperm)).
      apply filter_In. split; [assumption | now apply String.eqb_eq].
  - intros p Hp Hprim. destruct (Sql.order_by list_order sel) as [|h t]; [destruct Hp|].
    exists h, t. split; [reflexivity|].
    destruct Hp as [->|Hp]; [assumption|].
    inversion Hsorted as [|? ? _ Hh]; subst. rewrite Forall_forall in Hh.
    specialize (Hh p Hp). unfold list_order in Hh. rewrite Hprim in Hh.
    destruct (IsPrimary h); [reflexivity | discriminate Hh].
  - intros a b t1 t2 Hl Hab y Hy. rewrite Hl in Hsorted.
    apply sorted_suffix in Hsorted.
    inversion Hsorted as [|? ? _ Hh]; subst. inversion Hh as [|? ? Hb _]; subst.
    unfold list_order in Hb. rewrite Hab, Bool.eqb_reflx, Hy in Hb.
    destruct (ExpiryDate a) as [x|]; [|discriminate Hb].
    exists x. split; [reflexivity|]. exact Hb.
Qed.

Lemma ListByEmployee_primary_first_witness :
  exists l, ListByEmployee Sample.db "emp-1" = inr l
            /\ Permutation l (filter (fun d => String.eqb (EmployeeID d) "emp-1")
                                     (documents Sample.db)).
Proof.
  destruct (ListByEmployee_primary_first Sample.db "emp-1") as (l & H1 & H2 & _).
  - discriminate.
  - exists l. auto.
Defined.

End DocumentListProperties.

(** ** Deleting an employee *)

Module EmployeeDeleteProperties.
Import Schema DocumentHandler.

Lemma filter_filter_implied {A : Type} (p q : A -> bool) (l : list A) :
  (forall x, p x = true -> q x = true) -> filter p (filter q l) = filter p l.
Proof.
  intro H. induction l as [|a t IH]; cbn [filter]; [reflexivity|].
  destruct (q a) eqn:Q; cbn [filter].
  - now rewrite IH.
  - destruct (p a) eqn:P; [|assumption]. rewrite (H a P) in Q. discriminate.
Qed.

Lemma NoDup_filter_strings (p : string -> bool) (l : list string) :
  NoDup l -> NoDup (filter p l).
Proof. apply NoDup_filter. Qed.

Lemma existsb_filter_other (e id : string) (emps : list string) :
  e <> id ->
  existsb (String.eqb e) (filter (fun x => negb (String.eqb x id)) emps)
  = existsb (String.eqb e) emps.
Proof.
  intro Hne. induction emps as [|a t IH]; cbn [filter existsb]; [reflexivity|].
  destruct (String.eqb_spec a id) as [->|N]; cbn [negb existsb].
  - apply String.eqb_neq in Hne. now rewrite Hne.
  - now rewrite IH.
Qed.

(** The cascade leaves the constraints in place. *)
Lemma delete_employee_ok (db : DB) (id : string) :
  constraints_ok db = true ->
  constraints_ok (apply_stmt db (DeleteEmployee id)) = true.
Proof.
  intro Hok. pose proof Hok as Hok0.
  pose proof (HandlerProperties.delete_ok db
                (fun d => negb (String.eqb (EmployeeID d) id)) Hok) as Hdel.
  unfold constraints_ok in *. cbn [apply_stmt employees documents] in *.
  rewrite !andb_true_iff in *. destruct Hok as [[[He _] Hfk] _].
  destruct Hdel as [[[_ Hp] _] Hi]. repeat split; try assumption.
  - apply ListFacts.uniqueb_NoDup. apply NoDup_filter.
    now apply ListFacts.uniqueb_NoDup.
  - unfold documents_employee_id_fkey in *. rewrite forallb_forall in *.
    intros d Hd. apply filter_In in Hd. destruct Hd as [Hd Hne].
    apply negb_true_iff, String.eqb_neq in Hne.
    rewrite existsb_filter_other by assumption. now apply Hfk.
Qed.

Lemma filter_true_ext_in {A : Type} (p : A -> bool) (l : list A) :
  (forall x, In x l -> p x = true) -> filter p l = l.
Proof.
  intro H. induction l as [|a t IH]; cbn [filter]; [reflexivity|].
  rewrite (H a (or_introl eq_refl)). f_equal. apply IH. intros x Hx. apply H. now right.
Qed.

(** X19. For a text that is no UUID the Delete of an employee answers 500
    and changes nothing. For a text that is a UUID, where the constraints
    hold: deleting a known employee answers 200 and removes the employee
    together with all documents of the employee and no other document;
    afterwards the employee is unknown (404), has no documents listed, and
    the status of every other employee is what it was. Deleting an unknown
    employee answers 404 and changes nothing. *)
Theorem Delete_employee_cascades (uuid_in : string -> option string) (db : DB)
        (id : string) (CURRENT_DATE : Z) :
  constraints_ok db = true ->
  id <> "" ->
  (uuid_in id = None ->
   EmployeeWrites.Delete uuid_in db id = (JSONError 500 "Failed to delete employee", db))
  /\ (forall u, uuid_in id = Some u ->
        (In u (employees db) ->
         fst (EmployeeWrites.Delete uuid_in db id)
         = JSON 200 "Employee deleted successfully" None)
        /\ (~ In u (employees db) ->
            EmployeeWrites.Delete uuid_in db id = (JSONError 404 "Employee not found", db))
        /\ documents (snd (EmployeeWrites.Delete uuid_in db id))
           = filter (fun d => negb (String.eqb (EmployeeID d) u)) (documents db)
        /\ (forall d, In d (documents (snd (EmployeeWrites.Delete uuid_in db id))) ->
                      EmployeeID d <> u)
        /\ EmployeeHandler.GetByID CURRENT_DATE (snd (EmployeeWrites.Delete uuid_in db id)) u
           = None
        /\ (u <> "" ->
            DocumentQueries.ListByEmployee (snd (EmployeeWrites.Delete uuid_in db id)) u
            = inr [])
        /\ (forall e, e <> u ->
              EmployeeHandler.GetByID CURRENT_DATE
                                      (snd (EmployeeWrites.Delete uuid_in db id)) e
              = EmployeeHandler.GetByID CURRENT_DATE db e)).
Proof.
  intros Hok Hid. pose proof Hid as Hid'. apply String.eqb_neq in Hid'.
  split; [intro Hu; unfold EmployeeWrites.Delete; now rewrite Hid', Hu|].
  intros u Hu.
  assert (exec db (DeleteEmployee u) = Some (apply_stmt db (DeleteEmployee u))) as Hexec
      by (unfold exec; now rewrite delete_employee_ok).
  assert (snd (EmployeeWrites.Delete uuid_in db id) = apply_stmt db (DeleteEmployee u))
    as Hsnd.
  { unfold EmployeeWrites.Delete. rewrite Hid', Hu, Hexec.
    now destruct (existsb _ (employees db)). }
  assert (forall d, In d (filter (fun d => negb (String.eqb (EmployeeID d) u))
                                 (documents db)) -> EmployeeID d <> u) as Hgone.
  { intros d Hd. apply filter_In in Hd. destruct Hd as [_ Hd].
    now apply negb_true_iff, String.eqb_neq in Hd. }
  split; [|split; [|split; [|split; [|split; [|split]]]]].
  - intro Hin. unfold EmployeeWrites.Delete. rewrite Hid', Hu, Hexec.
    assert (existsb (fun e => String.eqb e u) (employees db) = true) as ->
        by (apply existsb_exists; exists u; split; [assumption | apply String.eqb_refl]).
    reflexivity.
  - intro Hnot. unfold EmployeeWrites.Delete. rewrite Hid', Hu, Hexec.
    assert (existsb (fun e => String.eqb e u) (employees db) = false) as Hex.
    { destruct (existsb _ (employees db)) eqn:E; [|reflexivity].
      apply existsb_exists in E. destruct E as [e [He Ee]].
      apply String.eqb_eq in Ee. subst e. contradiction. }
    rewrite Hex. f_equal. cbn [apply_stmt].
    rewrite (HandlerProperties.filter_none_matches _ _ Hex).
    assert (filter (fun d => negb (String.eqb (EmployeeID d) u)) (documents db)
            = documents db) as ->; [|apply HandlerProperties.db_eta].
    apply filter_true_ext_in. intros d Hd.
    apply negb_true_iff, String.eqb_neq. intros E. apply Hnot. rewrite <- E.
    unfold constraints_ok in Hok. rewrite !andb_true_iff in Hok.
    destruct Hok as [[[_ _] Hfk] _].
    pose proof (DocumentProperties.fkey_In _ _ _ Hfk Hd) as Hx.
    now apply HandlerProperties.In_employees.
  - now rewrite Hsnd.
  - rewrite Hsnd. exact Hgone.
  - rewrite Hsnd. unfold EmployeeHandler.GetByID. cbn [apply_stmt employees].
    assert (existsb (String.eqb u)
                    (filter (fun e => negb (String.eqb e u)) (employees db)) = false)
      as ->; [|reflexivity].
    destruct (existsb _ _) eqn:E; [|reflexivity].
    apply existsb_exists in E. destruct E as [e [He Ee]].
    apply String.eqb_eq in Ee. subst e. apply filter_In in He.
    destruct He as [_ He]. now rewrite String.eqb_refl in He.
  - intro Hne. apply String.eqb_neq in Hne.
    rewrite Hsnd. unfold DocumentQueries.ListByEmployee. rewrite Hne.
    cbn [apply_stmt documents].
    assert (filter (fun d => String.eqb (EmployeeID d) u)
                   (filter (fun d => negb (String.eqb (EmployeeID d) u)) (documents db))
            = []) as ->; [|reflexivity].
    destruct (filter _ (filter _ (documents db))) as [|x t] eqn:E; [reflexivity|].
    assert (In x (x :: t)) as Hx by now left. rewrite <- E in Hx.
    apply filter_In in Hx. destruct Hx as [Hx Ex]. apply String.eqb_eq in Ex.
    exfalso. exact (Hgone x Hx Ex).
  - intros e He. rewrite Hsnd. unfold EmployeeHandler.GetByID.
    cbn [apply_stmt employees documents]. rewrite existsb_filter_other by assumption.
    unfold EmployeeHandler.left_join_primary.
    rewrite filter_filter_implied; [reflexivity|].
    intros x Hx. apply andb_true_iff in Hx. destruct Hx as [Hx _].
    apply String.eqb_eq in Hx. apply negb_true_iff, String.eqb_neq. congruence.
Qed.

Lemma Delete_employee_cascades_witness :
  documents (snd (EmployeeWrites.Delete Uuid.uuid_in Uuid.db
                                        "770E8400-E29B-41D4-A716-446655440001"))
  = [Uuid.jane_visa]
  /\ EmployeeWrites.Delete Uuid.uuid_in Uuid.db "emp-1"
     = (JSONError 500 "Failed to delete employee", Uuid.db).
Proof.
  split.
  - rewrite (proj1 (proj2 (proj2 (proj2 (Delete_employee_cascades
                                          Uuid.uuid_in Uuid.db
                                          "770E8400-E29B-41D4-A716-446655440001"
                                          Sample.today eq_refl ltac:(discriminate))
                                        Uuid.john eq_refl)))).
    reflexivity.
  - apply (proj1 (Delete_employee_cascades Uuid.uuid_in Uuid.db "emp-1" Sample.today
                    eq_refl ltac:(discriminate))).
    reflexivity.
Defined.

End EmployeeDeleteProperties.
